(** * Verification of lib/config.py (faceswap configuration store)

    A shallow embedding of [FaceswapConfig] and of the parts of Python's
    [configparser.ConfigParser] and [str] that it relies on.

    Modelling conventions:
    - Python strings are Rocq [string]s of ASCII characters; [str.lower],
      [str.upper], [str.strip] and [str.split] are written out for ASCII.
    - A [ConfigParser] is an ordered association list from names to
      ordered association lists of keys to [option string] (keys stored
      with no value, as [allow_no_value=True] permits, map to [None]).  The
      entry named "DEFAULT" is the parser's [_defaults]; the other entries
      are its [_sections].  [optionxform = str], so keys are
      case-sensitive.  Reads go through [BasicInterpolation] ("%%" and
      "%(name)s" references, looked up in the section and then in the
      defaults) and [set] checks the [%] syntax of the value it stores.
    - A file is represented by the parser content [config.write] wrote
      it from; [read_view] is what [config.read] gets back from it, for
      files satisfying [plain_file].
    - [OrderedDict]s of the schema are association lists.  The value the
      source stores under a section's key ["helptext"] is a record field
      of its own ([sec_helptext]): the section's help text, or the option
      an [add_item] titled "helptext" put there in its place; the other
      keys are the options ([sec_items]).
    - Fallible code returns [result]. *)

From stdpp Require Import base list gmap strings.
From Stdlib Require Import ZArith Ascii String.

Set Warnings "-register-all".

Local Open Scope string_scope.

(* ------------------------------------------------------------------ *)
(** ** Python string primitives (ASCII) *)

Module PyStr.

(** [str.isspace] on ASCII: \t \n \v \f \r, the separators 0x1c-0x1f and
    the space. *)
Definition is_space (c : ascii) : bool :=
  let n := Ascii.nat_of_ascii c in
  ((9 <=? n) && (n <=? 13))%nat || ((28 <=? n) && (n <=? 32))%nat.

Definition lower_char (c : ascii) : ascii :=
  let n := Ascii.nat_of_ascii c in
  if ((65 <=? n) && (n <=? 90))%nat then Ascii.ascii_of_nat (n + 32) else c.

Definition upper_char (c : ascii) : ascii :=
  let n := Ascii.nat_of_ascii c in
  if ((97 <=? n) && (n <=? 122))%nat then Ascii.ascii_of_nat (n - 32) else c.

Fixpoint map_chars (f : ascii -> ascii) (s : string) : string :=
  match s with
  | EmptyString => EmptyString
  | String c r => String (f c) (map_chars f r)
  end.

(** [s.lower()] and [s.upper()] *)
Definition lower (s : string) : string := map_chars lower_char s.
Definition upper (s : string) : string := map_chars upper_char s.

(** [s.lstrip()] *)
Fixpoint lstrip (s : string) : string :=
  match s with
  | EmptyString => EmptyString
  | String c r => if is_space c then lstrip r else s
  end.

(** [s.rstrip()] *)
Fixpoint rstrip (s : string) : string :=
  match s with
  | EmptyString => EmptyString
  | String c r =>
      match rstrip r with
      | EmptyString => if is_space c then EmptyString else String c EmptyString
      | r' => String c r'
      end
  end.

(** [s.strip()] *)
Definition strip (s : string) : string := rstrip (lstrip s).

(** [ch in s] for a one-character [ch] *)
Fixpoint contains (ch : ascii) (s : string) : bool :=
  match s with
  | EmptyString => false
  | String c r => Ascii.eqb c ch || contains ch r
  end.

(** [s.startswith(p)] *)
Definition startswith (p s : string) : bool := String.prefix p s.

(** [s.split(sep)] for a one-character separator: every occurrence
    separates, so [n] separators give [n + 1] pieces. *)
Fixpoint split_on (sep : ascii) (s : string) : list string :=
  match s with
  | EmptyString => [EmptyString]
  | String c r =>
      if Ascii.eqb c sep then EmptyString :: split_on sep r
      else match split_on sep r with
           | t :: ts => String c t :: ts
           | [] => [String c EmptyString]
           end
  end.

(** [s.split()] (no separator): the maximal runs of non-whitespace. *)
Fixpoint split_ws (s : string) : list string :=
  match s with
  | EmptyString => []
  | String c r =>
      if is_space c then split_ws r
      else match r with
           | String c' _ =>
               if is_space c' then String c EmptyString :: split_ws r
               else match split_ws r with
                    | t :: ts => String c t :: ts
                    | [] => [String c EmptyString]
                    end
           | EmptyString => [String c EmptyString]
           end
  end.

(** [sep.join(l)] *)
Fixpoint join (sep : string) (l : list string) : string :=
  match l with
  | [] => EmptyString
  | [x] => x
  | x :: xs => String.append x (String.append sep (join sep xs))
  end.

(** [s.replace(old_ch, new)] for a one-character [old_ch] *)
Fixpoint replace_char (old : ascii) (new s : string) : string :=
  match s with
  | EmptyString => EmptyString
  | String c r =>
      if Ascii.eqb c old then String.append new (replace_char old new r)
      else String c (replace_char old new r)
  end.

End PyStr.

Definition nl : ascii := Ascii.ascii_of_nat 10.
Definition tab : ascii := Ascii.ascii_of_nat 9.
Definition cr : ascii := Ascii.ascii_of_nat 13.
Definition comma : ascii := ",".

(* ------------------------------------------------------------------ *)
(** ** [_parse_list] on the raw stored value (config.py:162-188) *)

(** [_parse_list] once [self.config.get(section, option)] has produced
    [raw_option]; [None] is a key stored without a value. *)
Definition parse_list_raw (raw_option : option string) : list string :=
  match raw_option with
  | None => []
  | Some EmptyString => []
  | Some raw =>
      let pieces := if PyStr.contains comma raw then PyStr.split_on comma raw
                    else PyStr.split_ws raw in
      map (fun opt => PyStr.lower (PyStr.strip opt)) pieces
  end.

(* ------------------------------------------------------------------ *)
(** ** Errors and Python values *)

(** The exceptions the modelled code can raise. *)
Inductive error :=
| ValueError (msg : string)
| TypeError
| AttributeError
| KeyError (key : string)
| NoSectionError (section : string)
| NoOptionError (section option : string)
| DuplicateSectionError (section : string)
| InterpolationSyntaxError (option section : string)
| InterpolationMissingOptionError (option section reference : string)
| InterpolationDepthError (option section : string).

Inductive result (A : Type) :=
| Ok (a : A)
| Err (e : error).
Arguments Ok {A} a.
Arguments Err {A} e.

Definition bind {A B} (r : result A) (f : A -> result B) : result B :=
  match r with Ok a => f a | Err e => Err e end.

Notation "'let*' x ':=' r 'in' k" := (bind r (fun x => k))
  (at level 200, x name, r at level 100, k at level 200).

(** The [datatype] argument of [add_item]: a Python type object. *)
Inductive pytype := TStr | TBool | TInt | TFloat | TList | TOther (name : string).

Definition pytype_eqb (a b : pytype) : bool :=
  match a, b with
  | TStr, TStr | TBool, TBool | TInt, TInt | TFloat, TFloat | TList, TList => true
  | TOther x, TOther y => String.eqb x y
  | _, _ => false
  end.

(** Python objects passed as [default], [rounding] or [min_max] bounds.
    A float is given by its [repr] string (what [str()] prints for it). *)
Inductive pyval :=
| PNone
| PStr (s : string)
| PBool (b : bool)
| PInt (z : Z)
| PFloat (repr : string)
| PList (l : list pyval).

(** Decimal digits of a natural number, most significant first. *)
Fixpoint digits_of_pos_aux (fuel : nat) (n : N) (acc : list nat) : list nat :=
  match fuel with
  | O => acc
  | S f =>
      let acc' := N.to_nat (n mod 10)%N :: acc in
      if (n <? 10)%N then acc' else digits_of_pos_aux f (n / 10)%N acc'
  end.

Definition digits_of_N (n : N) : list nat :=
  digits_of_pos_aux (S (N.size_nat n)) n [].

Definition digit_char (d : nat) : ascii := Ascii.ascii_of_nat (48 + d).

Definition string_of_digits (ds : list nat) : string :=
  fold_right (fun d s => String (digit_char d) s) EmptyString ds.

(** [str(z)] for an [int] *)
Definition str_of_Z (z : Z) : string :=
  match z with
  | Z.neg p => String "-" (string_of_digits (digits_of_N (Npos p)))
  | _ => string_of_digits (digits_of_N (Z.to_N z))
  end.

Definition hex_digit (n : nat) : ascii :=
  if (n <? 10)%nat then Ascii.ascii_of_nat (48 + n) else Ascii.ascii_of_nat (87 + n).

(** One character of [repr(s)] for a string delimited by [quote]: the
    quote and the backslash are escaped, \t \n \r get their escapes, and
    the other non-printable characters (the C0 controls, DEL, and the
    Latin-1 controls, no-break space and soft hyphen) are written \xNN. *)
Definition repr_char (quote c : ascii) : string :=
  let n := Ascii.nat_of_ascii c in
  if Ascii.eqb c quote || Ascii.eqb c "\" then String "\" (String c EmptyString)
  else if (n =? 9)%nat then String "\" (String "t" EmptyString)
  else if (n =? 10)%nat then String "\" (String "n" EmptyString)
  else if (n =? 13)%nat then String "\" (String "r" EmptyString)
  else if (n <? 32)%nat || (n =? 127)%nat || ((128 <=? n) && (n <=? 160))%nat || (n =? 173)%nat
  then String "\" (String "x" (String (hex_digit (n / 16)) (String (hex_digit (n mod 16)) EmptyString)))
  else String c EmptyString.

(** [repr(s)] for a [str]: single quotes, unless [s] contains a single
    quote and no double quote. *)
Definition py_repr_str (s : string) : string :=
  let dq := Ascii.ascii_of_nat 34 in
  let quote := if PyStr.contains "'" s && negb (PyStr.contains dq s) then dq else "'"%char in
  String quote (String.append (String.concat "" (map (repr_char quote) (list_ascii_of_string s)))
                              (String quote EmptyString)).

(** [str(x)]; the elements of a list are printed with their [repr]. *)
Fixpoint py_str (v : pyval) : string :=
  match v with
  | PNone => "None"
  | PStr s => s
  | PBool true => "True"
  | PBool false => "False"
  | PInt z => str_of_Z z
  | PFloat r => r
  | PList l =>
      let fix reprs (l : list pyval) : list string :=
        match l with
        | [] => []
        | PStr s :: xs => py_repr_str s :: reprs xs
        | x :: xs => py_str x :: reprs xs
        end in
      String.append "[" (String.append (PyStr.join ", " (reprs l)) "]")
  end.

(** A Python [list] or [tuple] of strings, as passed for [choices]. *)
Inductive pyseq :=
| PyListOf (l : list string)
| PyTupleOf (l : list string).

Definition seq_items (s : pyseq) : list string :=
  match s with PyListOf l | PyTupleOf l => l end.

(** [str(choices)] for a list or tuple of strings: the items' [repr]s
    between brackets, or between parentheses with a trailing comma for a
    one-item tuple. *)
Definition str_of_pyseq (s : pyseq) : string :=
  match s with
  | PyListOf l => String.append "[" (String.append (PyStr.join ", " (map py_repr_str l)) "]")
  | PyTupleOf [x] => String.append "(" (String.append (py_repr_str x) ",)")
  | PyTupleOf l => String.append "(" (String.append (PyStr.join ", " (map py_repr_str l)) ")")
  end.

(* ------------------------------------------------------------------ *)
(** ** [int()], [float()] and ConfigParser's boolean conversion *)

Definition digit_val (c : ascii) : option nat :=
  let n := Ascii.nat_of_ascii c in
  if ((48 <=? n) && (n <=? 57))%nat then Some (n - 48)%nat else None.

(** The rest of a run of digits in which single underscores may separate
    digits (PEP 515); returns the digits and the unread input. *)
Fixpoint digits_tail (l : list ascii) : list nat * list ascii :=
  match l with
  | [] => ([], [])
  | c :: r =>
      match digit_val c with
      | Some d => let '(ds, rest) := digits_tail r in (d :: ds, rest)
      | None =>
          if Ascii.eqb c "_" then
            match r with
            | c' :: r' =>
                match digit_val c' with
                | Some d => let '(ds, rest) := digits_tail r' in (d :: ds, rest)
                | None => ([], l)
                end
            | [] => ([], l)
            end
          else ([], l)
      end
  end.

(** A non-empty run of digits. *)
Definition digit_run (l : list ascii) : option (list nat * list ascii) :=
  match l with
  | c :: r =>
      match digit_val c with
      | Some d => let '(ds, rest) := digits_tail r in Some (d :: ds, rest)
      | None => None
      end
  | [] => None
  end.

Definition Z_of_digits (ds : list nat) : Z :=
  fold_left (fun acc d => acc * 10 + Z.of_nat d)%Z ds 0%Z.

Definition take_sign (l : list ascii) : bool * list ascii :=
  match l with
  | "-"%char :: r => (true, r)
  | "+"%char :: r => (false, r)
  | _ => (false, l)
  end.

(** [int(s)] (base 10): surrounding whitespace, an optional sign, digits. *)
Definition py_int (s : string) : option Z :=
  let '(neg, body) := take_sign (list_ascii_of_string (PyStr.strip s)) in
  match digit_run body with
  | Some (ds, []) => Some (if neg then Z.opp (Z_of_digits ds) else Z_of_digits ds)
  | _ => None
  end.

(** The value of [float(s)]: [FDec m e] is the decimal [m * 10^e] that the
    literal denotes (before rounding to a double). *)
Inductive pyfloat :=
| FDec (m e : Z)
| FInf (neg : bool)
| FNan.

Definition exponent_part (l : list ascii) : option (Z * list ascii) :=
  match l with
  | c :: r =>
      if Ascii.eqb (PyStr.lower_char c) "e" then
        let '(neg, r') := take_sign r in
        match digit_run r' with
        | Some (ds, rest) =>
            Some ((if neg then Z.opp (Z_of_digits ds) else Z_of_digits ds), rest)
        | None => None
        end
      else Some (0%Z, l)
  | [] => Some (0%Z, [])
  end.

(** [float(s)]: surrounding whitespace, an optional sign, then [inf],
    [infinity] or [nan] in any case, or digits with an optional fraction
    and exponent. *)
Definition py_float (s : string) : option pyfloat :=
  let '(neg, body) := take_sign (list_ascii_of_string (PyStr.strip s)) in
  let word := PyStr.lower (string_of_list_ascii body) in
  if String.eqb word "inf" || String.eqb word "infinity" then Some (FInf neg)
  else if String.eqb word "nan" then Some FNan
  else
    let '(ipart, r1) := match digit_run body with
                        | Some (ds, rest) => (ds, rest)
                        | None => ([], body)
                        end in
    let '(fpart, r2) := match r1 with
                        | "."%char :: r =>
                            match digit_run r with
                            | Some (ds, rest) => (ds, rest)
                            | None => ([], r)
                            end
                        | _ => ([], r1)
                        end in
    if (List.length ipart + List.length fpart =? 0)%nat then None
    else
      match exponent_part r2 with
      | Some (ex, []) =>
          let m := Z_of_digits (app ipart fpart) in
          Some (FDec (if neg then Z.opp m else m) (ex - Z.of_nat (List.length fpart)))
      | _ => None
      end.

(** [ConfigParser.BOOLEAN_STATES] *)
Definition boolean_state (s : string) : option bool :=
  match PyStr.lower s with
  | "1" | "yes" | "true" | "on" => Some true
  | "0" | "no" | "false" | "off" => Some false
  | _ => None
  end.
(* ------------------------------------------------------------------ *)
(** ** Ordered dictionaries *)

(** [d.get(k)] on an ordered dictionary with string keys. *)
Fixpoint assoc_lookup {A} (k : string) (l : list (string * A)) : option A :=
  match l with
  | [] => None
  | (k', v) :: r => if String.eqb k k' then Some v else assoc_lookup k r
  end.

(** [d[k] = v]: an existing key keeps its position, a new key goes last. *)
Fixpoint assoc_set {A} (k : string) (v : A) (l : list (string * A)) : list (string * A) :=
  match l with
  | [] => [(k, v)]
  | (k', v') :: r => if String.eqb k k' then (k', v) :: r else (k', v') :: assoc_set k v r
  end.

Definition mem (x : string) (l : list string) : bool := existsb (String.eqb x) l.

(** [set(l1) == set(l2)] *)
Definition set_eqb (l1 l2 : list string) : bool :=
  forallb (fun x => mem x l2) l1 && forallb (fun x => mem x l1) l2.

(* ------------------------------------------------------------------ *)
(** ** [str.replace] *)

(** [s.replace(old, new)]: every non-overlapping occurrence of [old], left
    to right; an empty [old] matches before every character and at the
    end. *)
Fixpoint replace_aux (fuel : nat) (old new s : string) : string :=
  match fuel with
  | O => s
  | S f =>
      match s with
      | EmptyString => EmptyString
      | String c r =>
          if String.prefix old s
          then String.append new
                 (replace_aux f old new
                    (substring (String.length old) (String.length s - String.length old) s))
          else String c (replace_aux f old new r)
      end
  end.

Fixpoint interleave (new s : string) : string :=
  match s with
  | EmptyString => new
  | String c r => String.append new (String c (interleave new r))
  end.

Definition replace_str (old new s : string) : string :=
  if String.eqb old "" then interleave new s else replace_aux (String.length s) old new s.

(* ------------------------------------------------------------------ *)
(** ** ConfigParser(allow_no_value=True) with [optionxform = str] *)

(** A parser as its mapping interface shows it: [config[name]] for every
    name.  The entry named "DEFAULT" ([default_section]) is the parser's
    [_defaults]; the other entries are its [_sections], in order. *)
Definition cp_section := list (string * option string).
Definition configparser := list (string * cp_section).

(** [config._defaults] *)
Definition cp_defaults (c : configparser) : cp_section :=
  match assoc_lookup "DEFAULT" c with Some d => d | None => [] end.

(** [config.sections()]: the names of [_sections]. *)
Definition cp_sections (c : configparser) : list string :=
  filter (fun s => negb (String.eqb s "DEFAULT")) (map fst c).

(** [config.add_section(section)] *)
Definition cp_add_section (s : string) (c : configparser) : result configparser :=
  if String.eqb s "DEFAULT" then Err (ValueError "Invalid section name: 'DEFAULT'")
  else if mem s (cp_sections c) then Err (DuplicateSectionError s)
  else Ok (app c [(s, [])]).

(** [BasicInterpolation._KEYCRE.match(s)] with [_KEYCRE = %\(([^)]+)\)s]:
    the reference name and the text after the match. *)
Fixpoint keycre_name (acc s : string) : option (string * string) :=
  match s with
  | EmptyString => None
  | String c r =>
      if Ascii.eqb c ")" then
        if String.eqb acc "" then None
        else match r with
             | String c' r' => if Ascii.eqb c' "s" then Some (acc, r') else None
             | EmptyString => None
             end
      else keycre_name (String.append acc (String c EmptyString)) r
  end.

Definition keycre_match (s : string) : option (string * string) :=
  match s with
  | String c1 (String c2 r) =>
      if Ascii.eqb c1 "%" && Ascii.eqb c2 "(" then keycre_name "" r else None
  | _ => None
  end.

(** [_KEYCRE.sub('', s)]: the matches found scanning from the left are
    removed.  Every step consumes a character, so [String.length s] steps
    reach the end of [s]. *)
Fixpoint keycre_sub (fuel : nat) (s : string) : string :=
  match fuel with
  | O => s
  | S f =>
      match s with
      | EmptyString => EmptyString
      | String c r =>
          match keycre_match s with
          | Some (_, rest) => keycre_sub f rest
          | None => String c (keycre_sub f r)
          end
      end
  end.

(** [BasicInterpolation.before_set]: once the escaped "%%" and the valid
    references are removed, no "%" may remain. *)
Definition before_set (value : string) : result unit :=
  let tmp := replace_str "%%" "" value in
  let tmp := keycre_sub (String.length tmp) tmp in
  if PyStr.contains "%" tmp then Err (ValueError "invalid interpolation syntax") else Ok tt.

(** The loop of [BasicInterpolation._interpolate_some] over [rest]:
    "%%" gives "%", "%(name)s" gives the value of [name] in [map]
    (interpolated again by [interp] if it contains "%"), any other "%"
    raises.  A referenced key without a value fails on [% in None].
    Every step consumes a character, so [String.length rest] steps reach
    the end of [rest]. *)
Fixpoint interpolate_loop (fuel : nat) (interp : string -> result string)
    (map : cp_section) (option section rest : string) : result string :=
  match fuel with
  | O => Ok EmptyString
  | S f =>
      match rest with
      | EmptyString => Ok EmptyString
      | String c r =>
          if negb (Ascii.eqb c "%") then
            let* t := interpolate_loop f interp map option section r in Ok (String c t)
          else
            match r with
            | String c' r' =>
                if Ascii.eqb c' "%" then
                  let* t := interpolate_loop f interp map option section r' in
                  Ok (String "%" t)
                else if Ascii.eqb c' "(" then
                  match keycre_match rest with
                  | None => Err (InterpolationSyntaxError option section)
                  | Some (var, rest') =>
                      match assoc_lookup var map with
                      | None => Err (InterpolationMissingOptionError option section var)
                      | Some None => Err TypeError
                      | Some (Some v) =>
                          let* v' := if PyStr.contains "%" v then interp v else Ok v in
                          let* t := interpolate_loop f interp map option section rest' in
                          Ok (String.append v' t)
                      end
                  end
                else Err (InterpolationSyntaxError option section)
            | EmptyString => Err (InterpolationSyntaxError option section)
            end
      end
  end.

(** [_interpolate_some] with [depth_left = MAX_INTERPOLATION_DEPTH + 1 -
    depth]: at a depth above [MAX_INTERPOLATION_DEPTH] it raises. *)
Fixpoint interpolate_some (depth_left : nat) (map : cp_section) (option section rest : string)
    : result string :=
  match depth_left with
  | O => Err (InterpolationDepthError option section)
  | S d => interpolate_loop (String.length rest) (interpolate_some d map option section)
             map option section rest
  end.

Definition MAX_INTERPOLATION_DEPTH : nat := 10.

(** [BasicInterpolation.before_get], which starts at depth 1. *)
Definition before_get (map : cp_section) (option section value : string) : result string :=
  interpolate_some MAX_INTERPOLATION_DEPTH map option section value.

(** [config.set(section, option, value)]; [value = None] stores a key
    without a value.  A non-empty value is checked by [before_set] first;
    an empty section name or "DEFAULT" stores into the defaults. *)
Definition cp_set (s k : string) (v : option string) (c : configparser)
    : result configparser :=
  match (match v with
         | Some x => if String.eqb x "" then Ok tt else before_set x
         | None => Ok tt
         end) with
  | Err e => Err e
  | Ok _ =>
      if String.eqb s "" || String.eqb s "DEFAULT" then
        Ok (assoc_set "DEFAULT" (assoc_set k v (cp_defaults c)) c)
      else
        match assoc_lookup s c with
        | None => Err (NoSectionError s)
        | Some items => Ok (assoc_set s (assoc_set k v items) c)
        end
  end.

(** [config._unify_values(section, None)]: the section's dictionary
    chained with the defaults (the section "DEFAULT" has an empty
    dictionary of its own). *)
Definition cp_unify (s : string) (c : configparser) : result cp_section :=
  if String.eqb s "DEFAULT" then Ok (cp_defaults c)
  else match assoc_lookup s c with
       | Some items => Ok (app items (cp_defaults c))
       | None => Err (NoSectionError s)
       end.

(** [config.get(section, option)] *)
Definition cp_get (s k : string) (c : configparser) : result (option string) :=
  let* d := cp_unify s c in
  match assoc_lookup k d with
  | None => Err (NoOptionError s k)
  | Some None => Ok None
  | Some (Some v) => let* v := before_get d k s v in Ok (Some v)
  end.

(** [config.get(section, option, fallback=fallback)], which
    [config[section].get(option, fallback)] calls: the fallback when the
    section or the key is missing. *)
Definition cp_get_fallback (s k : string) (c : configparser) (fallback : pyval)
    : result pyval :=
  match cp_unify s c with
  | Err _ => Ok fallback
  | Ok d =>
      match assoc_lookup k d with
      | None => Ok fallback
      | Some None => Ok PNone
      | Some (Some v) => let* v := before_get d k s v in Ok (PStr v)
      end
  end.

(** The keys of [acc], then those of [l] not yet present, in order: the
    key order of a dict after setting the keys of [l] in turn. *)
Definition keys_in_order (l : list string) (acc : list string) : list string :=
  fold_left (fun acc k => if mem k acc then acc else app acc [k]) l acc.

(** [list(config[section])]: [config.options(section)], the section's
    keys followed by the defaults' keys it lacks; for "DEFAULT", the
    defaults' keys. *)
Definition cp_keys (s : string) (c : configparser) : list string :=
  if String.eqb s "DEFAULT" then map fst (cp_defaults c)
  else match assoc_lookup s c with
       | Some items => keys_in_order (map fst (cp_defaults c)) (map fst items)
       | None => []
       end.

(* ------------------------------------------------------------------ *)
(** ** The schema: [self.defaults] *)

(** The dictionary [add_item] stores for an option (config.py:266-274). *)
Record entry := {
  o_default : pyval;
  o_helptext : string;
  o_type : pytype;
  o_rounding : option pyval;
  o_min_max : option (pyval * pyval);
  o_choices : list string;          (* the items of the list or tuple *)
  o_gui_radio : bool;
  o_fixed : bool;
  o_group : option string
}.

(** The value under the reserved key "helptext" of a schema section: the
    section's help text, or the option dictionary [add_item] stores there
    when called with [title="helptext"]. *)
Inductive helptext_slot :=
| HText (info : string)
| HItem (opt : entry).

(** [self.defaults[title]]: the value under "helptext" and the other
    keys, the options, in declaration order. *)
Record section := {
  sec_helptext : helptext_slot;
  sec_items : list (string * entry)
}.

Definition schema := list (string * section).

(** [add_section] (config.py:204-211) *)
Definition add_section (defaults : schema) (title info : option string)
    : result schema :=
  match title, info with
  | Some t, Some i => Ok (assoc_set t {| sec_helptext := HText i; sec_items := [] |} defaults)
  | _, _ => Err (ValueError "Default config sections must have a title and information text")
  end.

(** [self.defaults[section][key]] *)
Definition sec_lookup (key : string) (sec : section) : option helptext_slot :=
  match assoc_lookup key (sec_items sec) with
  | Some e => Some (HItem e)
  | None => if String.eqb key "helptext" then Some (sec_helptext sec) else None
  end.

(** The [choices] argument of [add_item]: absent, a list or tuple of
    strings, or some other object (truthy or not). *)
Inductive choices_arg :=
| ChoicesNone
| ChoicesSeq (s : pyseq)
| ChoicesOther (truthy : bool).

(** [choices = choices or list()]: an empty list or tuple is falsy. *)
Definition choices_or_list (c : choices_arg) : choices_arg :=
  match c with
  | ChoicesNone | ChoicesOther false => ChoicesSeq (PyListOf [])
  | ChoicesSeq s => match seq_items s with [] => ChoicesSeq (PyListOf []) | _ => c end
  | _ => c
  end.

(** [expand_helptext] (config.py:276-296); unpacking a missing [min_max]
    raises [TypeError]. *)
Definition expand_helptext (helptext : string) (choices : pyseq) (default : pyval)
    (datatype : pytype) (min_max : option (pyval * pyval)) (fixed : bool)
    : result string :=
  let h := String.append helptext (String nl EmptyString) in
  let h := if fixed then h
           else String.append h (String nl (String.append
                  "This option can be updated for existing models." (String nl EmptyString))) in
  let h := if pytype_eqb datatype TList
           then String.append h (String nl (String.append
                  "If selecting multiple options then each option should be separated by a space or a comma (e.g. item1, item2, item3)"
                  (String nl EmptyString)))
           else h in
  let* h :=
    match seq_items choices with
    | _ :: _ => Ok (String.append h (String nl (String.append "Choose from: " (str_of_pyseq choices))))
    | [] =>
        match datatype, min_max with
        | TBool, _ => Ok (String.append h (String nl "Choose from: True, False"))
        | TInt, Some (cmin, cmax) =>
            Ok (String.append h (String nl (String.append "Select an integer between "
                 (String.append (py_str cmin) (String.append " and " (py_str cmax))))))
        | TFloat, Some (cmin, cmax) =>
            Ok (String.append h (String nl (String.append "Select a decimal number between "
                 (String.append (py_str cmin) (String.append " and " (py_str cmax))))))
        | TInt, None | TFloat, None => Err TypeError
        | _, _ => Ok h
        end
    end in
  Ok (String.append h (String nl (String.append "[Default: " (String.append (py_str default) "]")))).

(** [isinstance(datatype, list)]: [datatype] is a type object such as
    [list] itself, never an instance of [list]. *)
Definition isinstance_list (datatype : pytype) : bool := false.

(** [add_item] (config.py:213-274) *)
Definition add_item (defaults : schema) (section title : option string) (datatype : pytype)
    (default : pyval) (info : option string) (rounding : option pyval)
    (min_max : option (pyval * pyval)) (choices : choices_arg) (gui_radio fixed : bool)
    (group : option string) : result schema :=
  let choices := choices_or_list choices in
  match section, title, default, info with
  | Some section, Some title, default, Some info =>
      match default with
      | PNone => Err (ValueError "Default config items must have a section, title, defult and information text")
      | _ =>
      match assoc_lookup section defaults with
      | None => Err (ValueError (String.append "Section does not exist: " section))
      | Some sec =>
      if match datatype with TOther _ => true | _ => false end then
        Err (ValueError "'datatype' must be one of str, bool, float or int")
      else if (match datatype with TFloat | TInt => true | _ => false end)
              && (match rounding, min_max with Some _, Some _ => false | _, _ => true end) then
        Err (ValueError "'rounding' and 'min_max' must be set for numerical options")
      else if isinstance_list datatype
              && (match choices with ChoicesSeq s => match seq_items s with [] => true | _ => false end
                                   | _ => false end) then
        Err (ValueError "'choices' must be defined for list based configuration items")
      else
        match choices with
        | ChoicesSeq cl =>
            let* info := expand_helptext info cl default datatype min_max fixed in
            let it := {| o_default := default; o_helptext := info; o_type := datatype;
                         o_rounding := rounding; o_min_max := min_max; o_choices := seq_items cl;
                         o_gui_radio := gui_radio; o_fixed := fixed; o_group := group |} in
            (* [self.defaults[section][title] = {...}]: the title "helptext"
               replaces the help text *)
            let sec := if String.eqb title "helptext"
                       then {| sec_helptext := HItem it;
                               sec_items := filter (fun '(k, _) => negb (String.eqb k "helptext"))
                                                   (sec_items sec) |}
                       else {| sec_helptext := sec_helptext sec;
                               sec_items := assoc_set title it (sec_items sec) |} in
            Ok (assoc_set section sec defaults)
        | _ => Err (ValueError "'choices' must be a list or tuple")
        end
      end
      end
  | _, _, _, _ => Err (ValueError "Default config items must have a section, title, defult and information text")
  end.

(* ------------------------------------------------------------------ *)
(** ** Typed reads: [get] and [_parse_list] (config.py:129-188) *)

(** The Python values [get] returns. *)
Inductive value :=
| VNone
| VStr (s : string)
| VBool (b : bool)
| VInt (z : Z)
| VFloat (f : pyfloat)
| VList (l : list string).

(** [self._parse_list(section, option)] *)
Definition parse_list (config : configparser) (section option : string)
    : result (list string) :=
  let* raw_option := cp_get section option config in
  Ok (parse_list_raw raw_option).

(** [config.getboolean]; a key without a value fails on [None.lower()]. *)
Definition cp_getboolean (config : configparser) (section option : string) : result value :=
  let* v := cp_get section option config in
  match v with
  | None => Err AttributeError
  | Some v =>
      match boolean_state v with
      | Some b => Ok (VBool b)
      | None => Err (ValueError (String.append "Not a boolean: " v))
      end
  end.

(** [config.getint] *)
Definition cp_getint (config : configparser) (section option : string) : result value :=
  let* v := cp_get section option config in
  match v with
  | None => Err TypeError
  | Some v =>
      match py_int v with
      | Some z => Ok (VInt z)
      | None => Err (ValueError "invalid literal for int() with base 10")
      end
  end.

(** [config.getfloat] *)
Definition cp_getfloat (config : configparser) (section option : string) : result value :=
  let* v := cp_get section option config in
  match v with
  | None => Err TypeError
  | Some v =>
      match py_float v with
      | Some f => Ok (VFloat f)
      | None => Err (ValueError "could not convert string to float")
      end
  end.

(** [config.get] as a value *)
Definition cp_get_value (config : configparser) (section option : string) : result value :=
  let* v := cp_get section option config in
  match v with None => Ok VNone | Some s => Ok (VStr s) end.

(** [get] (config.py:129-160) *)
Definition get (defaults : schema) (config : configparser) (section option : string)
    : result value :=
  let* sec := match assoc_lookup section defaults with
              | Some sec => Ok sec | None => Err (KeyError section) end in
  let* opt := match sec_lookup option sec with
              | Some (HItem o) => Ok o
              | Some (HText _) => Err TypeError  (* indexing the help string *)
              | None => Err (KeyError option) end in
  let* retval :=
    match o_type opt with
    | TBool => cp_getboolean config section option
    | TInt => cp_getint config section option
    | TFloat => cp_getfloat config section option
    | TList => let* l := parse_list config section option in Ok (VList l)
    | _ => cp_get_value config section option
    end in
  match retval with
  | VStr s => if String.eqb (PyStr.lower s) "none" then Ok VNone else Ok retval
  | _ => Ok retval
  end.

(* ------------------------------------------------------------------ *)
(** ** [textwrap.fill] and [format_help] (config.py:346-361) *)

Module TextWrap.

(** [textwrap]'s whitespace set: \t \n \v \f \r and space. *)
Definition is_tw (c : ascii) : bool :=
  let n := Ascii.nat_of_ascii c in ((9 <=? n) && (n <=? 13))%nat || (n =? 32)%nat.

Fixpoint spaces (n : nat) : string :=
  match n with O => EmptyString | S k => String " " (spaces k) end.

(** [text.expandtabs(4)]: the column restarts after \n and \r. *)
Fixpoint expandtabs (col : nat) (s : string) : string :=
  match s with
  | EmptyString => EmptyString
  | String c r =>
      if Ascii.eqb c tab then
        let n := (4 - col mod 4)%nat in String.append (spaces n) (expandtabs (col + n) r)
      else if (Ascii.nat_of_ascii c =? 10)%nat || (Ascii.nat_of_ascii c =? 13)%nat
      then String c (expandtabs 0 r)
      else String c (expandtabs (S col) r)
  end.

(** [_munge_whitespace]: tabs expanded, every whitespace character made a
    space. *)
Definition munge (s : string) : string :=
  PyStr.map_chars (fun c => if is_tw c then " "%char else c) (expandtabs 0 s).

(** [_split] with [wordsep_simple_re]: alternating runs of whitespace and
    of other characters.  ([break_on_hyphens] is not modelled: words are
    not split after hyphens.) *)
Fixpoint chunks (s : string) : list string :=
  match s with
  | EmptyString => []
  | String c r =>
      match chunks r with
      | String c' t :: ts =>
          if Bool.eqb (is_tw c) (is_tw c') then String c (String c' t) :: ts
          else String c EmptyString :: String c' t :: ts
      | _ => [String c EmptyString]
      end
  end.

Definition is_blank (s : string) : bool := String.eqb (PyStr.strip s) "".

(** The chunks that fit on the current line. *)
Fixpoint take_fitting (width cur_len : nat) (cs : list string) : list string * list string :=
  match cs with
  | [] => ([], [])
  | c :: r =>
      if (cur_len + String.length c <=? width)%nat then
        let '(t, rest) := take_fitting width (cur_len + String.length c) r in (c :: t, rest)
      else ([], cs)
  end.

Definition sum_len (l : list string) : nat :=
  fold_right (fun s n => String.length s + n)%nat 0%nat l.

(** [_wrap_chunks] with [drop_whitespace] and [break_long_words];
    [first] is [not lines]. *)
Fixpoint wrap_chunks (fuel width : nat) (sub_indent : string) (first : bool)
    (cs : list string) : list string :=
  match fuel with
  | O => []
  | S fuel' =>
      match cs with
      | [] => []
      | c0 :: cs0 =>
          let indent := if first then EmptyString else sub_indent in
          let w := (width - String.length indent)%nat in
          let cs1 := if negb first && is_blank c0 then cs0 else cs in
          let '(cur, rest) := take_fitting w 0 cs1 in
          let '(cur, rest) :=
            match rest with
            | c :: r =>
                if (w <? String.length c)%nat then
                  let space_left := if (w <? 1)%nat then 1%nat else (w - sum_len cur)%nat in
                  (app cur [substring 0 space_left c],
                   substring space_left (String.length c - space_left) c :: r)
                else (cur, rest)
            | [] => (cur, rest)
            end in
          let cur := match rev cur with
                     | l :: init => if is_blank l then rev init else cur
                     | [] => cur
                     end in
          match cur with
          | [] => wrap_chunks fuel' width sub_indent first rest
          | _ => String.append indent (String.concat "" cur)
                   :: wrap_chunks fuel' width sub_indent false rest
          end
      end
  end.

(** [textwrap.fill(text, width, tabsize=4, subsequent_indent=...)] *)
Definition fill (text : string) (width : nat) (sub_indent : string) : string :=
  let cs := chunks (munge text) in
  String.concat (String nl EmptyString)
    (wrap_chunks (S (sum_len cs + List.length cs)) width sub_indent true cs).

End TextWrap.

(** [format_help] (config.py:346-361) *)
Definition format_help (helptext : string) (is_section : bool) : string :=
  let formatted :=
    String.concat ""
      (map (fun hlp =>
              let starts_tab := PyStr.startswith (String tab EmptyString) hlp in
              let subsequent_indent :=
                if starts_tab then String tab (String tab EmptyString) else EmptyString in
              let hlp := if starts_tab
                         then String tab (String.append "- "
                                (PyStr.strip (substring 1 (String.length hlp - 1) hlp)))
                         else hlp in
              String.append (TextWrap.fill hlp 100 subsequent_indent) (String nl EmptyString))
         (PyStr.split_on nl helptext)) in
  let body := substring 0 (String.length formatted - 1) formatted in
  let helptext := String.append "# " (PyStr.replace_char nl (String nl "# ") body) in
  if is_section then PyStr.upper helptext else String nl helptext.
(* ------------------------------------------------------------------ *)
(** ** The backing file: [config.write] then [config.read] *)

(** A key whose written text consists of blank and comment lines only:
    the help-text keys [format_help] produces.  [config.read] skips them. *)
Definition is_comment_key (k : string) : bool :=
  forallb (fun l => let t := PyStr.strip l in
                    String.eqb t "" || PyStr.startswith "#" t || PyStr.startswith ";" t)
          (PyStr.split_on nl k).

(** The value [config.read] yields for an entry written as
    [key = v.replace("\n", "\n\t")]: the first line stripped, each
    continuation line stripped (comment lines dropped, blank lines kept),
    joined by newlines and right-stripped. *)
Definition reread_value (v : string) : string :=
  match PyStr.split_on nl v with
  | [] => EmptyString
  | l0 :: ls =>
      PyStr.rstrip (PyStr.join (String nl EmptyString)
        (PyStr.strip l0 ::
           omap (fun l => let t := PyStr.strip l in
                          if String.eqb t "" then Some EmptyString
                          else if PyStr.startswith "#" t || PyStr.startswith ";" t then None
                          else Some t) ls))
  end.

(** What [config.read] keeps of an entry and the value it reads back. *)
Definition view_item (kv : string * option string) : option (string * option string) :=
  let '(k, v) := kv in if is_comment_key k then None else Some (k, option_map reread_value v).

(** A name that reads back from its header line "[name]": non-empty, with
    no "]", newline or carriage return. *)
Definition plain_name (s : string) : bool :=
  negb (String.eqb s "")
  && forallb (fun c => negb (Ascii.eqb c "]" || Ascii.eqb c nl || Ascii.eqb c cr))
             (list_ascii_of_string s).

(** A key that reads back from its line "key = value" or "key": non-empty,
    not starting with whitespace, "#", ";" or "[", not ending with
    whitespace, with no delimiter ("=" or ":"), newline or carriage
    return. *)
Definition plain_key (k : string) : bool :=
  match list_ascii_of_string k with
  | [] => false
  | c :: _ =>
      negb (PyStr.is_space c || Ascii.eqb c "#" || Ascii.eqb c ";" || Ascii.eqb c "[")
      && negb (PyStr.is_space (List.last (list_ascii_of_string k) c))
      && forallb (fun c => negb (Ascii.eqb c "=" || Ascii.eqb c ":" || Ascii.eqb c nl
                                 || Ascii.eqb c cr))
                 (list_ascii_of_string k)
  end.

Definition no_cr (s : string) : bool := negb (PyStr.contains cr s).

(** An entry whose written lines read back as [view_item] says: a comment
    key stored without a value, or a plain key whose value has no carriage
    return (reading a file turns carriage returns into newlines). *)
Definition plain_entry (kv : string * option string) : bool :=
  let '(k, v) := kv in
  (is_comment_key k && no_cr k && match v with None => true | Some _ => false end)
  || (plain_key k && match v with Some x => no_cr x | None => true end).

Fixpoint nodupb (l : list string) : bool :=
  match l with [] => true | x :: r => negb (mem x r) && nodupb r end.

(** The parsers whose written file [read_view] describes: distinct names,
    plain section names, and in each section distinct keys and plain
    entries. *)
Definition plain_file (file : configparser) : bool :=
  nodupb (map fst file)
  && forallb (fun '(s, items) => plain_name s && nodupb (map fst items)
                                 && forallb plain_entry items) file.

(** What [config.read] obtains from the file [config.write] produced from
    [file], for a [plain_file]: the defaults first (written only when
    there are some), then the sections; comment keys are skipped and
    values re-read. *)
Definition read_view (file : configparser) : configparser :=
  app (match cp_defaults file with
       | [] => []
       | d => [("DEFAULT", omap view_item d)]
       end)
      (map (fun '(s, items) => (s, omap view_item items))
           (filter (fun '(s, _) => negb (String.eqb s "DEFAULT")) file)).

(** [config.read(file)] merges the file into the parser: an existing
    section, or the defaults, is reused, keys are set in file order. *)
Definition read_key (s : string) (cfg : configparser) (kv : string * option string)
    : configparser :=
  let '(k, v) := kv in
  match assoc_lookup s cfg with
  | Some its => assoc_set s (assoc_set k v its) cfg
  | None => cfg
  end.

Definition read_section (cfg : configparser) (sv : string * cp_section) : configparser :=
  let '(s, items) := sv in
  let cfg := if mem s (map fst cfg) then cfg else app cfg [(s, [])] in
  fold_left (read_key s) items cfg.

Definition read_into (config file : configparser) : configparser :=
  fold_left read_section (read_view file) config.

(* ------------------------------------------------------------------ *)
(** ** The store *)

Inductive warning :=
| InvalidSelections (invalid : list string) (section item valid : string)
| InvalidChoice (value section item default : string).

(** A [FaceswapConfig] object together with its backing file: [st_file]
    is [None] while no file exists, and otherwise the parser content the
    file was written from. *)
Record store := {
  st_section : string;
  st_defaults : schema;
  st_config : configparser;
  st_file : option configparser;
  st_warnings : list warning
}.

Definition with_config (st : store) (c : configparser) : store :=
  {| st_section := st_section st; st_defaults := st_defaults st; st_config := c;
     st_file := st_file st; st_warnings := st_warnings st |}.

Definition with_file (st : store) (f : option configparser) : store :=
  {| st_section := st_section st; st_defaults := st_defaults st; st_config := st_config st;
     st_file := f; st_warnings := st_warnings st |}.

Definition with_warnings (st : store) (w : list warning) : store :=
  {| st_section := st_section st; st_defaults := st_defaults st; st_config := st_config st;
     st_file := st_file st; st_warnings := w |}.

Fixpoint fold_result {A B} (f : A -> B -> result A) (l : list B) (a : A) : result A :=
  match l with
  | [] => Ok a
  | x :: r => let* a' := f a x in fold_result f r a'
  end.

(** [check_exists] *)
Definition check_exists (st : store) : bool :=
  match st_file st with Some _ => true | None => false end.

(** [save_config] *)
Definition save_config (st : store) : store := with_file st (Some (st_config st)).

(** [load_config]; [ConfigParser.read] ignores a missing file. *)
Definition load_config (st : store) : store :=
  match st_file st with
  | Some f => with_config st (read_into (st_config st) f)
  | None => st
  end.

(** [insert_config_section] *)
Definition insert_config_section (section helptext : string) (config : configparser)
    : result configparser :=
  let helptext := format_help helptext true in
  let* config := cp_add_section section config in
  cp_set section helptext None config.

(** [insert_config_item]: the value is written as [str(default)]. *)
Definition insert_config_item (section item : string) (default : pyval) (option : entry)
    (config : configparser) : result configparser :=
  let helptext := format_help (o_helptext option) false in
  let* config := cp_set section helptext None config in
  cp_set section item (Some (py_str default)) config.

(** [items["helptext"]], the string [format_help] splits: a help text; an
    option's dict stored under "helptext" has no [split]. *)
Definition helptext_of (slot : helptext_slot) : result string :=
  match slot with HText h => Ok h | HItem _ => Err AttributeError end.

(** [create_default] (config.py:306-320) *)
Definition create_default (st : store) : result store :=
  let* cfg :=
    fold_result (fun cfg '(section, items) =>
        let* h := helptext_of (sec_helptext items) in
        let* cfg := insert_config_section section h cfg in
        fold_result (fun cfg '(item, opt) => insert_config_item section item (o_default opt) opt cfg)
                    (sec_items items) cfg)
      (st_defaults st) (st_config st) in
  Ok (save_config (with_config st cfg)).

(** [self.config[section].get(item, opt["default"])]: the section proxy's
    [get] passes the default as [fallback] to the parser's [get], which
    interpolates a stored string. *)
Definition existing_or_default (config : configparser) (section item : string)
    (default : pyval) : result pyval :=
  cp_get_fallback section item config default.

(** The [new_config] that [add_new_config_items] builds from [config]. *)
Definition regenerate (defaults : schema) (config : configparser) : result configparser :=
  fold_result (fun new '(section, items) =>
      let* h := helptext_of (sec_helptext items) in
      let* new := insert_config_section section h new in
      fold_result (fun new '(item, opt) =>
          let* opt_value := if negb (mem section (cp_sections config)) then Ok (o_default opt)
                            else existing_or_default config section item (o_default opt) in
          insert_config_item section item opt_value opt new)
        (sec_items items) new)
    defaults [].

(** [add_new_config_items] (config.py:384-406) *)
Definition add_new_config_items (st : store) : result store :=
  let* new := regenerate (st_defaults st) (st_config st) in
  Ok (save_config (with_config st new)).

(** The keys [check_config_change] counts as options. *)
Definition option_keys (section : string) (config : configparser) : list string :=
  filter (fun k => negb (PyStr.startswith "# " k || PyStr.startswith (String nl "# ") k))
         (cp_keys section config).

(** [check_config_change] (config.py:437-452) *)
Definition check_config_change (defaults : schema) (config : configparser) : bool :=
  if negb (set_eqb (cp_sections config) (map fst defaults)) then true
  else existsb (fun '(section, items) =>
                  negb (set_eqb (option_keys section config) (map fst (sec_items items))))
               defaults.

(** One iteration of [check_config_choices] (config.py:412-434). *)
Definition check_item_choice (section item : string) (opt : entry)
    (acc : configparser * list warning) : result (configparser * list warning) :=
  let '(config, warnings) := acc in
  match o_choices opt with
  | [] => Ok acc
  | choices =>
      if pytype_eqb (o_type opt) TList then
        let* opt_value := parse_list config section item in
        match opt_value with
        | [] => Ok acc
        | _ =>
            if existsb (fun v => negb (mem v choices)) opt_value then
              let invalid := filter (fun v => negb (mem v choices)) opt_value in
              let valid := PyStr.join ", " (filter (fun v => mem v choices) opt_value) in
              let* config := cp_set section item (Some valid) config in
              Ok (config, app warnings [InvalidSelections invalid section item valid])
            else Ok acc
        end
      else
        let* v := cp_get section item config in
        match v with
        | None => Err AttributeError
        | Some opt_value =>
            if String.eqb (PyStr.lower opt_value) "none"
               && existsb (fun c => String.eqb (PyStr.lower c) "none") choices then Ok acc
            else if negb (mem opt_value choices) then
              let default := py_str (o_default opt) in
              let* config := cp_set section item (Some default) config in
              Ok (config, app warnings [InvalidChoice opt_value section item default])
            else Ok acc
        end
  end.

(** [check_config_choices] (config.py:408-435) *)
Definition check_config_choices (st : store) : result store :=
  let* acc :=
    fold_result (fun acc '(section, items) =>
        fold_result (fun acc '(item, opt) => check_item_choice section item opt acc)
                    (sec_items items) acc)
      (st_defaults st) (st_config st, st_warnings st) in
  Ok (with_warnings (with_config st (fst acc)) (snd acc)).

(** [validate_config] (config.py:375-382) *)
Definition validate_config (st : store) : result store :=
  let* st := if check_config_change (st_defaults st) (st_config st)
             then add_new_config_items st else Ok st in
  check_config_choices st.

(** [handle_config] (config.py:454-467) *)
Definition handle_config (st : store) : result store :=
  let* st := if check_exists st then Ok st else create_default st in
  validate_config (load_config st).

(** [FaceswapConfig(section, configfile)]: a fresh parser, the schema built
    by the subclass's [set_defaults], then [handle_config]. *)
Definition init (section : string) (set_defaults : schema -> result schema)
    (file : option configparser) : result store :=
  let* defaults := set_defaults [] in
  handle_config {| st_section := section; st_defaults := defaults; st_config := [];
                   st_file := file; st_warnings := [] |}.

(** [config_dict] (config.py:113-127) *)
Definition config_dict (st : store) : result (gmap string value) :=
  let config := st_config st in
  let sections := app (filter (PyStr.startswith "global") (cp_sections config)) [st_section st] in
  fold_result (fun conf sect =>
      if negb (mem sect (cp_sections config)) then Ok conf
      else fold_result (fun conf key =>
               if PyStr.startswith "#" key || PyStr.startswith (String nl EmptyString) key
               then Ok conf
               else let* v := get (st_defaults st) config sect key in Ok (<[key := v]> conf))
             (cp_keys sect config) conf)
    sections ∅.

(** [changeable_items] (config.py:34-49) *)
Definition changeable_items (st : store) : result (gmap string value) :=
  let config := st_config st in
  let sections := app (filter (PyStr.startswith "global") (cp_sections config)) [st_section st] in
  fold_result (fun retval sect =>
      match assoc_lookup sect (st_defaults st) with
      | None => Ok retval
      | Some items =>
          fold_result (fun retval '(key, val) =>
              if o_fixed val then Ok retval
              else let* v := get (st_defaults st) config sect key in Ok (<[key := v]> retval))
            (sec_items items) retval
      end)
    sections ∅.

(* ------------------------------------------------------------------ *)
(** ** Paths: [posixpath] and the config file location *)

Module PosixPath.

Definition sep : ascii := "/".

(** [s.rfind(ch)] for a one-character [ch]; [None] stands for [-1]. *)
Fixpoint rfind (ch : ascii) (s : string) : option nat :=
  match s with
  | EmptyString => None
  | String c r =>
      match rfind ch r with
      | Some j => Some (S j)
      | None => if Ascii.eqb c ch then Some 0 else None
      end
  end.

(** [s.rstrip(ch)] for a one-character [ch] *)
Fixpoint rstrip_char (ch : ascii) (s : string) : string :=
  match s with
  | EmptyString => EmptyString
  | String c r =>
      match rstrip_char ch r with
      | EmptyString => if Ascii.eqb c ch then EmptyString else String c EmptyString
      | r' => String c r'
      end
  end.

(** [s.endswith(ch)] for a one-character [ch] *)
Fixpoint endswith_char (ch : ascii) (s : string) : bool :=
  match s with
  | EmptyString => false
  | String c EmptyString => Ascii.eqb c ch
  | String _ r => endswith_char ch r
  end.

(** [head and head != sep * len(head)] *)
Definition strippable (head : string) : bool :=
  negb (String.eqb head "") &&
  negb (forallb (fun c => Ascii.eqb c sep) (list_ascii_of_string head)).

(** [p.rfind(sep) + 1] *)
Definition after_sep (p : string) : nat :=
  match rfind sep p with Some j => S j | None => 0 end.

(** [os.path.split] *)
Definition split (p : string) : string * string :=
  let i := after_sep p in
  let head := substring 0 i p in
  let tail := substring i (String.length p - i) p in
  ((if strippable head then rstrip_char sep head else head), tail).

(** [os.path.dirname] *)
Definition dirname (p : string) : string :=
  let i := after_sep p in
  let head := substring 0 i p in
  if strippable head then rstrip_char sep head else head.

(** [os.path.join(a, *p)] *)
Definition join (a : string) (p : list string) : string :=
  fold_left (fun path b =>
      if PyStr.startswith (String sep EmptyString) b then b
      else if String.eqb path "" || endswith_char sep path then String.append path b
      else String.append path (String sep b))
    p a.

(** [os.path.splitext] ([genericpath._splitext] with [sep = "/"] and
    [extsep = "."]): the extension starts at the last dot of the last
    component, unless the component's characters before it are all dots. *)
Definition splitext (p : string) : string * string :=
  let sep_index := match rfind sep p with Some j => Z.of_nat j | None => (-1)%Z end in
  let dot_index := match rfind "." p with Some j => Z.of_nat j | None => (-1)%Z end in
  if (sep_index <? dot_index)%Z then
    let start := Z.to_nat (sep_index + 1) in
    let d := Z.to_nat dot_index in
    if existsb (fun c => negb (Ascii.eqb c "."))
               (list_ascii_of_string (substring start (d - start) p))
    then (substring 0 d p, substring d (String.length p - d) p)
    else (p, EmptyString)
  else (p, EmptyString).

End PosixPath.

(** [get_config_file] (config.py:190-202); [isfile] is
    [os.path.isfile] and [module_file] is
    [sys.modules[self.__module__].__file__]. *)
Definition get_config_file (isfile : string -> bool) (module_file : string)
    (configfile : option string) : result string :=
  match configfile with
  | Some f =>
      if isfile f then Ok f
      else Err (ValueError (String.append "Config file does not exist at: " f))
  | None =>
      let dirname := PosixPath.dirname module_file in
      let '(folder, fname) := PosixPath.split dirname in
      Ok (PosixPath.join (PosixPath.dirname folder) ["config"; String.append fname ".ini"])
  end.

(* ------------------------------------------------------------------ *)
(** ** Plugin defaults modules (config.py:90-111) *)

(** The keyword arguments [val] of an entry of a module's [_DEFAULTS]:
    an argument the dictionary leaves out has [add_item]'s default
    ([None] for [default] and [info]). *)
Record item_kwargs := {
  kw_datatype : pytype;
  kw_default : pyval;
  kw_info : option string;
  kw_rounding : option pyval;
  kw_min_max : option (pyval * pyval);
  kw_choices : choices_arg;
  kw_gui_radio : bool;
  kw_fixed : bool;
  kw_group : option string
}.

(** What the imported defaults module provides: [_HELPTEXT] and the items
    of [_DEFAULTS] in order. *)
Record defaults_module := {
  mod_helptext : option string;
  mod_defaults : list (string * item_kwargs)
}.

(** [_load_defaults_from_module]; [mod_] is the module [mod],
    [import_module(f"{module_path}.{module}")] returns. *)
Definition load_defaults_from_module (defaults : schema) (filename plugin_type : string)
    (mod_ : defaults_module) : result schema :=
  let module := fst (PosixPath.splitext filename) in
  let section := String.append plugin_type (String "." (replace_str "_defaults" "" module)) in
  let* defaults := add_section defaults (Some section) (mod_helptext mod_) in
  fold_result (fun defaults '(key, val) =>
      add_item defaults (Some section) (Some key) (kw_datatype val) (kw_default val)
        (kw_info val) (kw_rounding val) (kw_min_max val) (kw_choices val)
        (kw_gui_radio val) (kw_fixed val) (kw_group val))
    (mod_defaults mod_) defaults.

(** The value stored under [section]/[key], if any. *)
Definition cp_val (section key : string) (c : configparser) : option (option string) :=
  match assoc_lookup section c with
  | Some its => assoc_lookup key its
  | None => None
  end.

(* ------------------------------------------------------------------ *)
(** ** Auxiliary definitions for stating properties *)

(** The section [config.set] writes to: an empty name means the
    defaults. *)
Definition set_target (s : string) : string := if String.eqb s "" then "DEFAULT" else s.

(** A stored value that interpolation leaves as it is: no "%" in it. *)
Definition pct_free (x : option string) : bool :=
  match x with Some v => negb (PyStr.contains "%" v) | None => true end.

(** What [get] returns for an option of type [datatype] when
    [config.get] returned [raw]: the parser [get] dispatches to, then the "none"
    normalisation of string results. *)
Definition typed_value (datatype : pytype) (raw : option string) : result value :=
  let* retval :=
    match datatype with
    | TBool =>
        match raw with
        | None => Err AttributeError
        | Some v =>
            match boolean_state v with
            | Some b => Ok (VBool b)
            | None => Err (ValueError (String.append "Not a boolean: " v))
            end
        end
    | TInt =>
        match raw with
        | None => Err TypeError
        | Some v =>
            match py_int v with
            | Some z => Ok (VInt z)
            | None => Err (ValueError "invalid literal for int() with base 10")
            end
        end
    | TFloat =>
        match raw with
        | None => Err TypeError
        | Some v =>
            match py_float v with
            | Some f => Ok (VFloat f)
            | None => Err (ValueError "could not convert string to float")
            end
        end
    | TList => Ok (VList (parse_list_raw raw))
    | _ => Ok (match raw with None => VNone | Some s => VStr s end)
    end in
  match retval with
  | VStr s => if String.eqb (PyStr.lower s) "none" then Ok VNone else Ok retval
  | _ => Ok retval
  end.

(** The list-parsing rule in the specification's words: an empty string
    gives no items; otherwise split on commas if there is one, else on
    whitespace, and trim and lower-case every piece. *)
Definition list_rule (raw : string) : list string :=
  if String.eqb raw "" then []
  else
    let pieces := if PyStr.contains comma raw then PyStr.split_on comma raw
                  else PyStr.split_ws raw in
    map (fun t => PyStr.lower (PyStr.strip t)) pieces.

(** An option with its [min_max] replaced. *)
Definition set_min_max (mm : option (pyval * pyval)) (e : entry) : entry :=
  {| o_default := o_default e; o_helptext := o_helptext e; o_type := o_type e;
     o_rounding := o_rounding e; o_min_max := mm; o_choices := o_choices e;
     o_gui_radio := o_gui_radio e; o_fixed := o_fixed e; o_group := o_group e |}.

(** [map] over the values of an association list. *)
Definition map_snd {A B} (g : A -> B) (l : list (string * A)) : list (string * B) :=
  map (fun '(k, v) => (k, g v)) l.

(** The schema with the bounds of every option rewritten by [f]. *)
Definition map_min_max (f : option (pyval * pyval) -> option (pyval * pyval))
    (d : schema) : schema :=
  map_snd (fun sec => {| sec_helptext :=
                           match sec_helptext sec with
                           | HText h => HText h
                           | HItem e => HItem (set_min_max (f (o_min_max e)) e)
                           end;
                         sec_items := map_snd (fun e => set_min_max (f (o_min_max e)) e)
                                              (sec_items sec) |}) d.

Definition with_defaults (st : store) (d : schema) : store :=
  {| st_section := st_section st; st_defaults := d; st_config := st_config st;
     st_file := st_file st; st_warnings := st_warnings st |}.

(** A store whose schema has had its bounds rewritten by [f]. *)
Definition map_store f (st : store) : store :=
  with_defaults st (map_min_max f (st_defaults st)).

Definition rmap {A B} (g : A -> B) (r : result A) : result B :=
  match r with Ok a => Ok (g a) | Err e => Err e end.

(** The loop shared by [create_default] and [add_new_config_items]: every
    schema section is inserted with its help text, then every option with
    the value [val section item opt]. *)
Definition gen_fold (val : string -> string -> entry -> result pyval) (d : schema)
    (c : configparser) : result configparser :=
  fold_result (fun cfg '(section, items) =>
      let* h := helptext_of (sec_helptext items) in
      let* cfg := insert_config_section section h cfg in
      fold_result (fun cfg '(item, opt) =>
          let* v := val section item opt in insert_config_item section item v opt cfg)
                  (sec_items items) cfg)
    d c.

(** The value [add_new_config_items] writes for an option. *)
Definition regen_value (config : configparser) (section item : string) (opt : entry)
    : result pyval :=
  if negb (mem section (cp_sections config)) then Ok (o_default opt)
  else existing_or_default config section item (o_default opt).

(** A key that starts like a help-text comment. *)
Definition comment_like (k : string) : bool :=
  PyStr.startswith "#" k || PyStr.startswith (String nl EmptyString) k.

(** A parser in which section names, and the keys of each section, are
    distinct. *)
Definition wf_cp (c : configparser) : Prop :=
  NoDup (map fst c) /\ (forall s its, In (s, its) c -> NoDup (map fst its)).

(** A well-formed parser whose section names are plain and whose entries
    are plain: [config.write] then [config.read] gives back [read_view]. *)
Definition plain_cp (c : configparser) : Prop :=
  wf_cp c /\ (forall s its, In (s, its) c -> plain_name s && forallb plain_entry its = true).

Definition is_ok {A} (r : result A) : bool := match r with Ok _ => true | Err _ => false end.

(** The loops of [check_config_choices], named. *)
Definition choices_items (section : string) (items : list (string * entry))
    (acc : configparser * list warning) : result (configparser * list warning) :=
  fold_result (fun acc '(item, opt) => check_item_choice section item opt acc) items acc.

Definition choices_sections (defaults : schema) (acc : configparser * list warning)
    : result (configparser * list warning) :=
  fold_result (fun acc '(section, items) => choices_items section (sec_items items) acc)
    defaults acc.

(** The invariant: the value at [s]/[k] is [V] and the warnings extend [W]. *)
Definition keeps (s k : string) (V : option (option string)) (W : list warning)
    (acc : configparser * list warning) : Prop :=
  cp_val s k (fst acc) = V /\ exists w2, snd acc = app W w2.

(** A string with no whitespace character. *)
Definition no_space (v : string) : Prop :=
  Forall (fun c => PyStr.is_space c = false) (list_ascii_of_string v).

(** Every character of [s] satisfies [P]. *)
Definition chars_ok (P : ascii -> bool) (s : string) : bool :=
  forallb P (list_ascii_of_string s).

(** A schema whose default file is one [read_view] describes: plain
    section names, and in each section distinct option names that are
    plain keys and defaults whose text has no carriage return. *)
Definition plain_schema (d : schema) : bool :=
  forallb (fun '(s, sec) =>
             plain_name s && nodupb (map fst (sec_items sec))
             && forallb (fun '(k, e) => plain_key k && no_cr (py_str (o_default e)))
                        (sec_items sec)) d.

(** Not a carriage return. *)
Definition not_cr (c : ascii) : bool := negb (Ascii.eqb c cr).

(** Not a percent sign. *)
Definition not_pct (c : ascii) : bool := negb (Ascii.eqb c "%").

(** The errors [get] turns into its fallback: the interpolation errors
    (and the [TypeError] of [% in None]) that [before_get] raises are not
    among them. *)
Definition lookup_error (e : error) : bool :=
  match e with NoSectionError _ | NoOptionError _ _ => true | _ => false end.

(* ------------------------------------------------------------------ *)
(** ** A sample plugin configuration *)

(** The [set_defaults] of a small plugin config: a global section and two
    model sections, in the style of the plugins' [_config.py] files. *)
Module Sample.

Definition set_defaults (d : schema) : result schema :=
  let* d := add_section d (Some "global") (Some "Options that apply to all models") in
  let* d := add_item d (Some "global") (Some "flag") TBool (PBool true) (Some "A flag")
              None None ChoicesNone false true None in
  let* d := add_item d (Some "global") (Some "size") TInt (PInt 64) (Some "Input size")
              (Some (PInt 8)) (Some (PInt 32, PInt 128)) ChoicesNone false false None in
  let* d := add_section d (Some "model.a") (Some "Model A options") in
  let* d := add_item d (Some "model.a") (Some "mode") TStr (PStr "fast") (Some "Mode")
              None None (ChoicesSeq (PyListOf ["fast"; "slow"; "None"])) false true None in
  let* d := add_item d (Some "model.a") (Some "masks") TList (PStr "a") (Some "Masks")
              None None (ChoicesSeq (PyListOf ["a"; "c"])) false true None in
  let* d := add_item d (Some "model.a") (Some "size") TInt (PInt 256) (Some "Output size")
              (Some (PInt 8)) (Some (PInt 32, PInt 512)) ChoicesNone false true None in
  let* d := add_section d (Some "model.b") (Some "Model B options") in
  let* d := add_item d (Some "model.b") (Some "layers") TList (PList [PStr "a"; PStr "c"])
              (Some "Layers") None None (ChoicesSeq (PyListOf ["a"; "b"; "c"])) false true None in
  Ok d.

Definition defaults : schema :=
  match set_defaults [] with Ok d => d | Err _ => [] end.

(** A file saved by a user: every section and key matches the schema. *)
Definition user_file : configparser :=
  [("global", [("flag", Some "yes"); ("size", Some "1000")]);
   ("model.a", [("mode", Some "bogus"); ("masks", Some "a, b, c"); ("size", Some "256")]);
   ("model.b", [("layers", Some "")])].

(** A file from an older schema: [model.a] lacks [size] and has a
    retired key [old]; section [model.c] is retired. *)
Definition stale_file : configparser :=
  [("global", [("flag", Some "no"); ("size", Some "96")]);
   ("model.a", [("mode", Some "slow"); ("masks", Some "c"); ("old", Some "1")]);
   ("model.b", [("layers", Some "b")]);
   ("model.c", [("x", Some "1")])].

Definition no_entry : entry :=
  {| o_default := PNone; o_helptext := ""; o_type := TStr; o_rounding := None;
     o_min_max := None; o_choices := []; o_gui_radio := false; o_fixed := true;
     o_group := None |}.

Definition sec (s : string) : section :=
  match assoc_lookup s defaults with
  | Some x => x
  | None => {| sec_helptext := HText ""; sec_items := [] |}
  end.

Definition ent (s k : string) : entry :=
  match assoc_lookup k (sec_items (sec s)) with Some e => e | None => no_entry end.

Definition fresh (section : string) (file : option configparser) : store :=
  {| st_section := section; st_defaults := defaults; st_config := [];
     st_file := file; st_warnings := [] |}.

(** The store once [user_file] has been loaded. *)
Definition loaded : store := with_config (fresh "model.a" (Some user_file)) user_file.

Definition after_choices : store :=
  match check_config_choices loaded with Ok st => st | Err _ => loaded end.

(** A file from an older schema in which [global]/[flag] is a key without a
    value and [model.a] lacks two options. *)
Definition bare_file : configparser :=
  [("global", [("flag", None); ("size", Some "96")]);
   ("model.a", [("mode", Some "slow")]);
   ("model.b", [("layers", Some "b")])].

(** The schema with a second global section that also declares [flag]. *)
Definition two_globals (d : schema) : result schema :=
  let* d := set_defaults d in
  let* d := add_section d (Some "global.extra") (Some "More options for all models") in
  add_item d (Some "global.extra") (Some "flag") TBool (PBool false) (Some "Another flag")
    None None ChoicesNone false true None.

(** A fresh store for [model.a] whose file is [stale_file]. *)
Definition heals_store : store := fresh "model.a" (Some stale_file).

(** The store [create_default] produces for a fresh plugin with no file. *)
Definition created : store :=
  match create_default (fresh "model.b" None) with Ok st => st | Err _ => fresh "model.b" None end.

End Sample.

(* ================================================================== *)
(** * Proofs *)

(** ** Association lists and the parser operations *)

Lemma assoc_lookup_set {A} k k' (v : A) l :
  assoc_lookup k (assoc_set k' v l) = if String.eqb k k' then Some v else assoc_lookup k l.
Proof.
  induction l as [|[k0 v0] r IH]; simpl.
  - destruct (String.eqb k k'); reflexivity.
  - destruct (String.eqb k' k0) eqn:E1; simpl.
    + apply String.eqb_eq in E1; subst k0.
      destruct (String.eqb k k'); reflexivity.
    + destruct (String.eqb k k0) eqn:E2.
      * apply String.eqb_eq in E2; subst k0.
        destruct (String.eqb k k') eqn:E3; [|reflexivity].
        apply String.eqb_eq in E3; subst. rewrite String.eqb_refl in E1. discriminate.
      * rewrite IH. reflexivity.
Qed.

Lemma assoc_lookup_app {A} k (l1 l2 : list (string * A)) :
  assoc_lookup k (app l1 l2) =
  match assoc_lookup k l1 with Some v => Some v | None => assoc_lookup k l2 end.
Proof.
  induction l1 as [|[k0 v0] r IH]; simpl; [reflexivity|].
  destruct (String.eqb k k0); [reflexivity|exact IH].
Qed.

Lemma mem_lookup_none {A} k (l : list (string * A)) :
  mem k (map fst l) = false -> assoc_lookup k l = None.
Proof.
  induction l as [|[k0 v0] r IH]; simpl; [reflexivity|].
  intros H. apply orb_false_iff in H as [H1 H2].
  rewrite H1. exact (IH H2).
Qed.

Lemma lookup_some_mem {A} k (l : list (string * A)) v :
  assoc_lookup k l = Some v -> mem k (map fst l) = true.
Proof.
  induction l as [|[k0 v0] r IH]; simpl; [discriminate|].
  destruct (String.eqb k k0); [reflexivity|].
  intros H. rewrite (IH H). apply orb_true_r.
Qed.

Lemma assoc_lookup_In {A} k (l : list (string * A)) v :
  assoc_lookup k l = Some v -> In (k, v) l.
Proof.
  induction l as [|[k0 v0] r IH]; simpl; [discriminate|].
  destruct (String.eqb k k0) eqn:E.
  - apply String.eqb_eq in E. intros H. inversion H; subst. left. reflexivity.
  - intros H. right. exact (IH H).
Qed.

Lemma not_In_mem x l : mem x l = false -> ~ In x l.
Proof.
  unfold mem. intros H Hin. assert (existsb (String.eqb x) l = true) as H'.
  { apply existsb_exists. exists x. split; [exact Hin|apply String.eqb_refl]. }
  congruence.
Qed.

Lemma lookup_not_empty {A} s (l : list (string * A)) x :
  ~ In "" (map fst l) -> assoc_lookup s l = Some x -> String.eqb s "" = false.
Proof.
  intros Hn H. destruct (String.eqb s "") eqn:E; [|reflexivity].
  apply String.eqb_eq in E; subst. apply assoc_lookup_In in H.
  exfalso. apply Hn. apply in_map_iff. exists ("", x). auto.
Qed.

Lemma In_assoc_lookup {A} k (l : list (string * A)) v :
  NoDup (map fst l) -> In (k, v) l -> assoc_lookup k l = Some v.
Proof.
  induction l as [|[k0 v0] r IH]; simpl; [intros _ []|].
  intros Hnd Hin. inversion Hnd as [|? ? Hnot Hnd']; subst.
  destruct Hin as [Heq|Hin].
  - inversion Heq; subst. rewrite String.eqb_refl. reflexivity.
  - destruct (String.eqb k k0) eqn:E.
    + apply String.eqb_eq in E; subst. exfalso. apply Hnot.
      apply list_elem_of_In. apply in_map_iff. exists (k0, v). auto.
    + exact (IH Hnd' Hin).
Qed.

Lemma mem_cp_sections s c :
  String.eqb s "DEFAULT" = false -> mem s (cp_sections c) = mem s (map fst c).
Proof.
  intros E. unfold cp_sections. induction c as [|[s0 i0] r IH]; [reflexivity|].
  cbn [map fst]. unfold mem in *. rewrite filter_cons.
  destruct (String.eqb s0 "DEFAULT") eqn:E0; cbn [negb].
  - apply String.eqb_eq in E0; subst s0. simpl. rewrite E. simpl. exact IH.
  - simpl. rewrite IH. reflexivity.
Qed.

Lemma cp_set_check s k v c c' :
  cp_set s k v c = Ok c' ->
  match v with Some x => if String.eqb x "" then Ok tt else before_set x | None => Ok tt end
  = Ok tt.
Proof.
  unfold cp_set. destruct (match v with Some x => _ | None => _ end) as [[]|];
    [reflexivity|discriminate].
Qed.

Lemma cp_set_val s k v c c' s' k' :
  cp_set s k v c = Ok c' ->
  cp_val s' k' c' =
  if String.eqb s' (set_target s) && String.eqb k' k then Some v else cp_val s' k' c.
Proof.
  unfold cp_set, cp_val, set_target.
  destruct (match v with Some x => _ | None => _ end) as [[]|]; [|discriminate].
  destruct (String.eqb s "") eqn:Ee; cbn [orb].
  - intros H. inversion H; subst c'. rewrite assoc_lookup_set.
    destruct (String.eqb s' "DEFAULT") eqn:E; simpl.
    + apply String.eqb_eq in E; subst s'. rewrite assoc_lookup_set. unfold cp_defaults.
      destruct (assoc_lookup "DEFAULT" c); [reflexivity|].
      destruct (String.eqb k' k); reflexivity.
    + reflexivity.
  - destruct (String.eqb s "DEFAULT") eqn:Ed.
    + apply String.eqb_eq in Ed; subst s.
      intros H. inversion H; subst c'. rewrite assoc_lookup_set.
      destruct (String.eqb s' "DEFAULT") eqn:E; simpl.
      * apply String.eqb_eq in E; subst s'. rewrite assoc_lookup_set. unfold cp_defaults.
        destruct (assoc_lookup "DEFAULT" c); [reflexivity|].
        destruct (String.eqb k' k); reflexivity.
      * reflexivity.
    + destruct (assoc_lookup s c) as [its|] eqn:Hs; [|discriminate].
      intros H. inversion H; subst c'. rewrite assoc_lookup_set.
      destruct (String.eqb s' s) eqn:E; simpl.
      * apply String.eqb_eq in E; subst s'. rewrite Hs. apply assoc_lookup_set.
      * reflexivity.
Qed.

Lemma cp_set_lookup_other s k v c c' s' :
  cp_set s k v c = Ok c' -> String.eqb s' (set_target s) = false ->
  assoc_lookup s' c' = assoc_lookup s' c.
Proof.
  unfold cp_set, set_target.
  destruct (match v with Some x => _ | None => _ end) as [[]|]; [|discriminate].
  destruct (String.eqb s "") eqn:Ee; cbn [orb].
  - intros H E. inversion H; subst. rewrite assoc_lookup_set, E. reflexivity.
  - destruct (String.eqb s "DEFAULT") eqn:Ed.
    + apply String.eqb_eq in Ed; subst s.
      intros H E. inversion H; subst. rewrite assoc_lookup_set, E. reflexivity.
    + destruct (assoc_lookup s c) eqn:Hs; [|discriminate].
      intros H E. inversion H; subst. rewrite assoc_lookup_set, E. reflexivity.
Qed.

Lemma cp_set_has_section s k v c c' :
  cp_set s k v c = Ok c' -> set_target s <> "DEFAULT" -> exists its, assoc_lookup s c = Some its.
Proof.
  unfold cp_set, set_target.
  destruct (match v with Some x => _ | None => _ end) as [[]|]; [|discriminate].
  destruct (String.eqb s "") eqn:Ee; cbn [orb]; [intros _ []; reflexivity|].
  destruct (String.eqb s "DEFAULT") eqn:Ed.
  - apply String.eqb_eq in Ed; subst. intros _ []; reflexivity.
  - destruct (assoc_lookup s c); [eauto|discriminate].
Qed.

Lemma cp_add_section_lookup s c c' s' :
  cp_add_section s c = Ok c' ->
  assoc_lookup s' c' = if String.eqb s' s then Some [] else assoc_lookup s' c.
Proof.
  unfold cp_add_section. destruct (String.eqb s "DEFAULT") eqn:Ed; [discriminate|].
  rewrite (mem_cp_sections _ _ Ed).
  destruct (mem s (map fst c)) eqn:Hm; [discriminate|].
  intros H. inversion H; subst c'. rewrite assoc_lookup_app.
  destruct (String.eqb s' s) eqn:E.
  - apply String.eqb_eq in E; subst s'. rewrite (mem_lookup_none _ _ Hm). simpl.
    rewrite String.eqb_refl. reflexivity.
  - destruct (assoc_lookup s' c); [reflexivity|]. simpl. rewrite E. reflexivity.
Qed.

Lemma cp_add_section_val s c c' s' k' :
  cp_add_section s c = Ok c' -> String.eqb s' s = false -> cp_val s' k' c' = cp_val s' k' c.
Proof.
  intros H E. unfold cp_val. rewrite (cp_add_section_lookup _ _ _ _ H), E. reflexivity.
Qed.

Lemma cp_add_section_fresh s c c' :
  cp_add_section s c = Ok c' -> assoc_lookup s c = None.
Proof.
  unfold cp_add_section. destruct (String.eqb s "DEFAULT") eqn:Ed; [discriminate|].
  rewrite (mem_cp_sections _ _ Ed).
  destruct (mem s (map fst c)) eqn:Hm; [discriminate|].
  intros _. exact (mem_lookup_none _ _ Hm).
Qed.

Lemma cp_add_section_not_default s c c' :
  cp_add_section s c = Ok c' -> String.eqb s "DEFAULT" = false.
Proof. unfold cp_add_section. destruct (String.eqb s "DEFAULT"); [discriminate|reflexivity]. Qed.

(** ** Interpolation of values without "%" *)

Lemma interpolate_loop_plain fuel interp m o s v :
  PyStr.contains "%" v = false -> String.length v <= fuel ->
  interpolate_loop fuel interp m o s v = Ok v.
Proof.
  revert fuel. induction v as [|c r IH]; intros fuel Hc Hl.
  - destruct fuel; reflexivity.
  - destruct fuel as [|f]; [simpl in Hl; lia|].
    simpl in Hc. apply orb_false_iff in Hc as [Hc1 Hc2].
    simpl. rewrite Hc1. cbn [negb]. rewrite (IH f Hc2); [reflexivity|simpl in Hl; lia].
Qed.

Lemma interpolate_some_plain d m o s v :
  PyStr.contains "%" v = false -> interpolate_some (S d) m o s v = Ok v.
Proof. intros H. simpl. apply interpolate_loop_plain; [exact H|lia]. Qed.

Lemma before_get_plain m o s v :
  PyStr.contains "%" v = false -> before_get m o s v = Ok v.
Proof. apply interpolate_some_plain. Qed.

(** ** Folds *)

Lemma fold_result_app {A B} (f : A -> B -> result A) l1 l2 a :
  fold_result f (app l1 l2) a = (let* a1 := fold_result f l1 a in fold_result f l2 a1).
Proof.
  revert a. induction l1 as [|x r IH]; intros a; simpl; [reflexivity|].
  destruct (f a x); simpl; [apply IH|reflexivity].
Qed.

Lemma fold_result_inv {A B} (P : A -> Prop) (f : A -> B -> result A) l a b :
  (forall x a a', In x l -> P a -> f a x = Ok a' -> P a') ->
  P a -> fold_result f l a = Ok b -> P b.
Proof.
  revert a. induction l as [|x r IH]; intros a Hstep Ha H; simpl in H.
  - inversion H; subst; exact Ha.
  - destruct (f a x) as [a'|] eqn:Hf; simpl in H; [|discriminate].
    apply (IH a'); [intros; eapply Hstep; eauto; right; auto| |exact H].
    eapply Hstep; eauto. left; reflexivity.
Qed.

Lemma fold_result_split {A B} (f : A -> B -> result A) l1 x l2 a b :
  fold_result f (app l1 (x :: l2)) a = Ok b ->
  exists a1 a2, fold_result f l1 a = Ok a1 /\ f a1 x = Ok a2 /\ fold_result f l2 a2 = Ok b.
Proof.
  rewrite fold_result_app. destruct (fold_result f l1 a) as [a1|]; simpl; [|discriminate].
  destruct (f a1 x) as [a2|] eqn:Hf; simpl; [|discriminate].
  intros H. exists a1, a2. auto.
Qed.

Lemma fold_left_inv {A B} (P : A -> Prop) (f : A -> B -> A) l a :
  (forall x a, In x l -> P a -> P (f a x)) -> P a -> P (fold_left f l a).
Proof.
  revert a. induction l as [|x r IH]; intros a Hstep Ha; simpl; [exact Ha|].
  apply IH; [intros; apply Hstep; [right|]; auto|]. apply Hstep; [left|]; auto.
Qed.

(** ** [check_config_choices] touches each option once *)

Lemma check_item_choice_cases s k e c w c' w' :
  check_item_choice s k e (c, w) = Ok (c', w') ->
  (c' = c /\ w' = w) \/ (exists v x, cp_set s k (Some v) c = Ok c' /\ w' = app w [x]).
Proof.
  unfold check_item_choice, bind. intros H.
  repeat case_match; simplify_eq; eauto 10.
Qed.

Lemma check_item_choice_other s k e c w c' w' s0 k0 :
  check_item_choice s k e (c, w) = Ok (c', w') ->
  String.eqb s0 (set_target s) && String.eqb k0 k = false ->
  cp_val s0 k0 c' = cp_val s0 k0 c /\ exists w2, w' = app w w2.
Proof.
  intros H E. destruct (check_item_choice_cases _ _ _ _ _ _ _ H)
    as [[-> ->] | (v & x & Hs & ->)].
  - split; [reflexivity|]. exists []. rewrite app_nil_r. reflexivity.
  - split; [|eauto]. rewrite (cp_set_val _ _ _ _ _ _ _ Hs), E. reflexivity.
Qed.

Lemma check_config_choices_unfold st :
  check_config_choices st =
  (let* acc := choices_sections (st_defaults st) (st_config st, st_warnings st) in
   Ok (with_warnings (with_config st (fst acc)) (snd acc))).
Proof. reflexivity. Qed.

Lemma set_target_id s : String.eqb s "" = false -> set_target s = s.
Proof. unfold set_target. intros ->. reflexivity. Qed.

Lemma choices_items_keeps s k V W s' items acc acc' :
  (forall k', In k' (map fst items) -> String.eqb s (set_target s') && String.eqb k k' = false) ->
  keeps s k V W acc -> choices_items s' items acc = Ok acc' -> keeps s k V W acc'.
Proof.
  intros Hne. apply fold_result_inv.
  intros [k' e'] [c w] [c' w'] Hin [HV [w2 Hw]] Hstep. simpl in HV, Hw.
  destruct (check_item_choice_other _ _ _ _ _ _ _ s k Hstep) as [Hv [w3 Hw3]].
  { apply Hne. apply in_map_iff. exists (k', e'). auto. }
  split; [simpl; rewrite Hv; exact HV|]. exists (app w2 w3). simpl. rewrite Hw3, Hw, app_assoc. reflexivity.
Qed.

Lemma choices_sections_keeps s k V W d acc acc' :
  ~ In s (map fst d) -> ~ In "" (map fst d) ->
  keeps s k V W acc -> choices_sections d acc = Ok acc' -> keeps s k V W acc'.
Proof.
  intros Hnot He. apply fold_result_inv.
  intros [s' sec'] a a' Hin Hk Hstep.
  eapply choices_items_keeps; [|exact Hk|exact Hstep].
  assert (Hs' : String.eqb s' "" = false).
  { destruct (String.eqb s' "") eqn:E; [|reflexivity]. apply String.eqb_eq in E; subst.
    exfalso. apply He. apply in_map_iff. exists ("", sec'). auto. }
  rewrite (set_target_id _ Hs').
  intros k' _. destruct (String.eqb s s') eqn:E; [|reflexivity].
  apply String.eqb_eq in E; subst. exfalso. apply Hnot.
  apply in_map_iff. exists (s', sec'). auto.
Qed.

Lemma NoDup_map_fst_split {A} (l1 l2 : list (string * A)) x v :
  NoDup (map fst (app l1 ((x, v) :: l2))) ->
  ~ In x (map fst l1) /\ ~ In x (map fst l2).
Proof.
  rewrite map_app. simpl. intros H. apply NoDup_app in H as (H1 & H2 & H3).
  split.
  - intros Hin. apply (H2 x); [apply list_elem_of_In; exact Hin|left].
  - inversion H3; subst. intros Hin. apply H4. apply list_elem_of_In. exact Hin.
Qed.

Lemma not_in_map_fst_neq {A} (l : list (string * A)) x :
  ~ In x (map fst l) -> forall y, In y (map fst l) -> String.eqb x y = false.
Proof.
  intros Hn y Hy. destruct (String.eqb x y) eqn:E; [|reflexivity].
  apply String.eqb_eq in E; subst. contradiction.
Qed.

(** The option [s]/[k] is checked exactly once: against the value it had
    on entry, and what that check leaves is what remains at the end. *)
Lemma choices_sections_focus d s sec k e c0 w0 c1 w1 :
  NoDup (map fst d) -> ~ In "" (map fst d) -> In (s, sec) d ->
  NoDup (map fst (sec_items sec)) -> In (k, e) (sec_items sec) ->
  choices_sections d (c0, w0) = Ok (c1, w1) ->
  exists cb wb ca wa,
    cp_val s k cb = cp_val s k c0 /\
    check_item_choice s k e (cb, wb) = Ok (ca, wa) /\
    cp_val s k c1 = cp_val s k ca /\ exists w2, w1 = app wa w2.
Proof.
  intros Hnd Hne Hin Hndi Hini H.
  assert (Hs : String.eqb s "" = false).
  { destruct (String.eqb s "") eqn:E; [|reflexivity]. apply String.eqb_eq in E; subst.
    exfalso. apply Hne. apply in_map_iff. exists ("", sec). auto. }
  apply in_split in Hin as (d1 & d2 & ->).
  destruct (NoDup_map_fst_split _ _ _ _ Hnd) as [Hn1 Hn2].
  rewrite map_app in Hne. cbn [map] in Hne.
  assert (He1 : ~ In "" (map fst d1)) by (intros X; apply Hne; apply in_or_app; left; exact X).
  assert (He2 : ~ In "" (map fst d2)) by (intros X; apply Hne; apply in_or_app; right; right; exact X).
  unfold choices_sections in H.
  apply fold_result_split in H as ([cx wx] & [cy wy] & H1 & H2 & H3).
  assert (K1 : keeps s k (cp_val s k c0) w0 (cx, wx)).
  { apply (choices_sections_keeps s k _ _ d1 (c0, w0)); [exact Hn1|exact He1| |exact H1].
    split; [reflexivity|]. exists []. rewrite app_nil_r. reflexivity. }
  destruct K1 as [Kv _]. simpl in Kv.
  simpl in H2. unfold choices_items in H2.
  apply in_split in Hini as (i1 & i2 & Hi). rewrite Hi in H2, Hndi.
  destruct (NoDup_map_fst_split _ _ _ _ Hndi) as [Hi1 Hi2].
  apply fold_result_split in H2 as ([cb wb] & [ca wa] & G1 & G2 & G3).
  assert (K2 : keeps s k (cp_val s k c0) wx (cb, wb)).
  { apply (choices_items_keeps s k _ _ s i1 (cx, wx)); [|split; [exact Kv|exists []; rewrite app_nil_r; reflexivity]
                                 |exact G1].
    intros k' Hk'. rewrite (set_target_id _ Hs), String.eqb_refl. simpl.
    exact (not_in_map_fst_neq _ _ Hi1 _ Hk'). }
  destruct K2 as [Kb _]. simpl in Kb.
  assert (K3 : keeps s k (cp_val s k ca) wa (cy, wy)).
  { apply (choices_items_keeps s k _ _ s i2 (ca, wa)); [|split; [reflexivity|exists []; rewrite app_nil_r; reflexivity]
                                 |exact G3].
    intros k' Hk'. rewrite (set_target_id _ Hs), String.eqb_refl. simpl.
    exact (not_in_map_fst_neq _ _ Hi2 _ Hk'). }
  destruct K3 as [Kc [w3 Hw3]]. simpl in Kc, Hw3.
  assert (K4 : keeps s k (cp_val s k ca) wa (c1, w1)).
  { apply (choices_sections_keeps s k _ _ d2 (cy, wy)); [exact Hn2|exact He2| |exact H3]. split; [exact Kc|eauto]. }
  destruct K4 as [Kd Hw4]. simpl in Kd, Hw4.
  exists cb, wb, ca, wa. simpl in G2. repeat split; auto.
Qed.

Lemma cp_get_val s k c x : cp_val s k c = Some x -> pct_free x = true -> cp_get s k c = Ok x.
Proof.
  unfold cp_val, cp_get, cp_unify. intros Hv Hp.
  destruct (String.eqb s "DEFAULT") eqn:E.
  - apply String.eqb_eq in E; subst s. unfold cp_defaults.
    destruct (assoc_lookup "DEFAULT" c) as [d|]; [|discriminate]. simpl. rewrite Hv.
    destruct x as [v|]; [|reflexivity]. simpl in Hp. apply negb_true_iff in Hp.
    rewrite (before_get_plain _ _ _ _ Hp). reflexivity.
  - destruct (assoc_lookup s c) as [its|]; [|discriminate]. simpl.
    rewrite assoc_lookup_app, Hv.
    destruct x as [v|]; [|reflexivity]. simpl in Hp. apply negb_true_iff in Hp.
    rewrite (before_get_plain _ _ _ _ Hp). reflexivity.
Qed.

Lemma pytype_eqb_TList t : pytype_eqb t TList = true <-> t = TList.
Proof. destruct t; simpl; split; congruence. Qed.

Lemma check_config_choices_shape st st' :
  check_config_choices st = Ok st' ->
  exists c1 w1, choices_sections (st_defaults st) (st_config st, st_warnings st) = Ok (c1, w1) /\
    st_config st' = c1 /\ st_warnings st' = w1 /\ st_file st' = st_file st /\
    st_defaults st' = st_defaults st.
Proof.
  rewrite check_config_choices_unfold.
  destruct (choices_sections _ _) as [[c1 w1]|]; simpl; [|discriminate].
  intros H. inversion H; subst. exists c1, w1. repeat split; reflexivity.
Qed.

Lemma In_app_l {A} (x : A) l1 l2 : In x l1 -> In x (app l1 l2).
Proof. intros H. apply in_or_app. left. exact H. Qed.

(** ** C7: single-choice validation *)

(** C7 fails as stated: the check compares the value [config.get] returns,
    after interpolation, not the stored string.  A stored "%(pick)s" whose
    reference reads "slow" is not an exact member of the choices, yet it is
    kept as it is, with no warning; a stored "bogus%" is not reset either:
    the check raises. *)
Lemma check_config_choices_interpolates :
  let file v := [("global", [("flag", Some "yes"); ("size", Some "64")]);
                 ("model.a", [("mode", Some v); ("pick", Some "slow");
                              ("masks", Some "a"); ("size", Some "256")]);
                 ("model.b", [("layers", Some "a")])] in
  let st v := with_config (Sample.fresh "model.a" None) (file v) in
  mem "%(pick)s" (o_choices (Sample.ent "model.a" "mode")) = false /\
  (exists st', check_config_choices (st "%(pick)s") = Ok st' /\
     cp_val "model.a" "mode" (st_config st') = Some (Some "%(pick)s") /\
     st_warnings st' = []) /\
  check_config_choices (st "bogus%") = Err (InterpolationSyntaxError "mode" "model.a").
Proof.
  cbv zeta. split; [vm_compute; reflexivity|]. split; [|vm_compute; reflexivity].
  eexists. split; [vm_compute; reflexivity|]. split; vm_compute; reflexivity.
Qed.

(** C7 (as amended).  For an option with a declared choice set and a type other than
    [list], in a schema whose section names are not empty, whose stored
    value [v] contains no "%" (so that [config.get] returns it as it is):
    if [v] is not an exact (case-sensitive) member of the choices it is
    reset to [str(default)] and a warning is recorded, unless [v] is
    "none" in any case and some choice is "none" in any case, in which
    case [v] is kept; a member is kept as well. *)
Theorem check_config_choices_single st st' s sec k e v :
  check_config_choices st = Ok st' ->
  NoDup (map fst (st_defaults st)) -> ~ In "" (map fst (st_defaults st)) ->
  assoc_lookup s (st_defaults st) = Some sec ->
  NoDup (map fst (sec_items sec)) -> assoc_lookup k (sec_items sec) = Some e ->
  o_choices e <> [] -> o_type e <> TList ->
  cp_val s k (st_config st) = Some (Some v) -> PyStr.contains "%" v = false ->
  let none_ok := String.eqb (PyStr.lower v) "none"
                 && existsb (fun c => String.eqb (PyStr.lower c) "none") (o_choices e) in
  (none_ok = false -> mem v (o_choices e) = false ->
     cp_val s k (st_config st') = Some (Some (py_str (o_default e))) /\
     In (InvalidChoice v s k (py_str (o_default e))) (st_warnings st')) /\
  (none_ok = true -> cp_val s k (st_config st') = Some (Some v)) /\
  (mem v (o_choices e) = true -> cp_val s k (st_config st') = Some (Some v)).
Proof.
  intros H Hnd Hne Hin Hndi Hini Hch Hty Hv Hp none_ok.
  pose proof (lookup_not_empty _ _ _ Hne Hin) as Hs.
  apply assoc_lookup_In in Hin, Hini.
  apply check_config_choices_shape in H as (c1 & w1 & Hf & -> & -> & _ & _).
  destruct (choices_sections_focus _ _ _ _ _ _ _ _ _ Hnd Hne Hin Hndi Hini Hf)
    as (cb & wb & ca & wa & Hb & Hstep & Ha & w2 & Hw).
  rewrite Hv in Hb. rewrite Ha, Hw.
  unfold check_item_choice in Hstep.
  destruct (o_choices e) as [|ch chs] eqn:Hc; [contradiction|].
  destruct (pytype_eqb (o_type e) TList) eqn:Ht;
    [apply pytype_eqb_TList in Ht; contradiction|].
  rewrite (cp_get_val _ _ _ _ Hb) in Hstep; [|simpl; rewrite Hp; reflexivity]. unfold bind in Hstep. cbv beta iota in Hstep.
  unfold none_ok.
  destruct (String.eqb (PyStr.lower v) "none"
            && existsb (fun c => String.eqb (PyStr.lower c) "none") (ch :: chs)) eqn:Hn.
  - inversion Hstep; subst. repeat split; try discriminate; intros; exact Hb.
  - destruct (mem v (ch :: chs)) eqn:Hm; simpl in Hstep.
    + inversion Hstep; subst. repeat split; try discriminate; intros; exact Hb.
    + destruct (cp_set s k _ cb) as [c2|] eqn:Hs0; [|discriminate].
      inversion Hstep; subst ca wa.
      rewrite (cp_set_val _ _ _ _ _ _ _ Hs0), (set_target_id _ Hs), !String.eqb_refl. simpl.
      repeat split; try discriminate.
      apply In_app_l. apply in_or_app. right. left. reflexivity.
Qed.

Lemma check_config_choices_single_witness :
  cp_val "model.a" "mode" (st_config Sample.after_choices) = Some (Some "fast") /\
  In (InvalidChoice "bogus" "model.a" "mode" "fast") (st_warnings Sample.after_choices).
Proof.
  refine (proj1 (check_config_choices_single Sample.loaded Sample.after_choices "model.a"
            (Sample.sec "model.a") "mode" (Sample.ent "model.a" "mode") "bogus"
            _ _ _ _ _ _ _ _ _ _) _ _).
  - vm_compute. reflexivity.
  - apply (bool_decide_unpack _). vm_compute. exact I.
  - apply not_In_mem. vm_compute. reflexivity.
  - vm_compute. reflexivity.
  - apply (bool_decide_unpack _). vm_compute. exact I.
  - vm_compute. reflexivity.
  - vm_compute. discriminate.
  - vm_compute. discriminate.
  - vm_compute. reflexivity.
  - vm_compute. reflexivity.
  - vm_compute. reflexivity.
  - vm_compute. reflexivity.
Defined.

(** ** C1: multi-choice validation *)

Lemma parse_list_val c s k v :
  cp_val s k c = Some (Some v) -> PyStr.contains "%" v = false ->
  parse_list c s k = Ok (parse_list_raw (Some v)).
Proof.
  intros H Hp. unfold parse_list. rewrite (cp_get_val _ _ _ _ H); [reflexivity|].
  simpl. rewrite Hp. reflexivity.
Qed.

(** C1 (as amended).  For a [list] option with a declared choice set, in
    a schema whose section names are not empty, whose value entering
    [check_config_choices] is [v], with no "%" in [v] (so that
    [config.get] returns it as it is): the file is not written
    by this step; an empty selection is left as it is; if some parsed
    (trimmed, lower-cased) token is not a choice, the stored value becomes
    the valid tokens in their original order joined by ", " and a warning
    lists the invalid ones; otherwise the value is kept. *)
Theorem check_config_choices_multi st st' s sec k e v :
  check_config_choices st = Ok st' ->
  NoDup (map fst (st_defaults st)) -> ~ In "" (map fst (st_defaults st)) ->
  assoc_lookup s (st_defaults st) = Some sec ->
  NoDup (map fst (sec_items sec)) -> assoc_lookup k (sec_items sec) = Some e ->
  o_choices e <> [] -> o_type e = TList ->
  cp_val s k (st_config st) = Some (Some v) -> PyStr.contains "%" v = false ->
  let toks := parse_list_raw (Some v) in
  let valid := PyStr.join ", " (filter (fun t => mem t (o_choices e)) toks) in
  st_file st' = st_file st /\
  (toks = [] -> cp_val s k (st_config st') = Some (Some v)) /\
  (existsb (fun t => negb (mem t (o_choices e))) toks = true ->
     cp_val s k (st_config st') = Some (Some valid) /\
     In (InvalidSelections (filter (fun t => negb (mem t (o_choices e))) toks) s k valid)
        (st_warnings st')) /\
  (existsb (fun t => negb (mem t (o_choices e))) toks = false ->
     cp_val s k (st_config st') = Some (Some v)).
Proof.
  intros H Hnd Hne Hin Hndi Hini Hch Hty Hv Hp toks valid.
  pose proof (lookup_not_empty _ _ _ Hne Hin) as Hs.
  apply assoc_lookup_In in Hin, Hini.
  apply check_config_choices_shape in H as (c1 & w1 & Hf & -> & -> & Hfile & _).
  destruct (choices_sections_focus _ _ _ _ _ _ _ _ _ Hnd Hne Hin Hndi Hini Hf)
    as (cb & wb & ca & wa & Hb & Hstep & Ha & w2 & Hw).
  rewrite Hv in Hb. rewrite Ha, Hw. split; [exact Hfile|].
  unfold check_item_choice in Hstep.
  destruct (o_choices e) as [|ch chs] eqn:Hc; [contradiction|].
  rewrite Hty in Hstep. cbv beta iota delta [pytype_eqb] in Hstep.
  rewrite (parse_list_val _ _ _ _ Hb Hp) in Hstep. unfold bind in Hstep. cbv beta iota in Hstep.
  fold toks in Hstep. unfold valid.
  destruct toks as [|t ts] eqn:Ht.
  - inversion Hstep; subst. repeat split; try discriminate; intros; exact Hb.
  - destruct (existsb (fun v0 => negb (mem v0 (ch :: chs))) (t :: ts)) eqn:Hx.
    + destruct (cp_set s k _ cb) as [c2|] eqn:Hs0; [|discriminate].
      inversion Hstep; subst ca wa.
      rewrite (cp_set_val _ _ _ _ _ _ _ Hs0), (set_target_id _ Hs), !String.eqb_refl. simpl.
      repeat split; try discriminate.
      apply In_app_l. apply in_or_app. right. left. reflexivity.
    + inversion Hstep; subst. repeat split; try discriminate; intros; exact Hb.
Qed.

Lemma check_config_choices_multi_witness :
  cp_val "model.a" "masks" (st_config Sample.after_choices) = Some (Some "a, c").
Proof.
  refine (proj1 (proj1 (proj2 (proj2 (check_config_choices_multi Sample.loaded
            Sample.after_choices "model.a" (Sample.sec "model.a") "masks"
            (Sample.ent "model.a" "masks") "a, b, c" _ _ _ _ _ _ _ _ _ _))) _)).
  - vm_compute. reflexivity.
  - apply (bool_decide_unpack _). vm_compute. exact I.
  - apply not_In_mem. vm_compute. reflexivity.
  - vm_compute. reflexivity.
  - apply (bool_decide_unpack _). vm_compute. exact I.
  - vm_compute. reflexivity.
  - vm_compute. discriminate.
  - vm_compute. reflexivity.
  - vm_compute. reflexivity.
  - vm_compute. reflexivity.
  - vm_compute. reflexivity.
Defined.

(** C1 fails as stated: after construction from a file whose [masks]
    value is "a, b, c" (choices [a] and [c]), the store holds "a, c" but
    the persisted file still holds "a, b, c". *)
Lemma check_config_choices_multi_file_unchanged :
  match init "model.a" Sample.set_defaults (Some Sample.user_file) with
  | Ok st =>
      cp_val "model.a" "masks" (st_config st) = Some (Some "a, c") /\
      st_file st = Some Sample.user_file /\
      cp_val "model.a" "masks" Sample.user_file = Some (Some "a, b, c")
  | Err _ => False
  end.
Proof. vm_compute. repeat split; reflexivity. Qed.

(** ** C4: list options without choices *)

(** C4 (code_bug).  [add_item] guards list options with
    [isinstance(datatype, list)], which is false for the type object
    [list]; so a [list] option declared with no choices is stored, with an
    empty choice set. *)
Theorem add_item_list_without_choices :
  match add_section [] (Some "train") (Some "Training options") with
  | Ok d =>
      match add_item d (Some "train") (Some "masks") TList (PStr "a") (Some "Masks")
              None None ChoicesNone false true None with
      | Ok d' =>
          exists sec e, assoc_lookup "train" d' = Some sec /\
            assoc_lookup "masks" (sec_items sec) = Some e /\
            o_type e = TList /\ o_choices e = []
      | Err _ => False
      end
  | Err _ => False
  end.
Proof. vm_compute. do 2 eexists. repeat split; reflexivity. Qed.

(** ** Reading a stored value *)

Lemma sec_lookup_item k sec e :
  assoc_lookup k (sec_items sec) = Some e -> sec_lookup k sec = Some (HItem e).
Proof. unfold sec_lookup. intros ->. reflexivity. Qed.

Lemma get_typed_get d c s sec k e raw :
  assoc_lookup s d = Some sec -> assoc_lookup k (sec_items sec) = Some e ->
  cp_get s k c = Ok raw -> get d c s k = typed_value (o_type e) raw.
Proof.
  intros Hs Hk Hg. unfold get. rewrite Hs. unfold bind at 1. cbv beta iota.
  rewrite (sec_lookup_item _ _ _ Hk). unfold bind at 1. cbv beta iota.
  destruct (o_type e); unfold cp_getboolean, cp_getint, cp_getfloat, cp_get_value,
    parse_list; rewrite Hg; destruct raw; reflexivity.
Qed.

Lemma get_typed d c s sec k e raw :
  assoc_lookup s d = Some sec -> assoc_lookup k (sec_items sec) = Some e ->
  cp_val s k c = Some raw -> pct_free raw = true -> get d c s k = typed_value (o_type e) raw.
Proof.
  intros Hs Hk Hv Hp. exact (get_typed_get _ _ _ _ _ _ _ Hs Hk (cp_get_val _ _ _ _ Hv Hp)).
Qed.

(** ** C2: the "none" literal *)

Lemma lower_char_inv c a :
  PyStr.lower_char c = a -> (97 <= Ascii.nat_of_ascii a <= 122)%nat ->
  c = a \/ c = Ascii.ascii_of_nat (Ascii.nat_of_ascii a - 32).
Proof.
  unfold PyStr.lower_char. intros H Ha.
  destruct ((65 <=? Ascii.nat_of_ascii c) && (Ascii.nat_of_ascii c <=? 90))%nat eqn:E.
  - right. apply andb_true_iff in E as [E1 E2].
    apply Nat.leb_le in E1, E2. subst a.
    rewrite Ascii.nat_ascii_embedding by lia.
    replace (Ascii.nat_of_ascii c + 32 - 32)%nat with (Ascii.nat_of_ascii c) by lia.
    symmetry. apply Ascii.ascii_nat_embedding.
  - left. exact H.
Qed.

Lemma lower_none_forms v :
  PyStr.lower v = "none" ->
  exists c1 c2 c3 c4, v = String c1 (String c2 (String c3 (String c4 EmptyString))) /\
    (c1 = "n" \/ c1 = "N")%char /\ (c2 = "o" \/ c2 = "O")%char /\
    (c3 = "n" \/ c3 = "N")%char /\ (c4 = "e" \/ c4 = "E")%char.
Proof.
  intros H.
  unfold PyStr.lower in H.
  destruct v as [|c1 [|c2 [|c3 [|c4 [|c5 v]]]]]; cbn [PyStr.map_chars] in H;
    try discriminate.
  injection H as H1 H2 H3 H4.
  exists c1, c2, c3, c4. split; [reflexivity|].
  apply lower_char_inv in H1, H2, H3, H4; try (vm_compute; lia).
  vm_compute in H1, H2, H3, H4. repeat split; assumption.
Qed.

(** C2 fails as stated: a stored "None" makes [get] raise for a boolean
    option and gives [["none"]] for a list option. *)
Lemma get_none_not_normalised :
  get Sample.defaults [("global", [("flag", Some "None")])] "global" "flag"
    = Err (ValueError "Not a boolean: None") /\
  get Sample.defaults [("global", [("size", Some "NONE")])] "global" "size"
    = Err (ValueError "invalid literal for int() with base 10") /\
  get Sample.defaults [("model.a", [("masks", Some "none")])] "model.a" "masks"
    = Ok (VList ["none"]).
Proof. vm_compute. repeat split. Qed.

(** C2 (as amended).  A stored value equal to "none" in any case makes
    [get] return [None] for a text option (any type other than boolean,
    integer, float and list); for a boolean, integer or float option [get]
    raises; for a list option it returns [["none"]]. *)
Theorem get_none_literal d c s sec k e v :
  assoc_lookup s d = Some sec -> assoc_lookup k (sec_items sec) = Some e ->
  cp_val s k c = Some (Some v) -> PyStr.lower v = "none" ->
  (o_type e <> TBool -> o_type e <> TInt -> o_type e <> TFloat -> o_type e <> TList ->
     get d c s k = Ok VNone) /\
  (o_type e = TBool \/ o_type e = TInt \/ o_type e = TFloat ->
     exists err, get d c s k = Err err) /\
  (o_type e = TList -> get d c s k = Ok (VList ["none"])).
Proof.
  intros Hs Hk Hv Hl.
  destruct (lower_none_forms _ Hl) as (c1 & c2 & c3 & c4 & -> & H1 & H2 & H3 & H4).
  assert (Hp : pct_free (Some (String c1 (String c2 (String c3 (String c4 EmptyString)))))
               = true)
    by (destruct H1 as [->| ->]; destruct H2 as [->| ->];
        destruct H3 as [->| ->]; destruct H4 as [->| ->]; reflexivity).
  rewrite (get_typed _ _ _ _ _ _ _ Hs Hk Hv Hp).
  destruct (o_type e) eqn:Ht;
    (repeat split; intros;
     try (exfalso; match goal with H : ?x <> ?x |- _ => apply H; reflexivity end);
     try (exfalso; intuition congruence));
    destruct H1 as [->| ->]; destruct H2 as [->| ->];
    destruct H3 as [->| ->]; destruct H4 as [->| ->];
    vm_compute; eauto.
Qed.

Lemma get_none_literal_witness :
  get Sample.defaults [("model.a", [("mode", Some "NoNe")])] "model.a" "mode" = Ok VNone.
Proof.
  refine (proj1 (get_none_literal Sample.defaults [("model.a", [("mode", Some "NoNe")])]
            "model.a" (Sample.sec "model.a") "mode" (Sample.ent "model.a" "mode") "NoNe"
            _ _ _ _) _ _ _ _); vm_compute; try reflexivity; discriminate.
Defined.

(** ** C8: the list-parsing rule *)

Lemma is_space_lower c : PyStr.is_space (PyStr.lower_char c) = PyStr.is_space c.
Proof. destruct c as [[] [] [] [] [] [] [] []]; reflexivity. Qed.

Lemma lower_char_idem c : PyStr.lower_char (PyStr.lower_char c) = PyStr.lower_char c.
Proof. destruct c as [[] [] [] [] [] [] [] []]; reflexivity. Qed.

Lemma lower_idem s : PyStr.lower (PyStr.lower s) = PyStr.lower s.
Proof.
  unfold PyStr.lower. induction s as [|c r IH]; cbn [PyStr.map_chars]; [reflexivity|].
  rewrite lower_char_idem, IH. reflexivity.
Qed.

Lemma lstrip_lower s : PyStr.lstrip (PyStr.lower s) = PyStr.lower (PyStr.lstrip s).
Proof.
  unfold PyStr.lower. induction s as [|c r IH]; cbn [PyStr.map_chars PyStr.lstrip];
    [reflexivity|].
  rewrite is_space_lower. destruct (PyStr.is_space c); [exact IH | reflexivity].
Qed.

Lemma rstrip_lower s : PyStr.rstrip (PyStr.lower s) = PyStr.lower (PyStr.rstrip s).
Proof.
  unfold PyStr.lower. induction s as [|c r IH]; cbn [PyStr.map_chars PyStr.rstrip];
    [reflexivity|].
  rewrite IH, is_space_lower.
  destruct (PyStr.rstrip r); cbn [PyStr.map_chars]; [|reflexivity].
  destruct (PyStr.is_space c); reflexivity.
Qed.

Lemma strip_lower s : PyStr.strip (PyStr.lower s) = PyStr.lower (PyStr.strip s).
Proof. unfold PyStr.strip. rewrite lstrip_lower, rstrip_lower. reflexivity. Qed.

Lemma rstrip_cons c r :
  PyStr.rstrip (String c r) =
  match PyStr.rstrip r with
  | EmptyString => if PyStr.is_space c then EmptyString else String c EmptyString
  | r' => String c r'
  end.
Proof. reflexivity. Qed.

Lemma rstrip_idem s : PyStr.rstrip (PyStr.rstrip s) = PyStr.rstrip s.
Proof.
  induction s as [|c r IH]; [reflexivity|]. rewrite (rstrip_cons c r).
  destruct (PyStr.rstrip r) as [|c' r'] eqn:E.
  - destruct (PyStr.is_space c) eqn:Hc; [reflexivity|].
    rewrite rstrip_cons. cbn [PyStr.rstrip]. rewrite Hc. reflexivity.
  - rewrite rstrip_cons, IH. reflexivity.
Qed.

Lemma lstrip_shape s :
  PyStr.lstrip s = EmptyString \/
  exists c r, PyStr.lstrip s = String c r /\ PyStr.is_space c = false.
Proof.
  induction s as [|c r IH]; [left; reflexivity|]. cbn [PyStr.lstrip].
  destruct (PyStr.is_space c) eqn:Hc; [exact IH|]. right. eauto.
Qed.

Lemma rstrip_head c r :
  PyStr.is_space c = false -> exists r', PyStr.rstrip (String c r) = String c r'.
Proof.
  intros Hc. cbn [PyStr.rstrip]. destruct (PyStr.rstrip r); [rewrite Hc|]; eauto.
Qed.

Lemma strip_idem s : PyStr.strip (PyStr.strip s) = PyStr.strip s.
Proof.
  unfold PyStr.strip.
  destruct (lstrip_shape s) as [E | (c & r & E & Hc)]; rewrite E; [reflexivity|].
  destruct (rstrip_head c r Hc) as [r' E']. rewrite E'. cbn [PyStr.lstrip].
  rewrite Hc, <- E'. apply rstrip_idem.
Qed.

Lemma parse_list_raw_rule raw : parse_list_raw (Some raw) = list_rule raw.
Proof. destruct raw; reflexivity. Qed.

(** C8 fails as stated: the rule is applied to the value [config.get]
    returns, after interpolation, not to the stored string: a stored
    "a%%, b" parses to [["a%"; "b"]], while the rule gives
    [["a%%"; "b"]]; a stored "a%" makes parsing raise. *)
Lemma parse_list_interpolates :
  parse_list [("s", [("k", Some "a%%, b")])] "s" "k" = Ok ["a%"; "b"] /\
  list_rule "a%%, b" = ["a%%"; "b"] /\
  parse_list [("s", [("k", Some "a%")])] "s" "k" = Err (InterpolationSyntaxError "k" "s").
Proof. vm_compute. repeat split. Qed.

(** C8 (as amended).  [_parse_list] applies the list rule as the
    specification words it (an empty string gives no items; otherwise
    split on commas if there is one, else on whitespace; trim and
    lower-case each piece) to the string [config.get] returns; a key
    stored without a value gives no items and an error of [config.get]
    is raised.  For a stored string with no "%", which [config.get]
    returns as it is, the rule applies to the stored string.  Every item
    is trimmed and lower-case. *)
Theorem parse_list_rule c s k :
  (forall v, cp_get s k c = Ok (Some v) -> parse_list c s k = Ok (list_rule v)) /\
  (cp_get s k c = Ok None -> parse_list c s k = Ok []) /\
  (forall err, cp_get s k c = Err err -> parse_list c s k = Err err) /\
  (forall raw, cp_val s k c = Some (Some raw) -> PyStr.contains "%" raw = false ->
     parse_list c s k = Ok (list_rule raw)) /\
  (forall v t, In t (list_rule v) -> PyStr.lower t = t /\ PyStr.strip t = t).
Proof.
  unfold parse_list. split; [|split; [|split; [|split]]].
  - intros v ->. unfold bind. rewrite parse_list_raw_rule. reflexivity.
  - intros ->. reflexivity.
  - intros err ->. reflexivity.
  - intros raw H Hp. rewrite (cp_get_val _ _ _ _ H); [|simpl; rewrite Hp; reflexivity].
    unfold bind. rewrite parse_list_raw_rule. reflexivity.
  - intros v t Ht. unfold list_rule in Ht.
    destruct (String.eqb v "") ; [destruct Ht|].
    apply in_map_iff in Ht as (x & <- & _). split.
    + apply lower_idem.
    + rewrite strip_lower, strip_idem. reflexivity.
Qed.

Lemma parse_list_rule_witness :
  parse_list [("s", [("k", Some "A,b , C"); ("e", Some "")])] "s" "k" = Ok ["a"; "b"; "c"] /\
  parse_list [("s", [("k", Some "A,b , C"); ("e", Some "")])] "s" "e" = Ok [].
Proof.
  split.
  - rewrite (proj1 (proj2 (proj2 (proj2 (parse_list_rule
                [("s", [("k", Some "A,b , C"); ("e", Some "")])] "s" "k"))))
                "A,b , C" eq_refl eq_refl).
    vm_compute. reflexivity.
  - rewrite (proj1 (parse_list_rule [("s", [("k", Some "A,b , C"); ("e", Some "")])] "s" "e")
                "" eq_refl).
    vm_compute. reflexivity.
Defined.

(** ** C6: a file that matches the schema *)

(** C6.  When the loaded sections are, as a set, the schema's sections and
    the non-comment keys of every schema section are, as a set, its
    option names, [check_config_change] reports no change and
    [validate_config] does not write the file. *)
Theorem validate_config_no_drift st st' :
  set_eqb (cp_sections (st_config st)) (map fst (st_defaults st)) = true ->
  (forall s sec, In (s, sec) (st_defaults st) ->
     set_eqb (option_keys s (st_config st)) (map fst (sec_items sec)) = true) ->
  check_config_change (st_defaults st) (st_config st) = false /\
  (validate_config st = Ok st' -> st_file st' = st_file st).
Proof.
  intros Hs Hk.
  assert (Hc : check_config_change (st_defaults st) (st_config st) = false).
  { unfold check_config_change. rewrite Hs. cbn [negb].
    destruct (existsb _ _) eqn:E; [|reflexivity].
    apply existsb_exists in E as ([s sec] & Hin & Hneg).
    rewrite (Hk s sec Hin) in Hneg. discriminate. }
  split; [exact Hc|].
  unfold validate_config. rewrite Hc. unfold bind at 1. cbv beta iota.
  intros H. destruct (check_config_choices_shape _ _ H) as (c1 & w1 & _ & _ & _ & Hf & _).
  exact Hf.
Qed.

Lemma validate_config_no_drift_witness :
  check_config_change Sample.defaults Sample.user_file = false /\
  st_file Sample.after_choices = Some Sample.user_file.
Proof.
  destruct (validate_config_no_drift Sample.loaded Sample.after_choices)
    as [H1 H2].
  - vm_compute. reflexivity.
  - intros s sec Hin. vm_compute in Hin.
    repeat (destruct Hin as [Hin | Hin]; [inversion Hin; subst; vm_compute; reflexivity|]).
    destruct Hin.
  - split; [exact H1|]. apply H2. vm_compute. reflexivity.
Defined.

(** ** C10: bounds are never checked *)

Lemma fold_result_map {A B C} (F : A -> C -> result A) (h : B -> C) l a :
  fold_result F (map h l) a = fold_result (fun a x => F a (h x)) l a.
Proof.
  revert a. induction l as [|x r IH]; intros a; [reflexivity|]. cbn [map fold_result].
  unfold bind. destruct (F a (h x)); [apply IH|reflexivity].
Qed.

Lemma fold_result_ext {A B} (F G : A -> B -> result A) l a :
  (forall a x, F a x = G a x) -> fold_result F l a = fold_result G l a.
Proof.
  intros H. revert a. induction l as [|x r IH]; intros a; [reflexivity|].
  cbn [fold_result]. rewrite H. unfold bind. destruct (G a x); [apply IH|reflexivity].
Qed.

Lemma assoc_lookup_map_snd {A B} (g : A -> B) k l :
  assoc_lookup k (map_snd g l) = option_map g (assoc_lookup k l).
Proof.
  induction l as [|[k' v] r IH]; [reflexivity|]. cbn.
  destruct (String.eqb k k'); [reflexivity|exact IH].
Qed.

Lemma map_fst_map_snd {A B} (g : A -> B) l : map fst (map_snd g l) = map fst l.
Proof. induction l as [|[k v] r IH]; [reflexivity|]. cbn. f_equal. exact IH. Qed.

Lemma get_mm f d c s k : get (map_min_max f d) c s k = get d c s k.
Proof.
  unfold get, map_min_max. rewrite assoc_lookup_map_snd.
  destruct (assoc_lookup s d) as [sec|]; [|reflexivity]. unfold bind.
  cbn [option_map]. unfold sec_lookup. cbn [sec_items sec_helptext].
  rewrite assoc_lookup_map_snd.
  destruct (assoc_lookup k (sec_items sec)) as [e|]; [reflexivity|].
  cbn [option_map]. destruct (String.eqb k "helptext"); [|reflexivity].
  destruct (sec_helptext sec); reflexivity.
Qed.

Lemma create_default_mm f st :
  create_default (map_store f st) = rmap (map_store f) (create_default st).
Proof.
  unfold create_default. cbn [map_store with_defaults st_defaults st_config].
  unfold map_min_max, map_snd. rewrite fold_result_map.
  lazymatch goal with
  | |- bind (fold_result ?F1 ?l ?a) _ = rmap _ (bind (fold_result ?F2 ?l ?a) _) =>
      rewrite (fold_result_ext F1 F2 l a)
  end.
  - unfold bind. destruct (fold_result _ _ _); reflexivity.
  - intros a [s sec]. cbv beta iota. cbn [sec_helptext sec_items].
    destruct (sec_helptext sec) as [h|e]; cbn [helptext_of]; unfold bind; [|reflexivity].
    destruct (insert_config_section _ _ _); [|reflexivity].
    rewrite fold_result_map. apply fold_result_ext. intros b [k e]. reflexivity.
Qed.

Lemma load_config_mm f st : load_config (map_store f st) = map_store f (load_config st).
Proof. destruct st as [sec d c [file|] w]; reflexivity. Qed.

Lemma existsb_map_snd {A B} (p : string * B -> bool) (g : A -> B) l :
  existsb p (map_snd g l) = existsb (fun '(k, v) => p (k, g v)) l.
Proof.
  unfold map_snd. induction l as [|[k v] r IH]; [reflexivity|]. cbn. rewrite IH.
  reflexivity.
Qed.

Lemma check_config_change_mm f d c :
  check_config_change (map_min_max f d) c = check_config_change d c.
Proof.
  unfold check_config_change, map_min_max. rewrite map_fst_map_snd.
  destruct (negb _); [reflexivity|]. rewrite existsb_map_snd.
  induction d as [|[s sec] r IH]; [reflexivity|]. cbn [existsb sec_items] in IH |- *.
  rewrite map_fst_map_snd, IH. reflexivity.
Qed.

Lemma regenerate_mm f d c : regenerate (map_min_max f d) c = regenerate d c.
Proof.
  unfold regenerate, map_min_max, map_snd. rewrite fold_result_map.
  apply fold_result_ext. intros a [s sec]. cbv beta iota. cbn [sec_helptext sec_items].
  destruct (sec_helptext sec) as [h|e]; cbn [helptext_of]; unfold bind; [|reflexivity].
  destruct (insert_config_section _ _ _); [|reflexivity].
  rewrite fold_result_map. apply fold_result_ext. intros b [k e]. reflexivity.
Qed.

Lemma add_new_config_items_mm f st :
  add_new_config_items (map_store f st) = rmap (map_store f) (add_new_config_items st).
Proof.
  unfold add_new_config_items. cbn [map_store with_defaults st_defaults st_config].
  rewrite regenerate_mm. unfold bind. destruct (regenerate _ _); reflexivity.
Qed.

Lemma choices_sections_mm f d acc :
  choices_sections (map_min_max f d) acc = choices_sections d acc.
Proof.
  unfold choices_sections, map_min_max, map_snd. rewrite fold_result_map.
  apply fold_result_ext. intros a [s sec]. cbv beta iota. cbn [sec_items].
  unfold choices_items. rewrite fold_result_map. apply fold_result_ext.
  intros b [k e]. reflexivity.
Qed.

Lemma check_config_choices_mm f st :
  check_config_choices (map_store f st) = rmap (map_store f) (check_config_choices st).
Proof.
  rewrite !check_config_choices_unfold. cbn [map_store with_defaults st_defaults].
  rewrite choices_sections_mm. unfold bind.
  destruct (choices_sections _ _); reflexivity.
Qed.

Lemma validate_config_mm f st :
  validate_config (map_store f st) = rmap (map_store f) (validate_config st).
Proof.
  unfold validate_config. cbn [map_store with_defaults st_defaults st_config].
  rewrite check_config_change_mm.
  destruct (check_config_change _ _).
  - change (add_new_config_items (with_defaults st (map_min_max f (st_defaults st))))
      with (add_new_config_items (map_store f st)).
    rewrite add_new_config_items_mm. unfold bind.
    destruct (add_new_config_items st) as [st1|]; [|reflexivity].
    cbn [rmap]. apply (check_config_choices_mm f st1).
  - unfold bind. apply (check_config_choices_mm f st).
Qed.

Lemma handle_config_mm f st :
  handle_config (map_store f st) = rmap (map_store f) (handle_config st).
Proof.
  unfold handle_config.
  replace (check_exists (map_store f st)) with (check_exists st) by reflexivity.
  destruct (check_exists st).
  - unfold bind. rewrite load_config_mm. apply validate_config_mm.
  - rewrite create_default_mm. unfold bind.
    destruct (create_default st) as [st1|]; [|reflexivity]. cbn [rmap].
    rewrite load_config_mm. apply validate_config_mm.
Qed.

Lemma config_dict_mm f st : config_dict (map_store f st) = config_dict st.
Proof.
  unfold config_dict. cbn [map_store with_defaults st_defaults st_config st_section].
  apply fold_result_ext. intros a x.
  destruct (negb _); [reflexivity|]. apply fold_result_ext. intros b k.
  destruct (_ || _); [reflexivity|]. rewrite get_mm. reflexivity.
Qed.

Lemma expand_helptext_bounded h cl default dt mm fx :
  exists h', expand_helptext h cl default dt (Some mm) fx = Ok h'.
Proof.
  unfold expand_helptext. destruct mm as [lo hi].
  destruct (seq_items cl); [destruct dt|]; cbn; eauto.
Qed.

Lemma lookup_filter_key {A} k (l : list (string * A)) :
  assoc_lookup k (filter (fun '(k', _) => negb (String.eqb k' k)) l) = None.
Proof.
  induction l as [|[k0 v0] r IH]; [reflexivity|]. rewrite filter_cons.
  case_decide as Hd; [|exact IH].
  destruct (String.eqb k0 k) eqn:E; simpl in Hd; [contradiction|].
  simpl. rewrite String.eqb_sym, E. exact IH.
Qed.

Lemma add_item_stores d s t dt default info r mm ch gr fx grp d' :
  add_item d (Some s) (Some t) dt default info r mm ch gr fx grp = Ok d' ->
  exists sec e, assoc_lookup s d' = Some sec /\ sec_lookup t sec = Some (HItem e) /\
    o_default e = default /\ o_min_max e = mm /\ o_type e = dt.
Proof.
  unfold add_item, isinstance_list. intros H.
  repeat (case_match; try discriminate); subst;
    unfold bind in H; case_match; try discriminate; injection H as <-;
    rewrite assoc_lookup_set, String.eqb_refl; do 2 eexists; (split; [reflexivity|]);
    unfold sec_lookup; cbn [sec_items sec_helptext];
    lazymatch goal with
    | E : String.eqb t "helptext" = true |- _ =>
        apply String.eqb_eq in E; subst t; rewrite lookup_filter_key; cbn
    | _ => rewrite assoc_lookup_set, String.eqb_refl
    end;
    repeat split; reflexivity.
Qed.

Lemma add_item_bounds_irrelevant d s t dt default info r mm1 mm2 ch gr fx grp :
  is_ok (add_item d s t dt default info r (Some mm1) ch gr fx grp) =
  is_ok (add_item d s t dt default info r (Some mm2) ch gr fx grp).
Proof.
  unfold add_item, isinstance_list.
  destruct s, t, info; try reflexivity. destruct default; try reflexivity;
  destruct (assoc_lookup _ d); try reflexivity;
  destruct r, dt; cbn [andb]; try reflexivity;
  destruct (choices_or_list ch) as [|cl|]; try reflexivity;
  lazymatch goal with
  | |- context [expand_helptext ?h ?l ?df ?ty (Some mm1) ?fx] =>
      destruct (expand_helptext_bounded h l df ty mm1 fx) as [h1 ->];
      destruct (expand_helptext_bounded h l df ty mm2 fx) as [h2 ->]
  end; reflexivity.
Qed.

(** C10.  Bounds are metadata only.  [add_item] stores the default and the
    bounds it is given as they are, whatever their relation, and whether it
    succeeds does not depend on which bounds are given; rewriting the
    bounds of every option of the schema changes neither what [get]
    returns, nor the outcome of [handle_config] (file, values, warnings),
    nor [config_dict].  So the sample integer option declared with bounds
    (32, 128) reads a stored 1000 back as 1000. *)
Theorem bounds_never_enforced :
  (forall d s t dt default info r mm ch gr fx grp d',
     add_item d (Some s) (Some t) dt default info r mm ch gr fx grp = Ok d' ->
     exists sec e, assoc_lookup s d' = Some sec /\ sec_lookup t sec = Some (HItem e) /\
       o_default e = default /\ o_min_max e = mm /\ o_type e = dt) /\
  (forall d s t dt default info r mm1 mm2 ch gr fx grp,
     is_ok (add_item d s t dt default info r (Some mm1) ch gr fx grp) =
     is_ok (add_item d s t dt default info r (Some mm2) ch gr fx grp)) /\
  (forall f d c s k, get (map_min_max f d) c s k = get d c s k) /\
  (forall f st, handle_config (map_store f st) = rmap (map_store f) (handle_config st)) /\
  (forall f st, config_dict (map_store f st) = config_dict st) /\
  o_min_max (Sample.ent "global" "size") = Some (PInt 32, PInt 128) /\
  get Sample.defaults [("global", [("size", Some "1000")])] "global" "size" = Ok (VInt 1000).
Proof.
  split; [exact add_item_stores|].
  split; [exact add_item_bounds_irrelevant|].
  split; [exact get_mm|].
  split; [exact handle_config_mm|].
  split; [exact config_dict_mm|].
  vm_compute. split; reflexivity.
Qed.

(** ** C9: the aggregate read of [config_dict] *)

Ltac red_bind H := unfold bind in H; cbv beta iota in H.

(** C9 fails as stated: with two global sections declaring [flag], the
    aggregate read for [model.b] (which does not redeclare it) maps [flag]
    to the value of the later section, not to the value read from
    [global]. *)
Lemma config_dict_global_shadowed :
  match init "model.b" Sample.two_globals None with
  | Ok st =>
      get (st_defaults st) (st_config st) "global" "flag" = Ok (VBool true) /\
      match config_dict st with
      | Ok conf => conf !! "flag" = Some (VBool false)
      | Err _ => False
      end
  | Err _ => False
  end.
Proof. vm_compute. split; reflexivity. Qed.

(** C9 (as amended).  [config_dict] reads the loaded global sections in
    file order, then the target section.  For a section [g] of that list
    present in the parser and a non-comment key [k] of [g] that no section
    read after [g] also has, the aggregate maps [k] to the typed value
    [get] gives for [g]/[k]; and no key starting with "#" or a newline is
    ever in the aggregate. *)
Theorem config_dict_later_wins st conf l1 g l2 k :
  config_dict st = Ok conf ->
  app (filter (PyStr.startswith "global") (cp_sections (st_config st))) [st_section st]
    = app l1 (g :: l2) ->
  mem g (cp_sections (st_config st)) = true ->
  In k (cp_keys g (st_config st)) ->
  (PyStr.startswith "#" k || PyStr.startswith (String nl EmptyString) k) = false ->
  (forall g', In g' l2 -> ~ In k (cp_keys g' (st_config st))) ->
  (exists v, get (st_defaults st) (st_config st) g k = Ok v /\ conf !! k = Some v) /\
  (forall k' v', conf !! k' = Some v' ->
     (PyStr.startswith "#" k' || PyStr.startswith (String nl EmptyString) k') = false).
Proof.
  intros Hd Hsp Hmem Hk Hc Hl2. unfold config_dict in Hd. split.
  - rewrite Hsp in Hd. apply fold_result_split in Hd as (a1 & a2 & _ & Hmid & Hrest).
    cbv beta in Hmid. rewrite Hmem in Hmid. cbn [negb] in Hmid.
    apply in_split in Hk as (ks1 & ks2 & Eks). rewrite Eks in Hmid.
    apply fold_result_split in Hmid as (b1 & b2 & _ & Hstep & Hks2).
    cbv beta in Hstep. rewrite Hc in Hstep.
    destruct (get (st_defaults st) (st_config st) g k) as [v|] eqn:Hv;
      red_bind Hstep; [|discriminate].
    injection Hstep as <-. exists v. split; [reflexivity|].
    assert (Ha2 : a2 !! k = Some v).
    { revert Hks2. apply (fold_result_inv (fun c => c !! k = Some v));
        [|apply lookup_insert_eq].
      intros x c c' _ Hck Hx. cbv beta in Hx.
      destruct (PyStr.startswith "#" x || PyStr.startswith (String nl EmptyString) x); [injection Hx as <-; exact Hck|].
      destruct (get (st_defaults st) (st_config st) g x) as [v'|] eqn:Hv'; red_bind Hx; [|discriminate].
      injection Hx as <-. destruct (String.eq_dec x k) as [->|Hne].
      - rewrite Hv in Hv'. injection Hv' as <-. apply lookup_insert_eq.
      - rewrite lookup_insert_ne by congruence. exact Hck. }
    revert Hrest. apply (fold_result_inv (fun c => c !! k = Some v)); [|exact Ha2].
    intros g' c c' Hg' Hck Hx. cbv beta in Hx.
    destruct (negb (mem g' (cp_sections (st_config st)))); [injection Hx as <-; exact Hck|].
    revert Hx. apply (fold_result_inv (fun c => c !! k = Some v)); [|exact Hck].
    intros x b b' Hx Hbk Hstep. cbv beta in Hstep.
    destruct (PyStr.startswith "#" x || PyStr.startswith (String nl EmptyString) x); [injection Hstep as <-; exact Hbk|].
    destruct (get (st_defaults st) (st_config st) g' x) as [v'|]; red_bind Hstep; [|discriminate].
    injection Hstep as <-. rewrite lookup_insert_ne; [exact Hbk|].
    intros ->. exact (Hl2 g' Hg' Hx).
  - revert Hd.
    apply (fold_result_inv (fun c : gmap string value => forall k' v', c !! k' = Some v' ->
             (PyStr.startswith "#" k' || PyStr.startswith (String nl EmptyString) k') = false));
      [|intros k' v' Hl; rewrite lookup_empty in Hl; discriminate].
    intros g' c c' _ Hck Hx. cbv beta in Hx.
    destruct (negb (mem g' (cp_sections (st_config st)))); [injection Hx as <-; exact Hck|].
    revert Hx.
    apply (fold_result_inv (fun c : gmap string value => forall k' v', c !! k' = Some v' ->
             (PyStr.startswith "#" k' || PyStr.startswith (String nl EmptyString) k') = false));
      [|exact Hck].
    intros x b b' _ Hbk Hstep. cbv beta in Hstep.
    destruct (PyStr.startswith "#" x || PyStr.startswith (String nl EmptyString) x) eqn:Ex; [injection Hstep as <-; exact Hbk|].
    destruct (get (st_defaults st) (st_config st) g' x) as [v'|]; red_bind Hstep; [|discriminate].
    injection Hstep as <-. intros k' v'' Hl.
    apply lookup_insert_Some in Hl as [[<- _]|[_ Hl]]; [exact Ex|exact (Hbk _ _ Hl)].
Qed.

Lemma config_dict_later_wins_witness :
  exists v, get Sample.defaults Sample.user_file "global" "flag" = Ok v /\
    (match config_dict (with_config (Sample.fresh "model.b" None) Sample.user_file) with
     | Ok c => c | Err _ => ∅ end) !! "flag" = Some v.
Proof.
  refine (proj1 (config_dict_later_wins (with_config (Sample.fresh "model.b" None) Sample.user_file)
            (match config_dict (with_config (Sample.fresh "model.b" None) Sample.user_file) with
             | Ok c => c | Err _ => ∅ end)
            [] "global" ["model.b"] "flag" _ _ _ _ _ _)).
  - vm_compute. reflexivity.
  - vm_compute. reflexivity.
  - vm_compute. reflexivity.
  - vm_compute. left. reflexivity.
  - vm_compute. reflexivity.
  - intros g' Hg'. destruct Hg' as [<-|[]]. vm_compute. intros [H|[]]. discriminate.
Defined.

(** ** Writing a schema into a parser *)

Lemma create_default_gen st :
  create_default st =
  (let* cfg := gen_fold (fun _ _ o => Ok (o_default o)) (st_defaults st) (st_config st) in
   Ok (save_config (with_config st cfg))).
Proof. reflexivity. Qed.

Lemma regenerate_gen d config : regenerate d config = gen_fold (regen_value config) d [].
Proof. reflexivity. Qed.

Lemma format_help_comment h b : comment_like (format_help h b) = true.
Proof. destruct b; reflexivity. Qed.

Lemma not_comment_neq k h b : comment_like k = false -> String.eqb k (format_help h b) = false.
Proof.
  intros Hk. destruct (String.eqb k (format_help h b)) eqn:E; [|reflexivity].
  apply String.eqb_eq in E. subst k. rewrite format_help_comment in Hk. discriminate.
Qed.

Lemma notin_lookup_none {A} k (l : list (string * A)) :
  ~ In k (map fst l) -> assoc_lookup k l = None.
Proof.
  induction l as [|[k0 v0] r IH]; intros Hn; [reflexivity|]. cbn.
  destruct (String.eqb k k0) eqn:E.
  - apply String.eqb_eq in E. subst. exfalso. apply Hn. left. reflexivity.
  - apply IH. intros Hin. apply Hn. right. exact Hin.
Qed.

Lemma cp_set_some s k v c c' x :
  cp_set s k v c = Ok c' ->
  (assoc_lookup x c <> None -> assoc_lookup x c' <> None) /\
  assoc_lookup (set_target s) c' <> None.
Proof.
  unfold cp_set, set_target.
  destruct (match v with Some x => _ | None => _ end) as [[]|]; [|discriminate].
  destruct (String.eqb s "") eqn:E0; cbn [orb].
  - intros H. injection H as <-. rewrite !assoc_lookup_set, String.eqb_refl.
    split; [|discriminate]. destruct (String.eqb x "DEFAULT"); [discriminate|auto].
  - destruct (String.eqb s "DEFAULT") eqn:Ed.
    + apply String.eqb_eq in Ed. subst s. intros H. injection H as <-.
      rewrite !assoc_lookup_set, String.eqb_refl.
      split; [|discriminate]. destruct (String.eqb x "DEFAULT"); [discriminate|auto].
    + destruct (assoc_lookup s c) as [its|] eqn:Hs; [|discriminate].
      intros H. injection H as <-. rewrite !assoc_lookup_set, String.eqb_refl.
      split; [|discriminate]. destruct (String.eqb x s); [discriminate|auto].
Qed.

Lemma insert_config_section_val s h c c' s' k' :
  insert_config_section s h c = Ok c' ->
  assoc_lookup s c = None /\ assoc_lookup s c' <> None /\
  (assoc_lookup s' c <> None -> assoc_lookup s' c' <> None) /\
  (String.eqb s "" = false ->
   cp_val s' k' c' = if String.eqb s' s
                     then (if String.eqb k' (format_help h true) then Some None else None)
                     else cp_val s' k' c).
Proof.
  unfold insert_config_section. intros H. red_bind H.
  destruct (cp_add_section s c) as [c1|] eqn:Ha; [|discriminate].
  destruct (cp_set_some _ _ _ _ _ s' H) as [Hm _].
  split; [exact (cp_add_section_fresh _ _ _ Ha)|]. split.
  { apply (proj1 (cp_set_some _ _ _ _ _ s H)).
    rewrite (cp_add_section_lookup _ _ _ _ Ha), String.eqb_refl. discriminate. }
  split.
  - intros Hx. apply Hm. rewrite (cp_add_section_lookup _ _ _ _ Ha).
    destruct (String.eqb s' s); [discriminate|exact Hx].
  - intros Hne. rewrite (cp_set_val _ _ _ _ _ _ _ H), (set_target_id _ Hne).
    destruct (String.eqb s' s) eqn:Es; cbn [andb].
    + apply String.eqb_eq in Es. subst s'.
      destruct (String.eqb k' (format_help h true)); [reflexivity|].
      unfold cp_val. rewrite (cp_add_section_lookup _ _ _ _ Ha), String.eqb_refl. reflexivity.
    + exact (cp_add_section_val _ _ _ _ _ Ha Es).
Qed.

Lemma insert_config_item_val s k v o c c' s' k' :
  insert_config_item s k v o c = Ok c' ->
  (assoc_lookup s' c <> None -> assoc_lookup s' c' <> None) /\
  (String.eqb s "" = false ->
   cp_val s' k' c' =
     if String.eqb s' s && String.eqb k' k then Some (Some (py_str v))
     else if String.eqb s' s && String.eqb k' (format_help (o_helptext o) false) then Some None
     else cp_val s' k' c).
Proof.
  unfold insert_config_item. intros H. red_bind H.
  destruct (cp_set s (format_help (o_helptext o) false) None c) as [c1|] eqn:H1;
    [|discriminate].
  split.
  - intros Hx. apply (proj1 (cp_set_some _ _ _ _ _ s' H)).
    exact (proj1 (cp_set_some _ _ _ _ _ s' H1) Hx).
  - intros Hne. rewrite (cp_set_val _ _ _ _ _ _ _ H), (cp_set_val _ _ _ _ _ _ _ H1).
    rewrite (set_target_id _ Hne). reflexivity.
Qed.

Lemma gen_items_some (val : string -> string -> entry -> result pyval) s0 items c1 c2 x :
  fold_result (fun cfg '(item, opt) =>
      let* v := val s0 item opt in insert_config_item s0 item v opt cfg) items c1 = Ok c2 ->
  assoc_lookup x c1 <> None -> assoc_lookup x c2 <> None.
Proof.
  intros H Hx. revert H.
  apply (fold_result_inv (fun c => assoc_lookup x c <> None)); [|exact Hx].
  intros [k e] a a' _ Ha Hi. red_bind Hi.
  destruct (val s0 k e) as [v|]; [|discriminate].
  exact (proj1 (insert_config_item_val _ _ _ _ _ _ x k Hi) Ha).
Qed.

Lemma gen_items_val (val : string -> string -> entry -> result pyval) s0 items c1 c2 s k :
  fold_result (fun cfg '(item, opt) =>
      let* v := val s0 item opt in insert_config_item s0 item v opt cfg) items c1 = Ok c2 ->
  NoDup (map fst items) -> comment_like k = false -> String.eqb s0 "" = false ->
  cp_val s k c2 =
    if String.eqb s s0
    then match assoc_lookup k items with
         | Some e => match val s0 k e with Ok v => Some (Some (py_str v)) | Err _ => None end
         | None => cp_val s k c1
         end
    else cp_val s k c1.
Proof.
  revert c1. induction items as [|[k0 e0] r IH]; intros c1 H Hnd Hk Hne.
  - injection H as <-. destruct (String.eqb s s0); reflexivity.
  - cbn [fold_result] in H. red_bind H.
    destruct (val s0 k0 e0) as [v0|] eqn:Hv; [|discriminate].
    destruct (insert_config_item s0 k0 v0 e0 c1) as [c1'|] eqn:Hi; [|discriminate].
    inversion Hnd as [|? ? Hn0 Hnd']; subst.
    rewrite (IH c1' H Hnd' Hk Hne), (proj2 (insert_config_item_val _ _ _ _ _ _ s k Hi) Hne).
    rewrite (not_comment_neq k _ false Hk), andb_false_r. cbn [assoc_lookup].
    destruct (String.eqb s s0) eqn:Es; cbn [andb]; [|reflexivity].
    destruct (String.eqb k k0) eqn:Ek.
    + apply String.eqb_eq in Ek. subst k0.
      rewrite (notin_lookup_none k r (fun Hx => Hn0 (proj2 (list_elem_of_In _ _) Hx))), Hv.
      reflexivity.
    + destruct (assoc_lookup k r); reflexivity.
Qed.

Lemma gen_fold_fresh val d c c' :
  gen_fold val d c = Ok c' -> forall x, In x (map fst d) -> assoc_lookup x c = None.
Proof.
  revert c. induction d as [|[s0 sec0] r IH]; intros c H x Hx; [destruct Hx|].
  unfold gen_fold in H. cbn [fold_result] in H. red_bind H.
  destruct (helptext_of (sec_helptext sec0)) as [h|]; [|discriminate].
  destruct (insert_config_section s0 h c) as [c1|] eqn:Hs; [|discriminate].
  match type of H with
  | context [fold_result ?F (sec_items sec0) c1] =>
      destruct (fold_result F (sec_items sec0) c1) as [c2|] eqn:Hi; [|discriminate];
      pose proof (fun y => gen_items_some val s0 (sec_items sec0) c1 c2 y Hi) as Hmono
  end.
  change (gen_fold val r c2 = Ok c') in H.
  destruct (insert_config_section_val _ _ _ _ x "" Hs) as (Hfresh & _ & Hm & _).
  destruct Hx as [<-|Hx]; [exact Hfresh|].
  destruct (assoc_lookup x c) eqn:E; [|reflexivity]. exfalso.
  apply (Hmono x (Hm ltac:(first [discriminate | rewrite E; discriminate]))).
  exact (IH c2 H x Hx).
Qed.

Lemma gen_fold_val (val : string -> string -> entry -> result pyval) d c c' s k :
  gen_fold val d c = Ok c' ->
  (forall s0 sec0, In (s0, sec0) d -> NoDup (map fst (sec_items sec0))) ->
  ~ In "" (map fst d) ->
  comment_like k = false ->
  cp_val s k c' =
    match assoc_lookup s d with
    | Some sec =>
        match assoc_lookup k (sec_items sec) with
        | Some e => match val s k e with Ok v => Some (Some (py_str v)) | Err _ => None end
        | None => None
        end
    | None => cp_val s k c
    end.
Proof.
  revert c. induction d as [|[s0 sec0] r IH]; intros c H Hnd Hn Hk.
  - injection H as <-. reflexivity.
  - pose proof (gen_fold_fresh _ _ _ _ H) as Hfr.
    assert (Hne : String.eqb s0 "" = false).
    { destruct (String.eqb s0 "") eqn:E; [|reflexivity].
      apply String.eqb_eq in E. subst s0. exfalso. apply Hn. left. reflexivity. }
    unfold gen_fold in H. cbn [fold_result] in H. red_bind H.
    destruct (helptext_of (sec_helptext sec0)) as [h|]; [|discriminate].
    destruct (insert_config_section s0 h c) as [c1|] eqn:Hs; [|discriminate].
    match type of H with
    | context [fold_result ?F (sec_items sec0) c1] =>
        destruct (fold_result F (sec_items sec0) c1) as [c2|] eqn:Hi; [|discriminate]
    end.
    change (gen_fold val r c2 = Ok c') in H.
    assert (Hnd' : forall s1 sec1, In (s1, sec1) r -> NoDup (map fst (sec_items sec1)))
      by (intros; apply (Hnd s1); right; assumption).
    assert (Hn' : ~ In "" (map fst r)) by (intros Hx; apply Hn; right; exact Hx).
    rewrite (IH c2 H Hnd' Hn' Hk).
    pose proof (gen_items_val val s0 (sec_items sec0) c1 c2 s k Hi
                  (Hnd s0 sec0 (or_introl eq_refl)) Hk Hne) as Hc2.
    destruct (insert_config_section_val _ _ _ _ s k Hs) as (_ & Hin & _ & Hc1).
    specialize (Hc1 Hne).
    cbn [assoc_lookup]. destruct (String.eqb s s0) eqn:Es.
    + apply String.eqb_eq in Es. subst s0.
      assert (Hr : assoc_lookup s r = None).
      { apply notin_lookup_none. intros Hx.
        apply (gen_items_some val s (sec_items sec0) c1 c2 s Hi Hin).
        exact (gen_fold_fresh _ _ _ _ H s Hx). }
      rewrite Hr, Hc2, Hc1, (not_comment_neq k _ true Hk).
      destruct (assoc_lookup k (sec_items sec0)); reflexivity.
    + destruct (assoc_lookup s r); [reflexivity|].
      rewrite Hc2, ?Es, Hc1, ?Es. reflexivity.
Qed.

(** ** C5: reconciling a file that has drifted from the schema *)

Lemma interpolate_loop_err fuel interp m o s r e :
  (forall x e', interp x = Err e' -> lookup_error e' = false) ->
  interpolate_loop fuel interp m o s r = Err e -> lookup_error e = false.
Proof.
  intros Hi. revert r. induction fuel as [|f IH]; intros r H; cbn [interpolate_loop] in H;
    [discriminate|].
  destruct r as [|c r]; [discriminate|]. red_bind H.
  destruct (negb (Ascii.eqb c "%")).
  - destruct (interpolate_loop f interp m o s r) eqn:E; [discriminate|].
    injection H as <-. exact (IH _ E).
  - destruct r as [|c' r']; [injection H as <-; reflexivity|].
    destruct (Ascii.eqb c' "%").
    + destruct (interpolate_loop f interp m o s r') eqn:E; [discriminate|].
      injection H as <-. exact (IH _ E).
    + destruct (Ascii.eqb c' "("); [|injection H as <-; reflexivity].
      destruct (keycre_match _) as [[var rest']|]; [|injection H as <-; reflexivity].
      destruct (assoc_lookup var m) as [[v|]|]; [|injection H as <-; reflexivity..].
      destruct (PyStr.contains "%" v).
      * destruct (interp v) as [v'|e'] eqn:Ev.
        -- destruct (interpolate_loop f interp m o s rest') eqn:E; [discriminate|].
           injection H as <-. exact (IH _ E).
        -- injection H as <-. exact (Hi _ _ Ev).
      * destruct (interpolate_loop f interp m o s rest') eqn:E; [discriminate|].
        injection H as <-. exact (IH _ E).
Qed.

Lemma before_get_err m o s v e : before_get m o s v = Err e -> lookup_error e = false.
Proof.
  unfold before_get. generalize MAX_INTERPOLATION_DEPTH as n. intros n. revert v e.
  induction n as [|n IH]; intros v e H; cbn [interpolate_some] in H.
  - injection H as <-. reflexivity.
  - exact (interpolate_loop_err _ _ _ _ _ _ _ IH H).
Qed.

Lemma lookup_none_mem {A} k (l : list (string * A)) :
  assoc_lookup k l = None -> mem k (map fst l) = false.
Proof.
  induction l as [|[k0 v0] r IH]; simpl; [reflexivity|].
  destruct (String.eqb k k0); [discriminate|]. intros H. exact (IH H).
Qed.

Lemma regen_value_cases config s k e :
  String.eqb s "DEFAULT" = false ->
  (forall v, cp_get s k config = Ok v ->
     regen_value config s k e = Ok (match v with Some x => PStr x | None => PNone end)) /\
  (cp_get s k config = Err (NoSectionError s) \/ cp_get s k config = Err (NoOptionError s k) ->
     regen_value config s k e = Ok (o_default e)).
Proof.
  intros Hd. unfold regen_value, existing_or_default, cp_get_fallback, cp_get, cp_unify.
  rewrite Hd, (mem_cp_sections _ _ Hd).
  destruct (assoc_lookup s config) as [its|] eqn:Hs.
  - rewrite (lookup_some_mem _ _ _ Hs). cbn [negb]. unfold bind. cbv beta iota.
    destruct (assoc_lookup k (app its (cp_defaults config))) as [[x|]|].
    + destruct (before_get (app its (cp_defaults config)) k s x) as [y|err] eqn:Eb.
      * split; [intros v Hv; injection Hv as <-; reflexivity|].
        intros [Hv|Hv]; discriminate.
      * split; [discriminate|]. apply before_get_err in Eb.
        intros [Hv|Hv]; injection Hv as ->; discriminate.
    + split; [intros v Hv; injection Hv as <-; reflexivity|]. intros [Hv|Hv]; discriminate.
    + split; [discriminate|]. intros _. reflexivity.
  - rewrite (lookup_none_mem _ _ Hs). cbn [negb].
    split; [discriminate|]. intros _. reflexivity.
Qed.

Lemma gen_fold_not_default val d c c' s :
  gen_fold val d c = Ok c' -> In s (map fst d) -> String.eqb s "DEFAULT" = false.
Proof.
  revert c. induction d as [|[s0 sec0] r IH]; intros c H Hx; [destruct Hx|].
  unfold gen_fold in H. cbn [fold_result] in H. red_bind H.
  destruct (helptext_of (sec_helptext sec0)) as [h|]; [|discriminate].
  destruct (insert_config_section s0 h c) as [c1|] eqn:Hs; [|discriminate].
  match type of H with
  | context [fold_result ?F (sec_items sec0) c1] =>
      destruct (fold_result F (sec_items sec0) c1) as [c2|] eqn:Hi; [|discriminate]
  end.
  change (gen_fold val r c2 = Ok c') in H.
  destruct Hx as [<-|Hx]; [|exact (IH c2 H Hx)].
  unfold insert_config_section in Hs. red_bind Hs.
  destruct (cp_add_section s0 c) as [c0|] eqn:Ha; [|discriminate].
  exact (cp_add_section_not_default _ _ _ Ha).
Qed.

Lemma handle_config_regenerates st st' f :
  st_config st = [] -> st_file st = Some f ->
  check_config_change (st_defaults st) (read_into [] f) = true ->
  handle_config st = Ok st' ->
  exists new, regenerate (st_defaults st) (read_into [] f) = Ok new /\ st_file st' = Some new.
Proof.
  intros Hc Hf Hchg H.
  assert (He : check_exists st = true) by (unfold check_exists; rewrite Hf; reflexivity).
  assert (Hl : load_config st = with_config st (read_into [] f))
    by (unfold load_config; rewrite Hf, Hc; reflexivity).
  unfold handle_config in H. rewrite He in H. red_bind H. rewrite Hl in H.
  unfold validate_config in H. cbn [with_config st_defaults st_config] in H.
  rewrite Hchg in H. unfold add_new_config_items in H. cbn [with_config st_defaults st_config] in H.
  destruct (regenerate (st_defaults st) (read_into [] f)) as [new|] eqn:Hr;
    red_bind H; [|discriminate].
  exists new. split; [reflexivity|].
  destruct (check_config_choices_shape _ _ H) as (c1 & w1 & _ & _ & _ & Hfile & _).
  rewrite Hfile. reflexivity.
Qed.

(** C5 fails as stated for a key stored without a value: reconciliation
    writes it back as the string "None". *)
Lemma handle_config_valueless_key :
  cp_val "global" "flag" (read_into [] Sample.bare_file) = Some None /\
  match init "model.a" Sample.set_defaults (Some Sample.bare_file) with
  | Ok st =>
      match st_file st with
      | Some new => cp_val "global" "flag" new = Some (Some "None")
      | None => False
      end
  | Err _ => False
  end.
Proof. vm_compute. split; reflexivity. Qed.

(** C5 (as amended).  When the file loaded into a fresh parser differs from
    the schema in its sections or keys and construction succeeds, the file
    (a [plain_file], so that [read_view] describes how it reads back)
    is rewritten from the schema (whose section names are not empty).  An
    option of the schema with a plain, non-comment name is written with
    what [config.get] gives for it in the loaded parser: the string it
    returns (interpolated, and read from the file's DEFAULT section when
    the section lacks the key), "None" for a key stored without a value,
    and [str(default)] when the section or the key is missing; so a stored
    string without "%" is kept as it is.  Any other plain key, in a schema
    section or in a section outside the schema, is absent. *)
Theorem handle_config_heals st st' f :
  st_config st = [] -> st_file st = Some f -> plain_file f = true ->
  check_config_change (st_defaults st) (read_into [] f) = true ->
  (forall s sec, In (s, sec) (st_defaults st) -> NoDup (map fst (sec_items sec))) ->
  ~ In "" (map fst (st_defaults st)) ->
  handle_config st = Ok st' ->
  exists new, st_file st' = Some new /\
    (forall s sec k e,
       assoc_lookup s (st_defaults st) = Some sec -> assoc_lookup k (sec_items sec) = Some e ->
       comment_like k = false ->
       (forall v, cp_get s k (read_into [] f) = Ok (Some v) -> cp_val s k new = Some (Some v)) /\
       (cp_get s k (read_into [] f) = Ok None -> cp_val s k new = Some (Some "None")) /\
       (cp_get s k (read_into [] f) = Err (NoSectionError s) \/
        cp_get s k (read_into [] f) = Err (NoOptionError s k) ->
          cp_val s k new = Some (Some (py_str (o_default e)))) /\
       (forall v, cp_val s k (read_into [] f) = Some (Some v) -> PyStr.contains "%" v = false ->
          cp_val s k new = Some (Some v))) /\
    (forall s k, comment_like k = false ->
       (forall sec, assoc_lookup s (st_defaults st) = Some sec ->
          assoc_lookup k (sec_items sec) = None) ->
       cp_val s k new = None).
Proof.
  intros Hc Hf _ Hchg Hnd Hn H.
  destruct (handle_config_regenerates _ _ _ Hc Hf Hchg H) as (new & Hr & Hfile).
  rewrite regenerate_gen in Hr.
  exists new. split; [exact Hfile|]. split.
  - intros s sec k e Hs Hk Hck.
    assert (Hd : String.eqb s "DEFAULT" = false).
    { apply (gen_fold_not_default _ _ _ _ s Hr). apply in_map_iff.
      exists (s, sec). split; [reflexivity|]. exact (assoc_lookup_In _ _ _ Hs). }
    rewrite (gen_fold_val _ _ _ _ s k Hr Hnd Hn Hck), Hs, Hk.
    destruct (regen_value_cases (read_into [] f) s k e Hd) as (H1 & H2).
    split; [|split; [|split]].
    + intros v Hv. rewrite (H1 _ Hv). reflexivity.
    + intros Hv. rewrite (H1 _ Hv). reflexivity.
    + intros Hv. rewrite (H2 Hv). reflexivity.
    + intros v Hv Hp.
      assert (Hpf : pct_free (Some v) = true) by (cbn [pct_free]; rewrite Hp; reflexivity).
      rewrite (H1 _ (cp_get_val _ _ _ _ Hv Hpf)). reflexivity.
  - intros s k Hck Hnot. rewrite (gen_fold_val _ _ _ _ s k Hr Hnd Hn Hck).
    destruct (assoc_lookup s (st_defaults st)) as [sec|] eqn:Hs; [|reflexivity].
    rewrite (Hnot sec eq_refl). reflexivity.
Qed.

Lemma handle_config_heals_witness :
  exists new,
    st_file (match handle_config Sample.heals_store with Ok x => x | Err _ => Sample.heals_store end)
      = Some new /\
    (forall s sec k e,
       assoc_lookup s Sample.defaults = Some sec -> assoc_lookup k (sec_items sec) = Some e ->
       comment_like k = false ->
       (forall v, cp_get s k (read_into [] Sample.stale_file) = Ok (Some v) ->
          cp_val s k new = Some (Some v)) /\
       (cp_get s k (read_into [] Sample.stale_file) = Ok None ->
          cp_val s k new = Some (Some "None")) /\
       (cp_get s k (read_into [] Sample.stale_file) = Err (NoSectionError s) \/
        cp_get s k (read_into [] Sample.stale_file) = Err (NoOptionError s k) ->
          cp_val s k new = Some (Some (py_str (o_default e)))) /\
       (forall v, cp_val s k (read_into [] Sample.stale_file) = Some (Some v) ->
          PyStr.contains "%" v = false -> cp_val s k new = Some (Some v))) /\
    (forall s k, comment_like k = false ->
       (forall sec, assoc_lookup s Sample.defaults = Some sec ->
          assoc_lookup k (sec_items sec) = None) ->
       cp_val s k new = None).
Proof.
  apply (handle_config_heals Sample.heals_store
           (match handle_config Sample.heals_store with Ok x => x | Err _ => Sample.heals_store end)
           Sample.stale_file).
  - reflexivity.
  - reflexivity.
  - vm_compute. reflexivity.
  - vm_compute. reflexivity.
  - intros s sec Hin. vm_compute in Hin.
    repeat (destruct Hin as [Hin | Hin];
            [inversion Hin; subst; apply (bool_decide_unpack _); vm_compute; exact I|]).
    destruct Hin.
  - apply not_In_mem. vm_compute. reflexivity.
  - vm_compute. reflexivity.
Defined.

(** ** Well-formed parsers and [config.read] *)

Lemma In_map_fst_assoc_set {A} x k (v : A) l :
  In x (map fst (assoc_set k v l)) -> x = k \/ In x (map fst l).
Proof.
  induction l as [|[k0 v0] r IH]; cbn.
  - intros [->|[]]. left. reflexivity.
  - destruct (String.eqb k k0); cbn.
    + intros [->|H]; right; [left; reflexivity|right; exact H].
    + intros [->|H]; [right; left; reflexivity|].
      destruct (IH H) as [->|H']; [left; reflexivity|right; right; exact H'].
Qed.

Lemma In_assoc_set {A} p k (v : A) l : In p (assoc_set k v l) -> p = (k, v) \/ In p l.
Proof.
  induction l as [|[k0 v0] r IH]; cbn.
  - intros [<-|[]]. left. reflexivity.
  - destruct (String.eqb k k0) eqn:E; cbn.
    + apply String.eqb_eq in E. subst k0. intros [<-|H]; [left; reflexivity|right; right; exact H].
    + intros [<-|H]; [right; left; reflexivity|].
      destruct (IH H) as [->|H']; [left; reflexivity|right; right; exact H'].
Qed.

Lemma NoDup_assoc_set {A} k (v : A) l :
  NoDup (map fst l) -> NoDup (map fst (assoc_set k v l)).
Proof.
  induction l as [|[k0 v0] r IH]; cbn; intros Hnd.
  - constructor; [set_solver|constructor].
  - apply NoDup_cons in Hnd as [Hn Hnd].
    destruct (String.eqb k k0) eqn:E; cbn; apply NoDup_cons; split; auto.
    intros Hin. apply list_elem_of_In in Hin.
    destruct (In_map_fst_assoc_set _ _ _ _ Hin) as [->|Hin'].
    + rewrite String.eqb_refl in E. discriminate.
    + apply Hn. apply list_elem_of_In. exact Hin'.
Qed.

Lemma wf_assoc_set_items s its k v c :
  wf_cp c -> NoDup (map fst its) -> wf_cp (assoc_set s (assoc_set k v its) c).
Proof.
  intros [Hn Hi] Hits. split; [apply NoDup_assoc_set; exact Hn|].
  intros s' its' Hin. apply In_assoc_set in Hin as [Heq|Hin].
  - injection Heq as -> ->. apply NoDup_assoc_set. exact Hits.
  - exact (Hi s' its' Hin).
Qed.

Lemma wf_cp_defaults c : wf_cp c -> NoDup (map fst (cp_defaults c)).
Proof.
  intros [_ Hi]. unfold cp_defaults.
  destruct (assoc_lookup "DEFAULT" c) as [d|] eqn:Hd; [|constructor].
  exact (Hi _ _ (assoc_lookup_In _ _ _ Hd)).
Qed.

Lemma wf_cp_set s k v c c' : wf_cp c -> cp_set s k v c = Ok c' -> wf_cp c'.
Proof.
  unfold cp_set. intros Hw H.
  destruct (match v with Some x => _ | None => _ end) as [[]|]; [|discriminate].
  destruct (String.eqb s "" || String.eqb s "DEFAULT").
  - injection H as <-. exact (wf_assoc_set_items _ _ _ _ _ Hw (wf_cp_defaults _ Hw)).
  - destruct (assoc_lookup s c) as [its|] eqn:Hs; [|discriminate]. injection H as <-.
    apply (wf_assoc_set_items _ _ _ _ _ Hw).
    exact (proj2 Hw s its (assoc_lookup_In _ _ _ Hs)).
Qed.

Lemma mem_In x l : mem x l = true <-> In x l.
Proof.
  unfold mem. rewrite existsb_exists. split.
  - intros (y & Hy & E). apply String.eqb_eq in E. subst. exact Hy.
  - intros Hx. exists x. split; [exact Hx|apply String.eqb_refl].
Qed.

Lemma wf_cp_add s c c' : wf_cp c -> cp_add_section s c = Ok c' -> wf_cp c'.
Proof.
  unfold cp_add_section. intros [Hn Hi] H.
  destruct (String.eqb s "DEFAULT") eqn:Ed; [discriminate|].
  rewrite (mem_cp_sections _ _ Ed) in H.
  destruct (mem s (map fst c)) eqn:Hm; [discriminate|]. injection H as <-.
  split.
  - rewrite map_app. apply NoDup_app. split; [exact Hn|]. split.
    + intros x Hx Hx'. cbn in Hx'. apply list_elem_of_singleton in Hx'. subst x.
      apply list_elem_of_In in Hx. apply mem_In in Hx. congruence.
    + cbn. constructor; [set_solver|constructor].
  - intros s' its Hin. apply in_app_or in Hin as [Hin|[Heq|[]]].
    + exact (Hi s' its Hin).
    + injection Heq as _ <-. constructor.
Qed.

Lemma wf_insert_config_section s h c c' :
  wf_cp c -> insert_config_section s h c = Ok c' -> wf_cp c'.
Proof.
  unfold insert_config_section. intros Hw H. red_bind H.
  destruct (cp_add_section s c) as [c1|] eqn:Ha; [|discriminate].
  exact (wf_cp_set _ _ _ _ _ (wf_cp_add _ _ _ Hw Ha) H).
Qed.

Lemma wf_insert_config_item s k v o c c' :
  wf_cp c -> insert_config_item s k v o c = Ok c' -> wf_cp c'.
Proof.
  unfold insert_config_item. intros Hw H. red_bind H.
  destruct (cp_set s (format_help (o_helptext o) false) None c) as [c1|] eqn:H1;
    [|discriminate].
  exact (wf_cp_set _ _ _ _ _ (wf_cp_set _ _ _ _ _ Hw H1) H).
Qed.

Lemma wf_gen_fold val d c c' : wf_cp c -> gen_fold val d c = Ok c' -> wf_cp c'.
Proof.
  intros Hw H. unfold gen_fold in H. revert H.
  apply (fold_result_inv wf_cp); [|exact Hw].
  intros [s sec] a a' _ Ha Hx. red_bind Hx.
  destruct (helptext_of (sec_helptext sec)) as [h|]; [|discriminate].
  destruct (insert_config_section s h a) as [a1|] eqn:Hs; [|discriminate].
  revert Hx. apply (fold_result_inv wf_cp); [|exact (wf_insert_config_section _ _ _ _ Ha Hs)].
  intros [k e] b b' _ Hb Hi. red_bind Hi. destruct (val s k e) as [v|]; [|discriminate].
  exact (wf_insert_config_item _ _ _ _ _ _ Hb Hi).
Qed.

Lemma read_view_sections_lookup (f : configparser) s :
  assoc_lookup s (map (fun '(s0, items) => (s0, omap view_item items))
                    (filter (fun '(s0, _) => negb (String.eqb s0 "DEFAULT")) f)) =
  if String.eqb s "DEFAULT" then None else option_map (omap view_item) (assoc_lookup s f).
Proof.
  unfold configparser in *.
  induction f as [|[s0 i0] r IH]; [destruct (String.eqb s "DEFAULT"); reflexivity|].
  rewrite filter_cons. case_decide as Hd.
  - cbn [map assoc_lookup]. rewrite IH. destruct (String.eqb s s0) eqn:E.
    + apply String.eqb_eq in E. subst s0.
      destruct (String.eqb s "DEFAULT"); [destruct Hd|reflexivity].
    + destruct (String.eqb s "DEFAULT"); reflexivity.
  - cbn [assoc_lookup]. rewrite IH. destruct (String.eqb s s0) eqn:E; [|reflexivity].
    apply String.eqb_eq in E. subst s0.
    destruct (String.eqb s "DEFAULT") eqn:Ed; [reflexivity|].
    exfalso. apply Hd. exact I.
Qed.

Lemma read_view_lookup f s :
  assoc_lookup s (read_view f) =
  if String.eqb s "DEFAULT"
  then match cp_defaults f with [] => None | d => Some (omap view_item d) end
  else option_map (omap view_item) (assoc_lookup s f).
Proof.
  unfold read_view. rewrite assoc_lookup_app, read_view_sections_lookup.
  destruct (cp_defaults f) as [|p d]; cbn [assoc_lookup];
    destruct (String.eqb s "DEFAULT"); reflexivity.
Qed.

Lemma read_view_sections_names (f : configparser) :
  map fst (map (fun '(s0, items) => (s0, omap view_item items))
             (filter (fun '(s0, _) => negb (String.eqb s0 "DEFAULT")) f)) = cp_sections f.
Proof.
  unfold cp_sections. unfold configparser in *. induction f as [|[s0 i0] r IH]; [reflexivity|].
  cbn [map fst]. rewrite !filter_cons. case_decide as H1; case_decide as H2.
  - cbn [map fst]. rewrite IH. reflexivity.
  - exfalso. apply H2. exact H1.
  - exfalso. apply H1. exact H2.
  - exact IH.
Qed.

Lemma view_lookup k items :
  assoc_lookup k (omap view_item items) =
  if is_comment_key k then None else option_map (option_map reread_value) (assoc_lookup k items).
Proof.
  induction items as [|[k0 v0] r IH]; cbn; [destruct (is_comment_key k); reflexivity|].
  destruct (is_comment_key k0) eqn:Ec; cbn.
  - destruct (String.eqb k k0) eqn:E; [|exact IH].
    apply String.eqb_eq in E. subst k0. rewrite IH, Ec. reflexivity.
  - destruct (String.eqb k k0) eqn:E; [|exact IH].
    apply String.eqb_eq in E. subst k0. rewrite Ec. reflexivity.
Qed.

Lemma In_map_fst_view x items : In x (map fst (omap view_item items)) -> In x (map fst items).
Proof.
  induction items as [|[k0 v0] r IH]; cbn; [auto|].
  destruct (is_comment_key k0); cbn; [intros H; right; auto|].
  intros [->|H]; [left; reflexivity|right; auto].
Qed.

Lemma NoDup_view items : NoDup (map fst items) -> NoDup (map fst (omap view_item items)).
Proof.
  induction items as [|[k0 v0] r IH]; cbn; [auto|].
  intros Hnd. apply NoDup_cons in Hnd as [Hn Hnd].
  destruct (is_comment_key k0); cbn; [auto|].
  apply NoDup_cons. split; [|auto].
  intros Hin. apply Hn. apply list_elem_of_In. apply In_map_fst_view.
  apply list_elem_of_In. exact Hin.
Qed.

Lemma wf_read_view f : wf_cp f -> wf_cp (read_view f).
Proof.
  intros [Hn Hi]. unfold read_view. split.
  - rewrite map_app, read_view_sections_names.
    assert (Hs : NoDup (cp_sections f)) by (apply NoDup_filter; exact Hn).
    destruct (cp_defaults f) as [|p d]; [exact Hs|].
    cbn [map fst app]. apply NoDup_cons. split; [|exact Hs].
    intros Hin. unfold cp_sections in Hin. apply list_elem_of_filter in Hin as [Hd _].
    destruct Hd.
  - intros s its Hin. apply in_app_or in Hin as [Hin|Hin].
    + pose proof (wf_cp_defaults _ (conj Hn Hi)) as Hnd.
      destruct (cp_defaults f) as [|p d]; [destruct Hin|].
      destruct Hin as [Heq|[]]. injection Heq as <- <-. exact (NoDup_view (p :: d) Hnd).
    + apply in_map_iff in Hin as ([s0 its0] & Heq & Hin).
      injection Heq as -> <-. apply NoDup_view.
      apply list_elem_of_In, list_elem_of_filter in Hin as [_ Hin].
      exact (Hi s its0 (proj1 (list_elem_of_In _ _) Hin)).
Qed.

Lemma read_key_val s0 cfg kv s k :
  assoc_lookup s0 cfg <> None ->
  assoc_lookup s0 (read_key s0 cfg kv) <> None /\
  cp_val s k (read_key s0 cfg kv) =
    if String.eqb s s0 && String.eqb k (fst kv) then Some (snd kv) else cp_val s k cfg.
Proof.
  destruct kv as [k0 v0]. unfold read_key. intros Hn.
  destruct (assoc_lookup s0 cfg) as [its|] eqn:Hs; [|contradiction].
  rewrite assoc_lookup_set, String.eqb_refl. split; [discriminate|].
  unfold cp_val. rewrite assoc_lookup_set. cbn [fst snd].
  destruct (String.eqb s s0) eqn:Es; cbn [andb]; [|reflexivity].
  apply String.eqb_eq in Es. subst s0. rewrite Hs, assoc_lookup_set.
  destruct (String.eqb k k0); reflexivity.
Qed.

Lemma read_items_val s0 items cfg s k :
  assoc_lookup s0 cfg <> None -> NoDup (map fst items) ->
  cp_val s k (fold_left (read_key s0) items cfg) =
    if String.eqb s s0
    then match assoc_lookup k items with Some v => Some v | None => cp_val s k cfg end
    else cp_val s k cfg.
Proof.
  revert cfg. induction items as [|[k0 v0] r IH]; intros cfg Hn Hnd; cbn [fold_left].
  - destruct (String.eqb s s0); reflexivity.
  - apply NoDup_cons in Hnd as [Hn0 Hnd].
    destruct (read_key_val s0 cfg (k0, v0) s k Hn) as [Hn' Hv].
    rewrite (IH _ Hn' Hnd), Hv. cbn [assoc_lookup fst snd].
    destruct (String.eqb s s0) eqn:Es; cbn [andb]; [|reflexivity].
    destruct (String.eqb k k0) eqn:Ek; [|reflexivity].
    apply String.eqb_eq in Ek. subst k0.
    rewrite (notin_lookup_none k r (fun Hx => Hn0 (proj2 (list_elem_of_In _ _) Hx))).
    reflexivity.
Qed.

Lemma In_lookup_some {A} k (l : list (string * A)) :
  In k (map fst l) -> assoc_lookup k l <> None.
Proof.
  induction l as [|[k0 v0] r IH]; cbn; [intros []|].
  destruct (String.eqb k k0) eqn:E; [discriminate|].
  intros [->|Hin]; [rewrite String.eqb_refl in E; discriminate|auto].
Qed.

Lemma read_items_some s0 items c :
  assoc_lookup s0 c <> None -> assoc_lookup s0 (fold_left (read_key s0) items c) <> None.
Proof.
  revert c. induction items as [|kv r IH]; intros c Hc; [exact Hc|].
  cbn [fold_left]. apply IH. exact (proj1 (read_key_val s0 c kv s0 s0 Hc)).
Qed.

Lemma read_section_val cfg s0 (its0 : cp_section) s k :
  NoDup (map fst its0) ->
  assoc_lookup s0 (read_section cfg (s0, its0)) <> None /\
  cp_val s k (read_section cfg (s0, its0)) =
    if String.eqb s s0
    then match assoc_lookup k its0 with Some v => Some v | None => cp_val s k cfg end
    else cp_val s k cfg.
Proof.
  intros Hnd. unfold read_section.
  set (cfgA := if mem s0 (map fst cfg) then cfg else app cfg [(s0, [])]).
  assert (HA : assoc_lookup s0 cfgA <> None /\ forall x, cp_val x k cfgA = cp_val x k cfg).
  { unfold cfgA. destruct (mem s0 (map fst cfg)) eqn:Hm.
    - split; [|reflexivity]. apply mem_In in Hm. exact (In_lookup_some _ _ Hm).
    - split.
      + rewrite assoc_lookup_app, (mem_lookup_none _ _ Hm). cbn.
        rewrite String.eqb_refl. discriminate.
      + intros x. unfold cp_val. rewrite assoc_lookup_app.
        destruct (assoc_lookup x cfg); [reflexivity|]. cbn.
        destruct (String.eqb x s0); reflexivity. }
  destruct HA as [HA1 HA2].
  split.
  - exact (read_items_some s0 its0 cfgA HA1).
  - rewrite (read_items_val s0 its0 cfgA s k HA1 Hnd), !HA2. reflexivity.
Qed.

Lemma read_sections_val l cfg s k :
  wf_cp l ->
  cp_val s k (fold_left read_section l cfg) =
    match assoc_lookup s l with
    | Some its => match assoc_lookup k its with Some v => Some v | None => cp_val s k cfg end
    | None => cp_val s k cfg
    end.
Proof.
  revert cfg. induction l as [|[s0 its0] r IH]; intros cfg [Hn Hi]; [reflexivity|].
  cbn [fold_left map fst] in Hn |- *. apply NoDup_cons in Hn as [Hn0 Hn].
  assert (Hw : wf_cp r) by (split; [exact Hn|intros s1 its1 H1; apply (Hi s1); right; exact H1]).
  assert (Hnd : NoDup (map fst its0)) by (apply (Hi s0); left; reflexivity).
  rewrite (IH _ Hw), (proj2 (read_section_val cfg s0 its0 s k Hnd)). cbn [assoc_lookup].
  destruct (String.eqb s s0) eqn:Es; [|reflexivity].
  apply String.eqb_eq in Es. subst s0.
  rewrite (notin_lookup_none s r (fun Hx => Hn0 (proj2 (list_elem_of_In _ _) Hx))).
  reflexivity.
Qed.

Lemma read_into_val cfg f s k :
  wf_cp (read_view f) ->
  cp_val s k (read_into cfg f) =
    match assoc_lookup s (read_view f) with
    | Some its => match assoc_lookup k its with Some v => Some v | None => cp_val s k cfg end
    | None => cp_val s k cfg
    end.
Proof. exact (read_sections_val (read_view f) cfg s k). Qed.

(** ** String helpers *)

Lemma sapp_cons x (r b : string) : String.append (String x r) b = String x (String.append r b).
Proof. reflexivity. Qed.

Lemma sapp_assoc (a b c : string) :
  String.append (String.append a b) c = String.append a (String.append b c).
Proof. induction a as [|x r IH]; [reflexivity|]. rewrite !sapp_cons, IH. reflexivity. Qed.

Lemma sapp_nil_r (a : string) : String.append a "" = a.
Proof. induction a as [|x r IH]; [reflexivity|]. rewrite sapp_cons, IH. reflexivity. Qed.

Lemma split_on_shape sep x : exists t ts, PyStr.split_on sep x = t :: ts.
Proof.
  induction x as [|c r IH]; cbn [PyStr.split_on]; [eauto|].
  destruct (Ascii.eqb c sep); [eauto|]. destruct IH as (t & ts & ->). eauto.
Qed.

Lemma split_on_app_plain p x :
  PyStr.contains nl p = false ->
  PyStr.split_on nl (String.append p x) =
    match PyStr.split_on nl x with
    | t :: ts => String.append p t :: ts
    | [] => [p]
    end.
Proof.
  induction p as [|c r IH]; intros Hp.
  - change (String.append "" x) with x.
    destruct (split_on_shape nl x) as (t & ts & ->). reflexivity.
  - cbn [PyStr.contains] in Hp. apply orb_false_iff in Hp as [Hc Hr].
    rewrite sapp_cons. cbn [PyStr.split_on]. rewrite Hc, (IH Hr).
    destruct (split_on_shape nl x) as (t & ts & ->). reflexivity.
Qed.

Lemma split_on_replace p body :
  PyStr.contains nl p = false ->
  PyStr.split_on nl (PyStr.replace_char nl (String nl p) body) =
    match PyStr.split_on nl body with
    | t :: ts => t :: map (String.append p) ts
    | [] => []
    end.
Proof.
  intros Hp. induction body as [|c r IH]; [reflexivity|].
  cbn [PyStr.replace_char PyStr.split_on].
  destruct (Ascii.eqb c nl) eqn:Ec.
  - rewrite sapp_cons. cbn [PyStr.split_on]. rewrite Ascii.eqb_refl.
    rewrite (split_on_app_plain p _ Hp), IH.
    destruct (split_on_shape nl r) as (t & ts & ->). reflexivity.
  - cbn [PyStr.split_on]. rewrite Ec, IH.
    destruct (split_on_shape nl r) as (t & ts & ->). reflexivity.
Qed.

Lemma upper_char_nl c : Ascii.eqb (PyStr.upper_char c) nl = Ascii.eqb c nl.
Proof. destruct c as [[] [] [] [] [] [] [] []]; reflexivity. Qed.

Lemma split_on_upper x :
  PyStr.split_on nl (PyStr.upper x) = map PyStr.upper (PyStr.split_on nl x).
Proof.
  induction x as [|c r IH]; [reflexivity|].
  change (PyStr.upper (String c r)) with (String (PyStr.upper_char c) (PyStr.upper r)).
  cbn [PyStr.split_on]. rewrite upper_char_nl, IH.
  destruct (Ascii.eqb c nl); [reflexivity|].
  destruct (split_on_shape nl r) as (t & ts & ->). reflexivity.
Qed.

Lemma startswith_hash_sp y : PyStr.startswith "# " (String.append "# " y) = true.
Proof. destruct y; reflexivity. Qed.

Lemma hash_line_comment y :
  (let t := PyStr.strip (String.append "# " y) in
   String.eqb t "" || PyStr.startswith "#" t || PyStr.startswith ";" t) = true.
Proof.
  cbv zeta. unfold PyStr.strip. change (PyStr.lstrip (String.append "# " y)) with (String "#" (String " " y)).
  destruct (rstrip_head "#" (String " " y) eq_refl) as [r' ->].
  apply orb_true_iff; left; apply orb_true_iff; right. destruct r'; reflexivity.
Qed.

(** ** Reading back [str(default)] *)

Lemma Z_of_digits_snoc ds d : Z_of_digits (app ds [d]) = (Z_of_digits ds * 10 + Z.of_nat d)%Z.
Proof. unfold Z_of_digits. rewrite fold_left_app. reflexivity. Qed.

Lemma digits_aux_S f n acc :
  digits_of_pos_aux (S f) n acc =
  if (n <? 10)%N then N.to_nat (n mod 10)%N :: acc
  else digits_of_pos_aux f (n / 10)%N (N.to_nat (n mod 10)%N :: acc).
Proof. reflexivity. Qed.

Lemma digits_aux_spec fuel : forall n acc,
  (Z.of_N n < 2 ^ Z.of_nat (S fuel))%Z ->
  exists pre, digits_of_pos_aux (S fuel) n acc = app pre acc /\ pre <> [] /\
              Forall (fun d => d < 10)%nat pre /\ Z_of_digits pre = Z.of_N n.
Proof.
  induction fuel as [|f IH]; intros n acc Hn; rewrite digits_aux_S.
  - assert (Hlt : (n < 10)%N) by (rewrite Nat2Z.inj_succ, Z.pow_succ_r in Hn; cbn in Hn; lia).
    rewrite (proj2 (N.ltb_lt _ _) Hlt). exists [N.to_nat (n mod 10)]. repeat split.
    + discriminate.
    + constructor; [|constructor]. rewrite N.mod_small by exact Hlt. lia.
    + cbn. rewrite N.mod_small by exact Hlt. lia.
  - destruct (N.ltb_spec n 10) as [Hlt|Hge].
    + exists [N.to_nat (n mod 10)]. repeat split.
      * discriminate.
      * constructor; [|constructor]. rewrite N.mod_small by exact Hlt. lia.
      * cbn. rewrite N.mod_small by exact Hlt. lia.
    + assert (Hq : (Z.of_N (n / 10) < 2 ^ Z.of_nat (S f))%Z).
      { rewrite Nat2Z.inj_succ, Z.pow_succ_r in Hn by lia. rewrite N2Z.inj_div.
        Z.div_mod_to_equations. lia. }
      destruct (IH (n / 10)%N (N.to_nat (n mod 10) :: acc) Hq) as (pre & E & Hne & Hd & Hz).
      exists (app pre [N.to_nat (n mod 10)]). rewrite E, <- app_assoc. repeat split.
      * destruct pre; [contradiction|discriminate].
      * apply Forall_app. split; [exact Hd|]. constructor; [|constructor].
        pose proof (N.mod_lt n 10). lia.
      * rewrite Z_of_digits_snoc, Hz, N2Z.inj_div, N_nat_Z, N2Z.inj_mod.
        Z.div_mod_to_equations. lia.
Qed.

Lemma pos_size_bound p : (Z.pos p < 2 ^ Z.of_nat (Pos.size_nat p))%Z.
Proof.
  induction p as [p IH|p IH|]; cbn [Pos.size_nat]; rewrite ?Nat2Z.inj_succ, ?Z.pow_succ_r by lia;
    [rewrite Pos2Z.inj_xI|rewrite Pos2Z.inj_xO|]; cbn; lia.
Qed.

Lemma digits_of_N_spec n :
  digits_of_N n <> [] /\ Forall (fun d => d < 10)%nat (digits_of_N n) /\
  Z_of_digits (digits_of_N n) = Z.of_N n.
Proof.
  assert (Hb : (Z.of_N n < 2 ^ Z.of_nat (S (N.size_nat n)))%Z).
  { destruct n as [|p]; [cbn; lia|]. cbn [N.size_nat Z.of_N].
    pose proof (pos_size_bound p). rewrite Nat2Z.inj_succ, Z.pow_succ_r by lia. lia. }
  destruct (digits_aux_spec (N.size_nat n) n [] Hb) as (pre & E & Hne & Hd & Hz).
  unfold digits_of_N. rewrite E, app_nil_r. auto.
Qed.

Lemma digit_char_val d : (d < 10)%nat -> digit_val (digit_char d) = Some d.
Proof. intros H. do 10 (destruct d as [|d]; [reflexivity|]). lia. Qed.

Lemma digit_char_space d : (d < 10)%nat -> PyStr.is_space (digit_char d) = false.
Proof. intros H. do 10 (destruct d as [|d]; [reflexivity|]). lia. Qed.

Lemma list_ascii_of_digits ds :
  list_ascii_of_string (string_of_digits ds) = map digit_char ds.
Proof. induction ds as [|d r IH]; cbn; [reflexivity|]. f_equal. exact IH. Qed.

Lemma digits_tail_digits ds :
  Forall (fun d => d < 10)%nat ds -> digits_tail (map digit_char ds) = (ds, []).
Proof.
  induction ds as [|d r IH]; intros Hd; [reflexivity|].
  apply Forall_cons in Hd as [Hd Hr]. cbn [map digits_tail].
  rewrite (digit_char_val d Hd), (IH Hr). reflexivity.
Qed.

Lemma digit_run_digits ds :
  ds <> [] -> Forall (fun d => d < 10)%nat ds -> digit_run (map digit_char ds) = Some (ds, []).
Proof.
  destruct ds as [|d r]; intros Hne Hd; [contradiction|].
  apply Forall_cons in Hd as [Hd0 Hr]. cbn [map digit_run].
  rewrite (digit_char_val d Hd0), (digits_tail_digits r Hr). reflexivity.
Qed.

Lemma strip_no_space v : no_space v -> PyStr.strip v = v.
Proof.
  unfold no_space, PyStr.strip. intros H.
  assert (Hl : PyStr.lstrip v = v).
  { destruct v as [|c r]; [reflexivity|]. cbn in H. apply Forall_cons in H as [Hc _].
    cbn. rewrite Hc. reflexivity. }
  rewrite Hl. clear Hl. induction v as [|c r IH]; [reflexivity|].
  cbn in H. apply Forall_cons in H as [Hc Hr]. rewrite rstrip_cons, (IH Hr).
  destruct r; [rewrite Hc|]; reflexivity.
Qed.

Lemma contains_no_space v : no_space v -> PyStr.contains nl v = false.
Proof.
  unfold no_space. induction v as [|c r IH]; intros H; [reflexivity|].
  cbn in H. apply Forall_cons in H as [Hc Hr]. cbn [PyStr.contains]. rewrite (IH Hr).
  destruct (Ascii.eqb c nl) eqn:E; [|reflexivity].
  apply Ascii.eqb_eq in E. subst c. discriminate.
Qed.

Lemma split_on_none v : PyStr.contains nl v = false -> PyStr.split_on nl v = [v].
Proof.
  induction v as [|c r IH]; intros H; [reflexivity|].
  cbn [PyStr.contains] in H. apply orb_false_iff in H as [Hc Hr].
  cbn [PyStr.split_on]. rewrite Hc, (IH Hr). reflexivity.
Qed.

Lemma reread_plain v :
  PyStr.contains nl v = false -> PyStr.strip v = v -> reread_value v = v.
Proof.
  intros Hn Hs. unfold reread_value. rewrite (split_on_none v Hn). cbn [omap PyStr.join].
  rewrite Hs. pose proof (rstrip_idem (PyStr.lstrip v)) as H.
  change (PyStr.rstrip (PyStr.lstrip v)) with (PyStr.strip v) in H. rewrite Hs in H. exact H.
Qed.

Lemma str_of_Z_no_space z : no_space (str_of_Z z).
Proof.
  assert (Hd : forall n, no_space (string_of_digits (digits_of_N n))).
  { intros n. unfold no_space. rewrite list_ascii_of_digits. apply Forall_map.
    apply (Forall_impl _ _ _ (proj1 (proj2 (digits_of_N_spec n)))). exact digit_char_space. }
  destruct z as [|p|p]; [exact (Hd 0%N)|exact (Hd (Npos p))|].
  cbn [str_of_Z]. unfold no_space. cbn [list_ascii_of_string]. constructor; [reflexivity|].
  exact (Hd (Npos p)).
Qed.

Lemma take_sign_digit d l : (d < 10)%nat -> take_sign (digit_char d :: l) = (false, digit_char d :: l).
Proof. intros H. do 10 (destruct d as [|d]; [reflexivity|]). lia. Qed.

Lemma py_int_str_of_Z z : py_int (str_of_Z z) = Some z.
Proof.
  unfold py_int. rewrite (strip_no_space _ (str_of_Z_no_space z)).
  assert (Hd : forall n, exists d ds, list_ascii_of_string (string_of_digits (digits_of_N n)) =
                 digit_char d :: map digit_char ds /\ (d < 10)%nat /\
                 digit_run (list_ascii_of_string (string_of_digits (digits_of_N n))) =
                 Some (digits_of_N n, [])).
  { intros n. destruct (digits_of_N_spec n) as (Hne & Hf & _).
    rewrite list_ascii_of_digits, (digit_run_digits _ Hne Hf).
    destruct (digits_of_N n) as [|d ds]; [contradiction|].
    exists d, ds. apply Forall_cons in Hf as [Hd0 _]. auto. }
  assert (Hpos : forall n, (let '(neg, body) :=
              take_sign (list_ascii_of_string (string_of_digits (digits_of_N n))) in
            match digit_run body with
            | Some (ds, []) => Some (if neg then Z.opp (Z_of_digits ds) else Z_of_digits ds)
            | _ => None end) = Some (Z.of_N n)).
  { intros n. destruct (Hd n) as (d & ds & E & Hd0 & Hr). rewrite E in Hr |- *.
    rewrite (take_sign_digit d _ Hd0), Hr, (proj2 (proj2 (digits_of_N_spec n))).
    reflexivity. }
  destruct z as [|p|p].
  - exact (Hpos 0%N).
  - exact (Hpos (Npos p)).
  - cbn [str_of_Z list_ascii_of_string take_sign].
    destruct (Hd (Npos p)) as (_ & _ & _ & _ & Hr). rewrite Hr.
    rewrite (proj2 (proj2 (digits_of_N_spec (Npos p)))). reflexivity.
Qed.

Lemma chars_ok_cons P c r : chars_ok P (String c r) = P c && chars_ok P r.
Proof. reflexivity. Qed.

Lemma chars_ok_app P a b : chars_ok P (String.append a b) = chars_ok P a && chars_ok P b.
Proof.
  induction a as [|c r IH]; [reflexivity|].
  rewrite sapp_cons, !chars_ok_cons, IH. apply andb_assoc.
Qed.

Lemma chars_ok_substring P n m s : chars_ok P s = true -> chars_ok P (substring n m s) = true.
Proof.
  revert n m. induction s as [|c r IH]; intros n m H; [destruct n, m; reflexivity|].
  rewrite chars_ok_cons in H. apply andb_true_iff in H as [Hc Hr].
  destruct n as [|n]; cbn [substring].
  - destruct m as [|m]; [reflexivity|]. rewrite chars_ok_cons, Hc. exact (IH 0 m Hr).
  - exact (IH n m Hr).
Qed.

Lemma chars_ok_concat P sep l :
  chars_ok P sep = true -> (forall x, In x l -> chars_ok P x = true) ->
  chars_ok P (String.concat sep l) = true.
Proof.
  intros Hs. induction l as [|x r IH]; intros Hl; [reflexivity|].
  destruct r as [|y r'].
  - apply Hl. left. reflexivity.
  - change (String.concat sep (x :: y :: r'))
      with (String.append x (String.append sep (String.concat sep (y :: r')))).
    rewrite !chars_ok_app, Hs, (Hl x (or_introl eq_refl)). cbn [andb].
    apply IH. intros z Hz. apply Hl. right. exact Hz.
Qed.

Lemma chars_ok_join P sep l :
  chars_ok P sep = true -> (forall x, In x l -> chars_ok P x = true) ->
  chars_ok P (PyStr.join sep l) = true.
Proof.
  intros Hs. induction l as [|x r IH]; intros Hl; [reflexivity|].
  destruct r as [|y r'].
  - apply Hl. left. reflexivity.
  - change (PyStr.join sep (x :: y :: r'))
      with (String.append x (String.append sep (PyStr.join sep (y :: r')))).
    rewrite !chars_ok_app, Hs, (Hl x (or_introl eq_refl)). cbn [andb].
    apply IH. intros z Hz. apply Hl. right. exact Hz.
Qed.

Lemma chars_ok_map_chars P f s :
  (forall c, P c = true -> P (f c) = true) -> chars_ok P s = true ->
  chars_ok P (PyStr.map_chars f s) = true.
Proof.
  intros Hf. induction s as [|c r IH]; intros H; [reflexivity|].
  cbn [PyStr.map_chars]. rewrite chars_ok_cons in *. apply andb_true_iff in H as [Hc Hr].
  rewrite (Hf c Hc). exact (IH Hr).
Qed.

Lemma chars_ok_map_chars_all P f s :
  (forall c, P (f c) = true) -> chars_ok P (PyStr.map_chars f s) = true.
Proof.
  intros Hf. induction s as [|c r IH]; [reflexivity|].
  cbn [PyStr.map_chars]. rewrite chars_ok_cons, Hf. exact IH.
Qed.

Lemma chars_ok_replace_char P o n s :
  chars_ok P n = true -> chars_ok P s = true -> chars_ok P (PyStr.replace_char o n s) = true.
Proof.
  intros Hn. induction s as [|c r IH]; intros H; [reflexivity|].
  rewrite chars_ok_cons in H. apply andb_true_iff in H as [Hc Hr].
  cbn [PyStr.replace_char]. destruct (Ascii.eqb c o).
  - rewrite chars_ok_app, Hn. exact (IH Hr).
  - rewrite chars_ok_cons, Hc. exact (IH Hr).
Qed.

Lemma chars_ok_lstrip P s : chars_ok P s = true -> chars_ok P (PyStr.lstrip s) = true.
Proof.
  induction s as [|c r IH]; intros H; [reflexivity|].
  cbn [PyStr.lstrip]. destruct (PyStr.is_space c); [|exact H].
  rewrite chars_ok_cons in H. apply andb_true_iff in H as [_ Hr]. exact (IH Hr).
Qed.

Lemma chars_ok_rstrip P s : chars_ok P s = true -> chars_ok P (PyStr.rstrip s) = true.
Proof.
  induction s as [|c r IH]; intros H; [reflexivity|].
  rewrite chars_ok_cons in H. apply andb_true_iff in H as [Hc Hr].
  cbn [PyStr.rstrip]. destruct (PyStr.rstrip r) as [|a s0] eqn:E.
  - destruct (PyStr.is_space c); [reflexivity|]. rewrite chars_ok_cons, Hc. reflexivity.
  - rewrite chars_ok_cons, Hc. exact (IH Hr).
Qed.

Lemma chars_ok_strip P s : chars_ok P s = true -> chars_ok P (PyStr.strip s) = true.
Proof. intros H. apply chars_ok_rstrip, chars_ok_lstrip, H. Qed.

Lemma chars_ok_split_on P sep s :
  chars_ok P s = true -> forall x, In x (PyStr.split_on sep s) -> chars_ok P x = true.
Proof.
  induction s as [|c r IH]; intros H x Hx; [destruct Hx as [<-|[]]; reflexivity|].
  rewrite chars_ok_cons in H. apply andb_true_iff in H as [Hc Hr].
  cbn [PyStr.split_on] in Hx. destruct (Ascii.eqb c sep).
  - destruct Hx as [<-|Hx]; [reflexivity|exact (IH Hr x Hx)].
  - destruct (PyStr.split_on sep r) as [|t ts] eqn:E.
    + destruct Hx as [<-|[]]. rewrite chars_ok_cons, Hc. reflexivity.
    + destruct Hx as [<-|Hx].
      * rewrite chars_ok_cons, Hc. apply (IH Hr). left. reflexivity.
      * apply (IH Hr). right. exact Hx.
Qed.

Lemma chunks_ok P s :
  chars_ok P s = true -> forall x, In x (TextWrap.chunks s) -> chars_ok P x = true.
Proof.
  induction s as [|c r IH]; intros H x Hx; [destruct Hx|].
  rewrite chars_ok_cons in H. apply andb_true_iff in H as [Hc Hr].
  cbn [TextWrap.chunks] in Hx.
  destruct (TextWrap.chunks r) as [|[|c' t] ts] eqn:E.
  - destruct Hx as [<-|[]]. rewrite chars_ok_cons, Hc. reflexivity.
  - destruct Hx as [<-|[]]. rewrite chars_ok_cons, Hc. reflexivity.
  - assert (Ht : chars_ok P (String c' t) = true) by (apply (IH Hr); left; reflexivity).
    assert (Hts : forall y, In y ts -> chars_ok P y = true)
      by (intros y Hy; apply (IH Hr); right; exact Hy).
    destruct (Bool.eqb _ _).
    + destruct Hx as [<-|Hx]; [rewrite chars_ok_cons, Hc; exact Ht|exact (Hts x Hx)].
    + destruct Hx as [<-|[<-|Hx]]; [rewrite chars_ok_cons, Hc; reflexivity|exact Ht|exact (Hts x Hx)].
Qed.

Lemma take_fitting_in w n cs a b :
  TextWrap.take_fitting w n cs = (a, b) ->
  (forall x, In x a -> In x cs) /\ (forall x, In x b -> In x cs).
Proof.
  revert n a b. induction cs as [|c r IH]; intros n a b H; cbn [TextWrap.take_fitting] in H.
  - injection H as <- <-. split; intros x [].
  - destruct (n + String.length c <=? w)%nat.
    + destruct (TextWrap.take_fitting w (n + String.length c) r) as [t rest] eqn:E.
      injection H as <- <-. destruct (IH _ _ _ E) as [H1 H2].
      split; [intros x [<-|Hx]; [left; reflexivity|right; auto]|intros x Hx; right; auto].
    + injection H as <- <-. split; [intros x []|auto].
Qed.

Lemma wrap_tail_ok P sub first f width ind cur0 rest0 l :
  chars_ok P ind = true ->
  (forall x, In x cur0 -> chars_ok P x = true) ->
  (forall x, In x rest0 -> chars_ok P x = true) ->
  (forall first cs, (forall x, In x cs -> chars_ok P x = true) ->
     forall l, In l (TextWrap.wrap_chunks f width sub first cs) -> chars_ok P l = true) ->
  In l (match match rev cur0 with
              | [] => cur0
              | l :: init => if TextWrap.is_blank l then rev init else cur0
              end with
        | [] => TextWrap.wrap_chunks f width sub first rest0
        | _ :: _ =>
            String.append ind (String.concat ""
              (match rev cur0 with
               | [] => cur0
               | l0 :: init => if TextWrap.is_blank l0 then rev init else cur0
               end)) :: TextWrap.wrap_chunks f width sub false rest0
        end) ->
  chars_ok P l = true.
Proof.
  intros Hind Hc Hr IH Hl.
  assert (Hc1 : forall x, In x (match rev cur0 with
                                | [] => cur0
                                | l :: init => if TextWrap.is_blank l then rev init else cur0
                                end) -> chars_ok P x = true).
  { destruct (rev cur0) as [|y init] eqn:E; [exact Hc|].
    destruct (TextWrap.is_blank y); [|exact Hc].
    intros x Hx. apply Hc. apply (proj2 (in_rev cur0 x)). rewrite E. right.
    exact (proj2 (in_rev init x) Hx). }
  destruct (match rev cur0 with
            | [] => cur0
            | l :: init => if TextWrap.is_blank l then rev init else cur0
            end) as [|y ys].
  - exact (IH _ _ Hr l Hl).
  - destruct Hl as [<-|Hl]; [|exact (IH _ _ Hr l Hl)].
    rewrite chars_ok_app, Hind. apply chars_ok_concat; [reflexivity|exact Hc1].
Qed.

Lemma wrap_chunks_ok P fuel width sub first cs :
  chars_ok P sub = true -> (forall x, In x cs -> chars_ok P x = true) ->
  forall l, In l (TextWrap.wrap_chunks fuel width sub first cs) -> chars_ok P l = true.
Proof.
  intros Hsub. revert first cs. induction fuel as [|f IH]; intros first cs Hcs l Hl; [destruct Hl|].
  cbn [TextWrap.wrap_chunks] in Hl. destruct cs as [|c0 cs0]; [destruct Hl|].
  assert (Hind : chars_ok P (if first then "" else sub) = true)
    by (destruct first; [reflexivity|exact Hsub]).
  assert (H1 : forall x, In x (if negb first && TextWrap.is_blank c0 then cs0 else c0 :: cs0) ->
                 chars_ok P x = true).
  { destruct (negb first && TextWrap.is_blank c0); intros x Hx; apply Hcs; [right|]; exact Hx. }
  destruct (TextWrap.take_fitting _ 0 (if negb first && TextWrap.is_blank c0 then cs0 else c0 :: cs0))
    as [cur rest] eqn:Et.
  destruct (take_fitting_in _ _ _ _ _ Et) as [Hc Hr].
  assert (Hcur : forall x, In x cur -> chars_ok P x = true) by auto.
  assert (Hrest : forall x, In x rest -> chars_ok P x = true) by auto.
  destruct rest as [|c r].
  - exact (wrap_tail_ok P sub first f width _ cur [] l Hind Hcur Hrest IH Hl).
  - destruct (_ <? String.length c)%nat.
    + refine (wrap_tail_ok P sub first f width _ _ _ l Hind _ _ IH Hl).
      * intros x Hx. apply in_app_or in Hx as [Hx|[<-|[]]]; [exact (Hcur x Hx)|].
        apply chars_ok_substring. apply Hrest. left. reflexivity.
      * intros x [<-|Hx]; [|apply Hrest; right; exact Hx].
        apply chars_ok_substring. apply Hrest. left. reflexivity.
    + exact (wrap_tail_ok P sub first f width _ cur (c :: r) l Hind Hcur Hrest IH Hl).
Qed.

Lemma fill_ok P text width sub :
  (forall c, P (if TextWrap.is_tw c then " "%char else c) = true) ->
  P nl = true -> chars_ok P sub = true ->
  chars_ok P (TextWrap.fill text width sub) = true.
Proof.
  intros Hm Hn Hs. unfold TextWrap.fill. cbv zeta. apply chars_ok_concat.
  - cbn. rewrite Hn. reflexivity.
  - apply (wrap_chunks_ok P _ _ _ _ _ Hs). apply chunks_ok.
    unfold TextWrap.munge. apply chars_ok_map_chars_all. exact Hm.
Qed.

Lemma format_help_ok P h b :
  (forall c, P (if TextWrap.is_tw c then " "%char else c) = true) ->
  P nl = true -> P tab = true -> P "#"%char = true -> P " "%char = true ->
  (forall c, P c = true -> P (PyStr.upper_char c) = true) ->
  chars_ok P (format_help h b) = true.
Proof.
  intros Hm Hn Ht Hh Hsp Hu. unfold format_help. cbv zeta.
  match goal with |- context [substring 0 (String.length ?F - 1) ?F] =>
    set (body := substring 0 (String.length F - 1) F);
    assert (HF : chars_ok P F = true) end.
  { apply chars_ok_concat; [reflexivity|]. intros x Hx. apply in_map_iff in Hx as (hlp & <- & _).
    rewrite chars_ok_app. apply andb_true_iff. split.
    - apply fill_ok; [exact Hm|exact Hn|].
      destruct (PyStr.startswith _ hlp); cbn; rewrite ?Ht; reflexivity.
    - cbn. rewrite Hn. reflexivity. }
  assert (Hb : chars_ok P (String.append "# " (PyStr.replace_char nl (String nl "# ") body))
                = true).
  { rewrite chars_ok_app. apply andb_true_iff. split; [cbn; rewrite Hh, Hsp; reflexivity|].
    apply chars_ok_replace_char; [cbn; rewrite Hn, Hh, Hsp; reflexivity|].
    apply chars_ok_substring. exact HF. }
  destruct b.
  - apply chars_ok_map_chars; [exact Hu|exact Hb].
  - rewrite chars_ok_cons, Hn. exact Hb.
Qed.


Lemma no_cr_chars s : no_cr s = chars_ok not_cr s.
Proof.
  unfold no_cr. induction s as [|c r IH]; [reflexivity|].
  cbn [PyStr.contains]. rewrite chars_ok_cons, negb_orb, IH. reflexivity.
Qed.

Lemma format_help_no_cr h b : no_cr (format_help h b) = true.
Proof.
  rewrite no_cr_chars. apply format_help_ok; try reflexivity.
  - intros c. destruct (TextWrap.is_tw c) eqn:Ht; [reflexivity|]. unfold not_cr.
    destruct (Ascii.eqb c cr) eqn:E; [|reflexivity].
    apply Ascii.eqb_eq in E. subst c. vm_compute in Ht. discriminate.
  - intros c. destruct c as [[] [] [] [] [] [] [] []]; intros H; exact H.
Qed.

Lemma format_help_is_comment h b : is_comment_key (format_help h b) = true.
Proof.
  unfold format_help. cbv zeta.
  set (body := substring 0 _ _).
  assert (Hs : exists t ts, PyStr.split_on nl (String.append "# "
                 (PyStr.replace_char nl (String nl "# ") body)) =
               String.append "# " t :: map (String.append "# ") ts).
  { rewrite (split_on_app_plain "# " _ eq_refl), (split_on_replace "# " _ eq_refl).
    destruct (split_on_shape nl body) as (t & ts & ->). eauto. }
  destruct Hs as (t & ts & Hs).
  assert (Hall : forall l, In l (String.append "# " t :: map (String.append "# ") ts) ->
                   exists y, l = String.append "# " y).
  { intros l [<-|Hin]; [eauto|]. apply in_map_iff in Hin as (y & <- & _). eauto. }
  unfold is_comment_key. destruct b.
  - apply forallb_forall. intros l Hin.
    rewrite split_on_upper, Hs in Hin. apply in_map_iff in Hin as (l0 & <- & Hin).
    destruct (Hall l0 Hin) as [y ->].
    change (PyStr.upper (String.append "# " y)) with (String.append "# " (PyStr.upper y)).
    apply hash_line_comment.
  - cbn [PyStr.split_on]. rewrite Ascii.eqb_refl, Hs.
    apply forallb_forall. intros l [<-|Hin]; [reflexivity|].
    destruct (Hall l Hin) as [y ->]. apply hash_line_comment.
Qed.

Lemma startswith_one a c r : PyStr.startswith (String a EmptyString) (String c r) = Ascii.eqb c a.
Proof.
  unfold PyStr.startswith. cbn. destruct (ascii_dec a c) as [->|Hne].
  - rewrite Ascii.eqb_refl. destruct r; reflexivity.
  - destruct (Ascii.eqb c a) eqn:E; [|reflexivity].
    apply Ascii.eqb_eq in E. subst. contradiction.
Qed.

Lemma chars_ok_impl P Q s :
  (forall c, P c = true -> Q c = true) -> chars_ok P s = true -> chars_ok Q s = true.
Proof.
  intros HPQ. induction s as [|c r IH]; intros H; [reflexivity|].
  rewrite chars_ok_cons in *. apply andb_true_iff in H as [Hc Hr].
  rewrite (HPQ c Hc). exact (IH Hr).
Qed.

Lemma contains_chars ch s : PyStr.contains ch s = negb (chars_ok (fun x => negb (Ascii.eqb x ch)) s).
Proof.
  induction s as [|c r IH]; [reflexivity|].
  cbn [PyStr.contains]. rewrite chars_ok_cons, IH.
  destruct (Ascii.eqb c ch); reflexivity.
Qed.

Lemma plain_key_not_comment k :
  plain_key k = true -> comment_like k = false /\ is_comment_key k = false.
Proof.
  intros H. destruct k as [|c r]; [discriminate|].
  unfold plain_key in H. cbn [list_ascii_of_string] in H.
  apply andb_true_iff in H as [H Hall]. apply andb_true_iff in H as [H1 _].
  apply negb_true_iff in H1. apply orb_false_iff in H1 as [H1 _].
  apply orb_false_iff in H1 as [H1 Hsc]. apply orb_false_iff in H1 as [Hsp Hh].
  assert (Hnl : PyStr.contains nl (String c r) = false).
  { rewrite contains_chars. apply negb_false_iff.
    refine (chars_ok_impl (fun c => negb (Ascii.eqb c "=" || Ascii.eqb c ":" || Ascii.eqb c nl
           || Ascii.eqb c cr)) _ (String c r) _ Hall).
    intros x Hx. apply negb_true_iff in Hx. apply orb_false_iff in Hx as [Hx _].
    apply orb_false_iff in Hx as [_ Hx]. rewrite Hx. reflexivity. }
  assert (Hcn : Ascii.eqb c nl = false).
  { destruct (Ascii.eqb c nl) eqn:E; [|reflexivity].
    apply Ascii.eqb_eq in E. subst c. vm_compute in Hsp. discriminate. }
  split.
  - unfold comment_like. rewrite !startswith_one, Hh, Hcn. reflexivity.
  - unfold is_comment_key. rewrite (split_on_none _ Hnl). cbn [forallb].
    unfold PyStr.strip. cbn [PyStr.lstrip]. rewrite Hsp.
    destruct (rstrip_head c r Hsp) as [r' ->].
    change (String "#" EmptyString) with "#". change (String ";" EmptyString) with ";".
    rewrite !startswith_one, Hh, Hsc. reflexivity.
Qed.

Lemma plain_name_nonempty s : plain_name s = true -> String.eqb s "" = false.
Proof. unfold plain_name. intros H. apply andb_true_iff in H as [H _]. exact (proj1 (negb_true_iff _) H). Qed.

Lemma nodupb_NoDup l : nodupb l = true <-> NoDup l.
Proof.
  induction l as [|x r IH]; cbn [nodupb]; split; intros H.
  - constructor.
  - reflexivity.
  - apply andb_true_iff in H as [Hm Hr]. apply negb_true_iff in Hm.
    constructor; [|exact (proj1 IH Hr)].
    intros Hin. apply list_elem_of_In in Hin. exact (not_In_mem _ _ Hm Hin).
  - apply NoDup_cons in H as [Hx Hr]. rewrite (proj2 IH Hr), andb_true_r.
    apply negb_true_iff. destruct (mem x r) eqn:E; [|reflexivity].
    apply mem_In, list_elem_of_In in E. contradiction.
Qed.

Lemma plain_schema_In d s sec :
  plain_schema d = true -> In (s, sec) d ->
  plain_name s = true /\ NoDup (map fst (sec_items sec)) /\
  (forall k e, In (k, e) (sec_items sec) ->
     plain_key k = true /\ no_cr (py_str (o_default e)) = true).
Proof.
  unfold plain_schema. intros H Hin. rewrite forallb_forall in H.
  specialize (H _ Hin). cbv beta iota in H.
  apply andb_true_iff in H as [H Hk]. apply andb_true_iff in H as [Hn Hd].
  split; [exact Hn|]. split; [exact (proj1 (nodupb_NoDup _) Hd)|].
  intros k e Hke. rewrite forallb_forall in Hk. specialize (Hk _ Hke). cbv beta iota in Hk.
  apply andb_true_iff in Hk. exact Hk.
Qed.

Lemma plain_schema_no_empty d : plain_schema d = true -> ~ In "" (map fst d).
Proof.
  intros H Hin. apply in_map_iff in Hin as ([s sec] & Hs & Hin). cbn in Hs. subst s.
  destruct (plain_schema_In _ _ _ H Hin) as [Hn _]. discriminate Hn.
Qed.

Lemma plain_entries_assoc_set k v its :
  plain_entry (k, v) = true -> forallb plain_entry its = true ->
  forallb plain_entry (assoc_set k v its) = true.
Proof.
  intros Hkv. induction its as [|[k0 v0] r IH]; cbn [forallb assoc_set]; intros H.
  - rewrite Hkv. reflexivity.
  - apply andb_true_iff in H as [H0 Hr]. destruct (String.eqb k k0) eqn:E.
    + apply String.eqb_eq in E. subst k0. cbn [forallb]. rewrite Hkv, Hr. reflexivity.
    + cbn [forallb]. rewrite H0, (IH Hr). reflexivity.
Qed.

Lemma plain_cp_defaults c : plain_cp c -> forallb plain_entry (cp_defaults c) = true.
Proof.
  intros [_ Hp]. unfold cp_defaults.
  destruct (assoc_lookup "DEFAULT" c) as [d|] eqn:Hd; [|reflexivity].
  pose proof (Hp _ _ (assoc_lookup_In _ _ _ Hd)) as H. apply andb_true_iff in H. exact (proj2 H).
Qed.

Lemma plain_cp_set s k v c c' :
  plain_cp c -> plain_name s = true -> plain_entry (k, v) = true ->
  cp_set s k v c = Ok c' -> plain_cp c'.
Proof.
  intros Hp Hs Hkv H. split; [exact (wf_cp_set _ _ _ _ _ (proj1 Hp) H)|].
  unfold cp_set in H.
  destruct (match v with Some x => _ | None => _ end) as [[]|]; [|discriminate].
  destruct (String.eqb s "" || String.eqb s "DEFAULT").
  - injection H as <-. intros s' its' Hin. apply In_assoc_set in Hin as [Heq|Hin].
    + injection Heq as -> ->.
      rewrite (plain_entries_assoc_set _ _ _ Hkv (plain_cp_defaults _ Hp)). reflexivity.
    + exact (proj2 Hp _ _ Hin).
  - destruct (assoc_lookup s c) as [its|] eqn:Hl; [|discriminate]. injection H as <-.
    intros s' its' Hin. apply In_assoc_set in Hin as [Heq|Hin].
    + injection Heq as -> ->. rewrite Hs.
      pose proof (proj2 Hp _ _ (assoc_lookup_In _ _ _ Hl)) as Hi.
      apply andb_true_iff in Hi as [_ Hi]. exact (plain_entries_assoc_set _ _ _ Hkv Hi).
    + exact (proj2 Hp _ _ Hin).
Qed.

Lemma plain_cp_add s c c' :
  plain_cp c -> plain_name s = true -> cp_add_section s c = Ok c' -> plain_cp c'.
Proof.
  intros Hp Hs H. split; [exact (wf_cp_add _ _ _ (proj1 Hp) H)|].
  unfold cp_add_section in H.
  destruct (String.eqb s "DEFAULT"); [discriminate|].
  destruct (mem s (cp_sections c)); [discriminate|]. injection H as <-.
  intros s' its Hin. apply in_app_or in Hin as [Hin|[Heq|[]]].
  - exact (proj2 Hp _ _ Hin).
  - injection Heq as <- <-. rewrite Hs. reflexivity.
Qed.

Lemma plain_help_entry h b : plain_entry (format_help h b, None) = true.
Proof. cbn [plain_entry]. rewrite format_help_is_comment, format_help_no_cr. reflexivity. Qed.

Lemma plain_insert_config_section s h c c' :
  plain_cp c -> plain_name s = true -> insert_config_section s h c = Ok c' -> plain_cp c'.
Proof.
  unfold insert_config_section. intros Hp Hs H. red_bind H.
  destruct (cp_add_section s c) as [c1|] eqn:Ha; [|discriminate].
  exact (plain_cp_set _ _ _ _ _ (plain_cp_add _ _ _ Hp Hs Ha) Hs (plain_help_entry _ _) H).
Qed.

Lemma plain_insert_config_item s k v o c c' :
  plain_cp c -> plain_name s = true -> plain_key k = true -> no_cr (py_str v) = true ->
  insert_config_item s k v o c = Ok c' -> plain_cp c'.
Proof.
  unfold insert_config_item. intros Hp Hs Hk Hv H. red_bind H.
  destruct (cp_set s (format_help (o_helptext o) false) None c) as [c1|] eqn:H1;
    [|discriminate].
  refine (plain_cp_set _ _ _ _ _ (plain_cp_set _ _ _ _ _ Hp Hs (plain_help_entry _ _) H1) Hs _ H).
  cbn [plain_entry]. rewrite Hk, Hv, orb_true_r. reflexivity.
Qed.

Lemma plain_gen_fold val d c c' :
  plain_cp c ->
  (forall s sec, In (s, sec) d -> plain_name s = true /\
     forall k e v, In (k, e) (sec_items sec) -> val s k e = Ok v ->
       plain_key k = true /\ no_cr (py_str v) = true) ->
  gen_fold val d c = Ok c' -> plain_cp c'.
Proof.
  intros Hp Hd H. unfold gen_fold in H. revert H.
  apply (fold_result_inv plain_cp); [|exact Hp].
  intros [s sec] a a' Hin Ha Hx. red_bind Hx.
  destruct (Hd s sec Hin) as [Hs Hks].
  destruct (helptext_of (sec_helptext sec)) as [h|]; [|discriminate].
  destruct (insert_config_section s h a) as [a1|] eqn:Hi; [|discriminate].
  revert Hx. apply (fold_result_inv plain_cp);
    [|exact (plain_insert_config_section _ _ _ _ Ha Hs Hi)].
  intros [k e] b b' Hke Hb Hx. red_bind Hx. destruct (val s k e) as [v|] eqn:Hv; [|discriminate].
  destruct (Hks k e v Hke Hv) as [Hk Hc].
  exact (plain_insert_config_item _ _ _ _ _ _ Hb Hs Hk Hc Hx).
Qed.

Lemma plain_cp_file c : plain_cp c -> plain_file c = true.
Proof.
  intros [[Hn Hi] Hp]. unfold plain_file. rewrite (proj2 (nodupb_NoDup _) Hn). cbn [andb].
  apply forallb_forall. intros [s its] Hin.
  pose proof (Hp _ _ Hin) as H. apply andb_true_iff in H as [Hs He].
  rewrite Hs, He, (proj2 (nodupb_NoDup _) (Hi _ _ Hin)). reflexivity.
Qed.

(** Percent signs. *)

Lemma contains_pct s : PyStr.contains "%" s = negb (chars_ok not_pct s).
Proof. exact (contains_chars "%" s). Qed.

Lemma reread_chars_ok P v :
  P nl = true -> chars_ok P v = true -> chars_ok P (reread_value v) = true.
Proof.
  intros Hnl Hv. unfold reread_value.
  pose proof (chars_ok_split_on P nl v Hv) as Hs.
  destruct (PyStr.split_on nl v) as [|l0 ls]; [reflexivity|].
  apply chars_ok_rstrip, chars_ok_join.
  - cbn. rewrite Hnl. reflexivity.
  - intros x [<-|Hx]; [apply chars_ok_strip, Hs; left; reflexivity|].
    apply list_elem_of_In, list_elem_of_omap in Hx as (l & Hl & Hx).
    apply list_elem_of_In in Hl.
    destruct (String.eqb (PyStr.strip l) "");
      [injection Hx as <-; reflexivity|].
    destruct (PyStr.startswith "#" (PyStr.strip l) || PyStr.startswith ";" (PyStr.strip l));
      [discriminate|].
    injection Hx as <-. apply chars_ok_strip, Hs. right. exact Hl.
Qed.

Lemma str_of_Z_not_pct z : chars_ok not_pct (str_of_Z z) = true.
Proof.
  assert (Hd : forall n, chars_ok not_pct (string_of_digits (digits_of_N n)) = true).
  { intros n. unfold chars_ok. rewrite list_ascii_of_digits. apply forallb_forall.
    intros x Hx. apply in_map_iff in Hx as (d & <- & Hin).
    pose proof (proj1 (Forall_forall _ _) (proj1 (proj2 (digits_of_N_spec n))) d (proj2 (list_elem_of_In _ _) Hin)) as Hlt.
    do 10 (destruct d as [|d]; [reflexivity|]). lia. }
  destruct z as [|p|p]; [exact (Hd 0%N)|exact (Hd (Npos p))|].
  cbn [str_of_Z]. rewrite chars_ok_cons. exact (Hd (Npos p)).
Qed.

Lemma pct_free_reread v : PyStr.contains "%" v = false -> pct_free (Some (reread_value v)) = true.
Proof.
  rewrite !contains_pct. intros H. apply negb_false_iff in H. cbn [pct_free].
  rewrite contains_pct, (reread_chars_ok not_pct v eq_refl H). reflexivity.
Qed.

Lemma create_load_val st st1 s sec k e :
  st_config st = [] -> create_default st = Ok st1 -> plain_schema (st_defaults st) = true ->
  assoc_lookup s (st_defaults st) = Some sec -> assoc_lookup k (sec_items sec) = Some e ->
  (exists f, st_file st1 = Some f /\ plain_file f = true) /\
  cp_val s k (st_config (load_config st1)) = Some (Some (reread_value (py_str (o_default e)))).
Proof.
  intros H0 H Hp Hs Hk. rewrite create_default_gen in H. red_bind H.
  destruct (gen_fold (fun _ _ o => Ok (o_default o)) (st_defaults st) (st_config st))
    as [c1|] eqn:Hg; [|discriminate].
  injection H as <-. rewrite H0 in Hg.
  assert (Hpc : plain_cp c1).
  { refine (plain_gen_fold _ _ _ _ _ _ Hg).
    - split; [split; [constructor|intros ? ? []]|intros ? ? []].
    - intros s0 sec0 Hin. destruct (plain_schema_In _ _ _ Hp Hin) as (Hn & _ & Hke).
      split; [exact Hn|]. intros k0 e0 v Hin0 Hv. injection Hv as <-. exact (Hke _ _ Hin0). }
  split; [exists c1; split; [reflexivity|exact (plain_cp_file _ Hpc)]|].
  destruct (plain_schema_In _ _ _ Hp (assoc_lookup_In _ _ _ Hs)) as (_ & _ & Hke).
  destruct (plain_key_not_comment k (proj1 (Hke k e (assoc_lookup_In _ _ _ Hk)))) as [Hc Hck].
  assert (Hnd : forall s0 sec0, In (s0, sec0) (st_defaults st) -> NoDup (map fst (sec_items sec0))).
  { intros s0 sec0 Hin. exact (proj1 (proj2 (plain_schema_In _ _ _ Hp Hin))). }
  pose proof (gen_fold_val _ _ _ _ s k Hg Hnd (plain_schema_no_empty _ Hp) Hc) as Hv.
  rewrite Hs, Hk in Hv. cbv beta iota in Hv.
  cbn [load_config save_config with_config with_file st_file st_config].
  rewrite (read_into_val _ _ _ _ (wf_read_view _ (proj1 Hpc))), read_view_lookup.
  assert (Hd : String.eqb s "DEFAULT" = false).
  { apply (gen_fold_not_default _ _ _ _ _ Hg). apply in_map_iff.
    exists (s, sec). split; [reflexivity|exact (assoc_lookup_In _ _ _ Hs)]. }
  rewrite Hd.
  unfold cp_val in Hv. destruct (assoc_lookup s c1) as [its|]; [|discriminate].
  cbn [option_map]. rewrite view_lookup, Hck, Hv. reflexivity.
Qed.

(** C3 fails as stated: a list option whose default is the Python list
    [['a', 'c']] is written as the text ["['a', 'c']"], so after
    [create_default] and [load_config], [get] returns the items
    ["['a'"] and ["'c']"], not the default. *)
Lemma create_load_list_default :
  o_default (Sample.ent "model.b" "layers") = PList [PStr "a"; PStr "c"] /\
  create_default (Sample.fresh "model.b" None) = Ok Sample.created /\
  get Sample.defaults (st_config (load_config Sample.created)) "model.b" "layers" =
    Ok (VList ["['a'"; "'c']"]).
Proof. vm_compute. split; [reflexivity|]. split; reflexivity. Qed.

(** C3 (as amended).  For a schema with plain names and defaults whose
    text has no carriage return ([plain_schema]): after [create_default] on
    an empty parser the written parser is a [plain_file], and after
    [load_config] the stored value of a declared option is the text
    [str(default)] as [config.read] gives it back.  When that text has no
    "%", [get] returns its typed reading, not the default itself.  Boolean
    and integer defaults round-trip exactly, and so do text defaults that
    have no newline and no "%", no surrounding whitespace and are not
    "none" in any case. *)
Theorem default_round_trip st st1 s sec k e :
  st_config st = [] -> create_default st = Ok st1 -> plain_schema (st_defaults st) = true ->
  assoc_lookup s (st_defaults st) = Some sec -> assoc_lookup k (sec_items sec) = Some e ->
  let loaded := get (st_defaults st) (st_config (load_config st1)) s k in
  (exists f, st_file st1 = Some f /\ plain_file f = true) /\
  cp_val s k (st_config (load_config st1)) = Some (Some (reread_value (py_str (o_default e)))) /\
  (PyStr.contains "%" (py_str (o_default e)) = false ->
     loaded = typed_value (o_type e) (Some (reread_value (py_str (o_default e))))) /\
  (forall b, o_type e = TBool -> o_default e = PBool b -> loaded = Ok (VBool b)) /\
  (forall z, o_type e = TInt -> o_default e = PInt z -> loaded = Ok (VInt z)) /\
  (forall v, o_type e = TStr -> o_default e = PStr v ->
     PyStr.contains nl v = false -> PyStr.strip v = v -> PyStr.lower v <> "none" ->
     PyStr.contains "%" v = false -> loaded = Ok (VStr v)).
Proof.
  intros H0 H Hp Hs Hk loaded.
  destruct (create_load_val _ _ _ _ _ _ H0 H Hp Hs Hk) as [Hf Hv].
  assert (E : PyStr.contains "%" (py_str (o_default e)) = false ->
              loaded = typed_value (o_type e) (Some (reread_value (py_str (o_default e))))).
  { intros Hn. exact (get_typed _ _ _ _ _ _ _ Hs Hk Hv (pct_free_reread _ Hn)). }
  split; [exact Hf|]. split; [exact Hv|]. split; [exact E|]. split; [|split].
  - intros b Ht Hd. rewrite E, Ht, Hd; [destruct b; reflexivity|].
    rewrite Hd. destruct b; reflexivity.
  - intros z Ht Hd. rewrite E, Ht, Hd.
    + cbn [py_str].
      rewrite (reread_plain _ (contains_no_space _ (str_of_Z_no_space z))
                              (strip_no_space _ (str_of_Z_no_space z))).
      unfold typed_value. rewrite py_int_str_of_Z. reflexivity.
    + rewrite Hd. cbn [py_str]. rewrite contains_pct, str_of_Z_not_pct. reflexivity.
  - intros v Ht Hd Hn Hsv Hl Hpc. rewrite E, Ht, Hd.
    + cbn [py_str]. rewrite (reread_plain _ Hn Hsv). unfold typed_value. cbn [bind].
      apply String.eqb_neq in Hl. rewrite Hl. reflexivity.
    + rewrite Hd. exact Hpc.
Qed.

Lemma default_round_trip_witness :
  get Sample.defaults (st_config (load_config Sample.created)) "global" "size" = Ok (VInt 64) /\
  get Sample.defaults (st_config (load_config Sample.created)) "global" "flag" = Ok (VBool true).
Proof.
  assert (Hc : create_default (Sample.fresh "model.b" None) = Ok Sample.created)
    by (vm_compute; reflexivity).
  assert (Hp : plain_schema (st_defaults (Sample.fresh "model.b" None)) = true)
    by (vm_compute; reflexivity).
  split.
  - exact (proj1 (proj2 (proj2 (proj2 (proj2 (default_round_trip (Sample.fresh "model.b" None)
             Sample.created "global" (Sample.sec "global") "size" (Sample.ent "global" "size")
             eq_refl Hc Hp eq_refl eq_refl))))) 64%Z eq_refl eq_refl).
  - exact (proj1 (proj2 (proj2 (proj2 (default_round_trip (Sample.fresh "model.b" None)
             Sample.created "global" (Sample.sec "global") "flag" (Sample.ent "global" "flag")
             eq_refl Hc Hp eq_refl eq_refl)))) true eq_refl eq_refl).
Defined.

(* ================================================================== *)
(** * Further properties of the module *)

(** ** [get]'s errors *)

(** X1.  [get] looks the option up in the schema first: an undeclared
    section raises [KeyError], and so does an option that is neither
    declared nor named "helptext", whatever the parser holds.  The name
    "helptext" of a section whose help text is a string raises
    [TypeError] (the string is indexed by "type").  For a declared option,
    a parser without the section (other than "DEFAULT") raises
    [NoSectionError], and one where neither the section nor the defaults
    have the key raises [NoOptionError]. *)
Theorem get_errors d c s k :
  (assoc_lookup s d = None -> get d c s k = Err (KeyError s)) /\
  (forall sec, assoc_lookup s d = Some sec -> sec_lookup k sec = None ->
     get d c s k = Err (KeyError k)) /\
  (forall sec h, assoc_lookup s d = Some sec -> sec_lookup k sec = Some (HText h) ->
     get d c s k = Err TypeError) /\
  (forall sec e, assoc_lookup s d = Some sec -> sec_lookup k sec = Some (HItem e) ->
     String.eqb s "DEFAULT" = false -> assoc_lookup s c = None ->
     get d c s k = Err (NoSectionError s)) /\
  (forall sec e its, assoc_lookup s d = Some sec -> sec_lookup k sec = Some (HItem e) ->
     String.eqb s "DEFAULT" = false -> assoc_lookup s c = Some its ->
     assoc_lookup k its = None -> assoc_lookup k (cp_defaults c) = None ->
     get d c s k = Err (NoOptionError s k)).
Proof.
  unfold get. split; [intros Hs; rewrite Hs; reflexivity|]. split; [|split; [|split]].
  - intros sec Hs Hk. rewrite Hs. unfold bind at 1. cbv beta iota. rewrite Hk. reflexivity.
  - intros sec h Hs Hk. rewrite Hs. unfold bind at 1. cbv beta iota. rewrite Hk. reflexivity.
  - intros sec e Hs Hk Hd Hc. rewrite Hs. unfold bind at 1. cbv beta iota. rewrite Hk.
    unfold bind at 1. cbv beta iota.
    destruct (o_type e); unfold cp_getboolean, cp_getint, cp_getfloat, cp_get_value,
      parse_list, cp_get, cp_unify; rewrite Hd, Hc; reflexivity.
  - intros sec e its Hs Hk Hd Hc Hi Hdf. rewrite Hs. unfold bind at 1. cbv beta iota. rewrite Hk.
    unfold bind at 1. cbv beta iota.
    assert (Hl : assoc_lookup k (app its (cp_defaults c)) = None)
      by (rewrite assoc_lookup_app, Hi; exact Hdf).
    destruct (o_type e); unfold cp_getboolean, cp_getint, cp_getfloat, cp_get_value,
      parse_list, cp_get, cp_unify; rewrite Hd, Hc; unfold bind; cbv beta iota;
      rewrite Hl; reflexivity.
Qed.

(** ** Declaring sections and options *)

Lemma map_fst_assoc_set {A} k (v : A) l :
  map fst (assoc_set k v l) = if mem k (map fst l) then map fst l else app (map fst l) [k].
Proof.
  unfold mem. induction l as [|[k0 v0] r IH]; [reflexivity|].
  cbn [assoc_set map fst existsb]. destruct (String.eqb k k0) eqn:E.
  - apply String.eqb_eq in E. subst k0. reflexivity.
  - cbn [map fst orb]. rewrite IH. destruct (existsb (String.eqb k) (map fst r)); reflexivity.
Qed.

(** X2.  [add_section] with a title and a help text always succeeds and
    (re)declares the section with no options: other sections are
    untouched, a new title goes last, and redeclaring an existing title
    keeps its place but discards the options declared under it.  A
    missing title or help text raises [ValueError]. *)
Theorem add_section_declares d t i :
  (exists d', add_section d (Some t) (Some i) = Ok d' /\
     assoc_lookup t d' = Some {| sec_helptext := HText i; sec_items := [] |} /\
     (forall t', t' <> t -> assoc_lookup t' d' = assoc_lookup t' d) /\
     map fst d' = if mem t (map fst d) then map fst d else app (map fst d) [t]) /\
  (forall title info, title = None \/ info = None ->
     exists msg, add_section d title info = Err (ValueError msg)).
Proof.
  split.
  - eexists. split; [reflexivity|]. split; [|split].
    + rewrite assoc_lookup_set, String.eqb_refl. reflexivity.
    + intros t' Hne. rewrite assoc_lookup_set.
      apply String.eqb_neq in Hne. rewrite Hne. reflexivity.
    + apply map_fst_assoc_set.
  - intros title info [->| ->]; [|destruct title]; eexists; reflexivity.
Qed.

(** X3.  [add_item] with a section, a title and a help text succeeds
    exactly when the default is not [None], the section has been
    declared, the type is one of str, bool, int, float and list, a
    numeric option has both [rounding] and [min_max], and [choices] is
    absent, falsy or a list. *)
Theorem add_item_succeeds_iff d s t dt dflt i r mm ch g f grp :
  is_ok (add_item d (Some s) (Some t) dt dflt (Some i) r mm ch g f grp) = true <->
  dflt <> PNone /\ assoc_lookup s d <> None /\ (forall n, dt <> TOther n) /\
  ((dt = TInt \/ dt = TFloat) -> r <> None /\ mm <> None) /\
  ch <> ChoicesOther true.
Proof.
  unfold add_item.
  destruct (assoc_lookup s d) as [sec|] eqn:Hs;
    [|destruct dflt; cbn; split; [discriminate| |discriminate|intros (_ & H & _); congruence|
      discriminate|intros (_ & H & _); congruence|discriminate|intros (_ & H & _); congruence|
      discriminate|intros (_ & H & _); congruence|discriminate|intros (_ & H & _); congruence];
      intros (H & _); congruence].
  destruct dflt;
    [cbn; split; [discriminate|intros (H & _); congruence]| | | | |];
  (destruct dt as [| | | | |n];
     [| | | | |cbn; split; [discriminate|intros (_ & _ & H & _); exfalso; exact (H n eq_refl)]]);
  (destruct ch as [|[[|cx cl]|[|cx cl]]|[]]);
  (destruct r as [rr|], mm as [[mn mx]|]);
  cbn [choices_or_list seq_items isinstance_list andb negb orb pytype_eqb];
  (split; [intros H; cbn in H; try discriminate H; repeat split; try discriminate;
           try (intros [Hx|Hx]; discriminate Hx);
           try (match goal with Hx : _ \/ _ |- _ => destruct Hx as [Hx|Hx]; discriminate Hx end)
          |intros (Hd & _ & _ & Hn & Hc);
           try (exfalso; apply Hc; reflexivity);
           try (destruct (Hn (or_introl eq_refl)) as [Hr Hm]; exfalso; congruence);
           try (destruct (Hn (or_intror eq_refl)) as [Hr Hm]; exfalso; congruence);
           try reflexivity]).
Qed.

Lemma assoc_lookup_drop_helptext {A} k (l : list (string * A)) :
  assoc_lookup k (filter (fun '(k0, _) => negb (String.eqb k0 "helptext")) l) =
  if String.eqb k "helptext" then None else assoc_lookup k l.
Proof.
  induction l as [|[k0 v0] r IH]; [destruct (String.eqb k "helptext"); reflexivity|].
  rewrite filter_cons. case_decide as Hd.
  - cbn [assoc_lookup]. rewrite IH. destruct (String.eqb k k0) eqn:E; [|reflexivity].
    apply String.eqb_eq in E. subst k0.
    destruct (String.eqb k "helptext"); [destruct Hd|reflexivity].
  - cbn [assoc_lookup]. rewrite IH. destruct (String.eqb k k0) eqn:E; [|reflexivity].
    apply String.eqb_eq in E. subst k0.
    destruct (String.eqb k "helptext") eqn:Eh; [reflexivity|].
    exfalso. apply Hd. exact I.
Qed.

Lemma sec_lookup_store t it sec :
  let sec' := if String.eqb t "helptext"
              then {| sec_helptext := HItem it;
                      sec_items := filter (fun '(k, _) => negb (String.eqb k "helptext"))
                                          (sec_items sec) |}
              else {| sec_helptext := sec_helptext sec;
                      sec_items := assoc_set t it (sec_items sec) |} in
  forall t', sec_lookup t' sec' = if String.eqb t' t then Some (HItem it) else sec_lookup t' sec.
Proof.
  intros sec' t'. subst sec'. unfold sec_lookup.
  destruct (String.eqb t "helptext") eqn:Et; cbn [sec_items sec_helptext].
  - apply String.eqb_eq in Et. subst t.
    rewrite assoc_lookup_drop_helptext. destruct (String.eqb t' "helptext") eqn:E; [reflexivity|].
    reflexivity.
  - rewrite assoc_lookup_set. destruct (String.eqb t' t) eqn:E; [reflexivity|].
    reflexivity.
Qed.

(** X4.  A successful [add_item] stores, under the declared section, the
    option with the arguments as given, the expanded help text and the
    items of the choice list or tuple ([[]] when [choices] was absent or
    falsy): looking up any name in the section gives the new option for
    the title and what it gave before otherwise.  The title "helptext"
    thus replaces the section's help text.  The other sections, and the
    order of sections, are unchanged. *)
Theorem add_item_stores_option d d' s t dt dflt i r mm ch g f grp :
  add_item d (Some s) (Some t) dt dflt (Some i) r mm ch g f grp = Ok d' ->
  let cl := match choices_or_list ch with ChoicesSeq p => p | _ => PyListOf [] end in
  exists sec h sec',
    assoc_lookup s d = Some sec /\ expand_helptext i cl dflt dt mm f = Ok h /\
    assoc_lookup s d' = Some sec' /\
    (forall t', sec_lookup t' sec' =
       if String.eqb t' t
       then Some (HItem {| o_default := dflt; o_helptext := h; o_type := dt; o_rounding := r;
                           o_min_max := mm; o_choices := seq_items cl; o_gui_radio := g;
                           o_fixed := f; o_group := grp |})
       else sec_lookup t' sec) /\
    (forall s', s' <> s -> assoc_lookup s' d' = assoc_lookup s' d) /\
    map fst d' = map fst d.
Proof.
  intros H cl. unfold add_item in H. cbv iota in H.
  assert (Hd : dflt <> PNone) by (intros ->; discriminate H).
  assert (H' : match assoc_lookup s d with
               | None => Err (ValueError (String.append "Section does not exist: " s))
               | Some sec =>
      if match dt with TOther _ => true | _ => false end then
        Err (ValueError "'datatype' must be one of str, bool, float or int")
      else if (match dt with TFloat | TInt => true | _ => false end)
              && (match r, mm with Some _, Some _ => false | _, _ => true end) then
        Err (ValueError "'rounding' and 'min_max' must be set for numerical options")
      else if isinstance_list dt
              && (match choices_or_list ch with
                  | ChoicesSeq s => match seq_items s with [] => true | _ => false end
                  | _ => false end) then
        Err (ValueError "'choices' must be defined for list based configuration items")
      else
        match choices_or_list ch with
        | ChoicesSeq cl =>
            let* info := expand_helptext i cl dflt dt mm f in
            let it := {| o_default := dflt; o_helptext := info; o_type := dt;
                         o_rounding := r; o_min_max := mm; o_choices := seq_items cl;
                         o_gui_radio := g; o_fixed := f; o_group := grp |} in
            let sec := if String.eqb t "helptext"
                       then {| sec_helptext := HItem it;
                               sec_items := filter (fun '(k, _) => negb (String.eqb k "helptext"))
                                                   (sec_items sec) |}
                       else {| sec_helptext := sec_helptext sec;
                               sec_items := assoc_set t it (sec_items sec) |} in
            Ok (assoc_set s sec d)
        | _ => Err (ValueError "'choices' must be a list or tuple")
        end
               end = Ok d')
    by (destruct dflt; [contradiction|exact H..]).
  clear H. destruct (assoc_lookup s d) as [sec|] eqn:Hs; [|discriminate H'].
  destruct (match dt with TOther _ => true | _ => false end); [discriminate H'|].
  destruct (_ && _); [discriminate H'|].
  cbn [isinstance_list andb] in H'. subst cl.
  destruct (choices_or_list ch) as [|p|b]; [discriminate H'| |discriminate H'].
  destruct (expand_helptext i p dflt dt mm f) as [h|e] eqn:Eh; [|discriminate H'].
  cbn [bind] in H'. injection H' as <-.
  eexists sec, h, _. split; [reflexivity|]. split; [reflexivity|].
  split; [rewrite assoc_lookup_set, String.eqb_refl; reflexivity|]. split.
  - apply sec_lookup_store.
  - split.
    + intros s' Hne. rewrite assoc_lookup_set. apply String.eqb_neq in Hne. rewrite Hne.
      reflexivity.
    + rewrite map_fst_assoc_set, (lookup_some_mem _ _ _ Hs). reflexivity.
Qed.

Lemma add_item_stores_option_witness :
  exists d', add_item Sample.defaults (Some "model.b") (Some "depth") TInt (PInt 3)
               (Some "Depth") (Some (PInt 1)) (Some (PInt 1, PInt 9)) ChoicesNone false true None
             = Ok d' /\
  exists sec h sec',
    assoc_lookup "model.b" Sample.defaults = Some sec /\
    expand_helptext "Depth" (PyListOf []) (PInt 3) TInt (Some (PInt 1, PInt 9)) true = Ok h /\
    assoc_lookup "model.b" d' = Some sec' /\
    (forall t', sec_lookup t' sec' =
       if String.eqb t' "depth"
       then Some (HItem {| o_default := PInt 3; o_helptext := h; o_type := TInt;
                           o_rounding := Some (PInt 1); o_min_max := Some (PInt 1, PInt 9);
                           o_choices := []; o_gui_radio := false; o_fixed := true;
                           o_group := None |})
       else sec_lookup t' sec) /\
    (forall s', s' <> "model.b" -> assoc_lookup s' d' = assoc_lookup s' Sample.defaults) /\
    map fst d' = map fst Sample.defaults.
Proof.
  eexists. split; [vm_compute; reflexivity|].
  exact (add_item_stores_option Sample.defaults _ "model.b" "depth" TInt (PInt 3) "Depth"
           (Some (PInt 1)) (Some (PInt 1, PInt 9)) ChoicesNone false true None eq_refl).
Defined.

(** ** Help texts *)

(** X5.  [expand_helptext] keeps the given help text, followed by a
    newline, and ends with a line [[Default: str(default)]]; with a
    non-empty choice list or tuple the line before is [Choose from: ]
    followed by [str(choices)] (brackets for a list, parentheses for a
    tuple).  It
    fails (with [TypeError], from unpacking [min_max]) only for a numeric
    option with no choices and no [min_max]. *)
Theorem expand_helptext_shape h cl dflt dt mm f :
  match expand_helptext h cl dflt dt mm f with
  | Ok out =>
      exists mid,
        out = String.append h (String nl (String.append mid
                (String nl (String.append "[Default: " (String.append (py_str dflt) "]"))))) /\
        (seq_items cl <> [] -> exists mid0,
           mid = String.append mid0 (String nl (String.append "Choose from: " (str_of_pyseq cl))))
  | Err e => e = TypeError /\ seq_items cl = [] /\ mm = None /\ (dt = TInt \/ dt = TFloat)
  end.
Proof.
  unfold expand_helptext. cbv zeta.
  match goal with
  | |- context [if pytype_eqb dt TList then ?a else ?b] =>
      remember (if pytype_eqb dt TList then a else b) as h3 eqn:Eh3
  end.
  assert (E3 : exists m, h3 = String.append h (String nl m)).
  { subst h3. destruct f, (pytype_eqb dt TList); eexists; rewrite ?sapp_assoc; reflexivity. }
  clear Eh3. destruct E3 as [m3 ->].
  destruct (seq_items cl) as [|c0 cl0];
    [destruct dt as [| | | | |n]; try (destruct mm as [[mn mx]|])|]; cbn [bind];
    try (split; [reflexivity|split; [reflexivity|split; [reflexivity|auto]]]);
    (first
       [ match goal with
         | |- exists mid, String.append (String.append (String.append h (String nl m3)) ?C) _ = _ /\ _ =>
             exists (String.append m3 C)
         end
       | exists m3 ]);
    (split; [rewrite !sapp_assoc; reflexivity|]);
    intros Hc; [contradiction..|exists m3; reflexivity].
Qed.

(** X6.  Every line of a help text [format_help] produces is a comment
    line starting with "# " (for an option the text starts with an empty
    line), whatever the help text; so [config.read] never takes a help
    text for an option. *)
Theorem format_help_comment_lines h :
  (forall l, In l (PyStr.split_on nl (format_help h true)) ->
     PyStr.startswith "# " l = true) /\
  (exists ls, PyStr.split_on nl (format_help h false) = "" :: ls /\
     forall l, In l ls -> PyStr.startswith "# " l = true) /\
  is_comment_key (format_help h true) = true /\
  is_comment_key (format_help h false) = true.
Proof.
  unfold format_help. cbv zeta.
  set (body := substring 0 _ _).
  assert (Hs : exists t ts, PyStr.split_on nl (String.append "# "
                 (PyStr.replace_char nl (String nl "# ") body)) =
               String.append "# " t :: map (String.append "# ") ts).
  { rewrite (split_on_app_plain "# " _ eq_refl), (split_on_replace "# " _ eq_refl).
    destruct (split_on_shape nl body) as (t & ts & ->). eauto. }
  destruct Hs as (t & ts & Hs).
  assert (Hall : forall l, In l (String.append "# " t :: map (String.append "# ") ts) ->
                   exists y, l = String.append "# " y).
  { intros l [<-|Hin]; [eauto|]. apply in_map_iff in Hin as (y & <- & _). eauto. }
  assert (Hup : forall y, PyStr.upper (String.append "# " y) = String.append "# " (PyStr.upper y))
    by reflexivity.
  assert (Hsec : forall l, In l (PyStr.split_on nl (PyStr.upper (String.append "# "
                   (PyStr.replace_char nl (String nl "# ") body)))) ->
                 exists y, l = String.append "# " y).
  { intros l Hin. rewrite split_on_upper, Hs in Hin. apply in_map_iff in Hin as (l0 & <- & Hin).
    destruct (Hall l0 Hin) as [y ->]. rewrite Hup. eauto. }
  split; [|split; [|split]].
  - intros l Hin. destruct (Hsec l Hin) as [y ->]. apply startswith_hash_sp.
  - eexists. split; [cbn [PyStr.split_on]; rewrite Ascii.eqb_refl, Hs; reflexivity|].
    intros l Hin. destruct (Hall l Hin) as [y ->]. apply startswith_hash_sp.
  - unfold is_comment_key. apply forallb_forall. intros l Hin.
    destruct (Hsec l Hin) as [y ->]. apply hash_line_comment.
  - unfold is_comment_key. cbn [PyStr.split_on]. rewrite Ascii.eqb_refl, Hs.
    apply forallb_forall. intros l [<-|Hin]; [reflexivity|].
    destruct (Hall l Hin) as [y ->]. apply hash_line_comment.
Qed.

Lemma sapp_nil_l (b : string) : String.append "" b = b.
Proof. reflexivity. Qed.

Ltac snorm := repeat first [rewrite sapp_assoc | rewrite sapp_cons | rewrite sapp_nil_l].

Lemma slen_app (a b : string) : String.length (String.append a b) = String.length a + String.length b.
Proof. induction a as [|x r IH]; [reflexivity|]. rewrite sapp_cons. cbn. rewrite IH. reflexivity. Qed.

Lemma substring_app_prefix (a y : string) k :
  substring 0 (String.length a + k) (String.append a y) = String.append a (substring 0 k y).
Proof. induction a as [|x r IH]; [reflexivity|]. rewrite !sapp_cons. cbn. rewrite IH. reflexivity. Qed.

Lemma substring_app_skip (a y : string) k m :
  substring (String.length a + k) m (String.append a y) = substring k m y.
Proof. induction a as [|x r IH]; [reflexivity|]. rewrite sapp_cons. cbn. apply IH. Qed.

Lemma substring_all (y : string) : substring 0 (String.length y) y = y.
Proof. induction y as [|x r IH]; [reflexivity|]. cbn. rewrite IH. reflexivity. Qed.

Lemma rfind_none c f : PyStr.contains c f = false -> PosixPath.rfind c f = None.
Proof.
  induction f as [|x r IH]; [reflexivity|]. cbn [PyStr.contains PosixPath.rfind].
  intros [Hx Hr]%orb_false_iff. rewrite (IH Hr), Hx. reflexivity.
Qed.

Lemma rfind_snoc c p f :
  PyStr.contains c f = false ->
  PosixPath.rfind c (String.append p (String c f)) = Some (String.length p).
Proof.
  intros Hf. induction p as [|x r IH].
  - change (String.append "" (String c f)) with (String c f). cbn [PosixPath.rfind].
    rewrite (rfind_none c f Hf), Ascii.eqb_refl. reflexivity.
  - rewrite sapp_cons. cbn [PosixPath.rfind]. rewrite IH. reflexivity.
Qed.

Lemma rstrip_char_all_sep c s :
  forallb (fun x => Ascii.eqb x c) (list_ascii_of_string s) =
  match PosixPath.rstrip_char c s with EmptyString => true | _ => false end.
Proof.
  induction s as [|x r IH]; [reflexivity|]. cbn [PosixPath.rstrip_char list_ascii_of_string forallb].
  rewrite IH. destruct (PosixPath.rstrip_char c r); [|rewrite andb_false_r; reflexivity].
  rewrite andb_true_r. destruct (Ascii.eqb x c); reflexivity.
Qed.

Lemma rstrip_char_snoc c p :
  PosixPath.rstrip_char c (String.append p (String c "")) = PosixPath.rstrip_char c p.
Proof.
  induction p as [|x r IH].
  - change (String.append "" (String c "")) with (String c ""). cbn [PosixPath.rstrip_char].
    rewrite Ascii.eqb_refl. reflexivity.
  - rewrite sapp_cons. cbn [PosixPath.rstrip_char]. rewrite IH. reflexivity.
Qed.

Lemma rstrip_char_app c a y :
  PosixPath.rstrip_char c y <> "" ->
  PosixPath.rstrip_char c (String.append a y) = String.append a (PosixPath.rstrip_char c y).
Proof.
  intros Hy. induction a as [|x r IH]; [reflexivity|].
  rewrite !sapp_cons. cbn [PosixPath.rstrip_char]. rewrite IH.
  destruct r; [destruct (PosixPath.rstrip_char c y); [congruence|]|]; reflexivity.
Qed.

Lemma rstrip_char_cons c x r :
  PosixPath.rstrip_char c (String x r) =
  match PosixPath.rstrip_char c r with
  | EmptyString => if Ascii.eqb x c then EmptyString else String x EmptyString
  | r' => String x r'
  end.
Proof. reflexivity. Qed.

Lemma rstrip_char_plain c y :
  PyStr.contains c y = false -> y <> "" -> PosixPath.rstrip_char c y = y.
Proof.
  induction y as [|x r IH]; [congruence|]. cbn [PyStr.contains]. rewrite rstrip_char_cons.
  intros [Hx Hr]%orb_false_iff _. destruct r as [|x' r'].
  - cbn. rewrite Hx. reflexivity.
  - rewrite IH by (auto || discriminate). reflexivity.
Qed.

Lemma rstrip_char_noend c y :
  PosixPath.endswith_char c y = false -> y <> "" -> PosixPath.rstrip_char c y = y.
Proof.
  induction y as [|x r IH]; [congruence|]. intros He _. destruct r as [|x' r'].
  - cbn in *. rewrite He. reflexivity.
  - change (PosixPath.endswith_char c (String x' r') = false) in He.
    rewrite rstrip_char_cons, IH by (auto || discriminate). reflexivity.
Qed.

Lemma posix_snoc_head p f :
  PyStr.contains PosixPath.sep f = false ->
  PosixPath.after_sep (String.append p (String PosixPath.sep f)) = String.length p + 1 /\
  substring 0 (String.length p + 1) (String.append p (String PosixPath.sep f)) =
    String.append p (String PosixPath.sep "") /\
  substring (String.length p + 1)
    (String.length (String.append p (String PosixPath.sep f)) - (String.length p + 1))
    (String.append p (String PosixPath.sep f)) = f.
Proof.
  intros Hf. unfold PosixPath.after_sep. rewrite (rfind_snoc _ _ _ Hf).
  split; [lia|]. split.
  - rewrite substring_app_prefix. destruct f; reflexivity.
  - rewrite substring_app_skip, slen_app. cbn.
    replace (String.length p + S (String.length f) - (String.length p + 1)) with (String.length f) by lia.
    apply substring_all.
Qed.

Lemma strippable_snoc p :
  PosixPath.rstrip_char PosixPath.sep p <> "" ->
  PosixPath.strippable (String.append p (String PosixPath.sep "")) = true.
Proof.
  intros Hp. unfold PosixPath.strippable. rewrite rstrip_char_all_sep, rstrip_char_snoc.
  destruct (PosixPath.rstrip_char PosixPath.sep p) eqn:E; [congruence|].
  destruct p; reflexivity.
Qed.

Lemma dirname_snoc p f :
  PyStr.contains PosixPath.sep f = false ->
  PosixPath.rstrip_char PosixPath.sep p <> "" ->
  PosixPath.dirname (String.append p (String PosixPath.sep f)) = PosixPath.rstrip_char PosixPath.sep p /\
  PosixPath.split (String.append p (String PosixPath.sep f)) = (PosixPath.rstrip_char PosixPath.sep p, f).
Proof.
  intros Hf Hp. destruct (posix_snoc_head p f Hf) as (E1 & E2 & E3).
  unfold PosixPath.dirname, PosixPath.split. cbv zeta. rewrite E1, E2, E3, (strippable_snoc p Hp), rstrip_char_snoc.
  split; reflexivity.
Qed.

Lemma endswith_char_app c a y :
  y <> "" -> PosixPath.endswith_char c (String.append a y) = PosixPath.endswith_char c y.
Proof.
  intros Hy. induction a as [|x r IH]; [reflexivity|]. rewrite sapp_cons.
  destruct r as [|x' r'].
  - destruct y; [congruence|reflexivity].
  - rewrite sapp_cons in *. exact IH.
Qed.

Lemma join_config_ini base n :
  PyStr.contains "/" n = false -> n <> "" -> base <> "" ->
  PosixPath.join base ["config"; String.append n ".ini"] =
    String.append (if PosixPath.endswith_char "/" base then String.append base "config"
                   else String.append base "/config")
      (String.append "/" (String.append n ".ini")).
Proof.
  intros Hn Hn0 Hb. unfold PosixPath.join. cbn [fold_left].
  assert (Hs : PyStr.startswith (String PosixPath.sep "") (String.append n ".ini") = false).
  { destruct n as [|d r]; [congruence|]. cbn [PyStr.contains] in Hn.
    apply orb_false_iff in Hn as [Hd _]. rewrite sapp_cons. unfold PyStr.startswith.
    cbn [String.prefix]. destruct (ascii_dec PosixPath.sep d) as [<-|]; [discriminate|reflexivity]. }
  change (PyStr.startswith (String PosixPath.sep "") "config") with false. cbv iota.
  destruct base as [|c r]; [congruence|].
  change (String.eqb (String c r) "") with false.
  change (PosixPath.endswith_char "/" (String c r)) with (PosixPath.endswith_char PosixPath.sep (String c r)).
  destruct (PosixPath.endswith_char PosixPath.sep (String c r)); cbn [orb]; rewrite Hs.
  - rewrite (endswith_char_app _ _ "config") by discriminate.
    change (PosixPath.endswith_char PosixPath.sep "config") with false.
    rewrite sapp_cons. change (String.eqb (String c (String.append r "config")) "") with false.
    reflexivity.
  - rewrite (endswith_char_app _ _ (String PosixPath.sep "config")) by discriminate.
    change (PosixPath.endswith_char PosixPath.sep (String PosixPath.sep "config")) with false.
    rewrite sapp_cons. change (String.eqb (String c (String.append r (String PosixPath.sep "config"))) "") with false.
    reflexivity.
Qed.

(** X7.  Without a given config file, the file is [config/<name>.ini]
    in the grandparent folder of the folder that holds the module's
    source, [<name>] being that folder's name: a module at
    [root/a/name/file] (no slash inside [a], [name] or [file], [a] and
    [name] nonempty, [root] not ending with a slash) gets
    [root/config/name.ini]; whether such a file exists is not checked. *)
Theorem get_config_file_default_path isfile root a n f :
  PosixPath.endswith_char "/" root = false ->
  a <> "" -> n <> "" ->
  PyStr.contains "/" a = false -> PyStr.contains "/" n = false ->
  PyStr.contains "/" f = false ->
  get_config_file isfile (root ++ "/" ++ a ++ "/" ++ n ++ "/" ++ f) None =
    Ok (root ++ "/config/" ++ n ++ ".ini").
Proof.
  intros Hr Ha Hn Ha' Hn' Hf. unfold get_config_file.
  change (PyStr.contains "/" a = false) with (PyStr.contains PosixPath.sep a = false) in Ha'.
  set (P := String.append root (String.append "/" (String.append a (String.append "/" n)))).
  assert (EM : String.append root (String.append "/" (String.append a (String.append "/" (String.append n (String.append "/" f))))) =
               String.append P (String PosixPath.sep f)).
  { subst P. snorm. reflexivity. }
  assert (EP : PosixPath.rstrip_char PosixPath.sep P = P).
  { replace P with (String.append (String.append root (String "/" (String.append a "/"))) n)
      by (subst P; snorm; reflexivity).
    rewrite rstrip_char_app; rewrite (rstrip_char_plain PosixPath.sep n Hn' Hn); [reflexivity|exact Hn]. }
  assert (HP : PosixPath.rstrip_char PosixPath.sep P <> "").
  { rewrite EP. subst P. destruct root; discriminate. }
  rewrite EM. destruct (dirname_snoc P f Hf HP) as [-> _]. rewrite EP.
  assert (EP2 : P = String.append (String.append root (String PosixPath.sep a)) (String PosixPath.sep n)).
  { subst P. snorm. reflexivity. }
  assert (EA : PosixPath.rstrip_char PosixPath.sep (String.append root (String PosixPath.sep a)) =
               String.append root (String PosixPath.sep a)).
  { replace (String.append root (String PosixPath.sep a)) with
      (String.append (String.append root (String PosixPath.sep "")) a) by (snorm; reflexivity).
    rewrite rstrip_char_app; rewrite (rstrip_char_plain PosixPath.sep a Ha' Ha); [reflexivity|exact Ha]. }
  rewrite EP2. destruct (dirname_snoc (String.append root (String PosixPath.sep a)) n Hn')
    as [_ ->]; [rewrite EA; destruct root; discriminate|].
  rewrite EA. cbv iota beta.
  destruct (String.eqb root "") eqn:E0.
  - apply String.eqb_eq in E0. subst root.
    destruct (posix_snoc_head "" a Ha') as (E1 & E2 & _).
    unfold PosixPath.dirname. cbv zeta. rewrite E1, E2.
    change (PosixPath.strippable (String.append "" (String PosixPath.sep ""))) with false. cbv iota.
    rewrite join_config_ini by (auto || discriminate). reflexivity.
  - apply String.eqb_neq in E0.
    destruct (dirname_snoc root a Ha') as [-> _]; [rewrite rstrip_char_noend by auto; exact E0|].
    rewrite rstrip_char_noend by auto. rewrite join_config_ini by auto. rewrite Hr.
    snorm. reflexivity.
Qed.

Lemma get_config_file_default_path_witness :
  get_config_file (fun _ => false) "/home/u/faceswap/plugins/train/_config.py" None =
    Ok "/home/u/faceswap/config/train.ini".
Proof.
  exact (get_config_file_default_path (fun _ => false) "/home/u/faceswap" "plugins" "train" "_config.py"
           eq_refl ltac:(discriminate) ltac:(discriminate) eq_refl eq_refl eq_refl).
Defined.

Lemma rfind_app c x y :
  PosixPath.rfind c (String.append x y) =
    match PosixPath.rfind c y with
    | Some j => Some (String.length x + j)
    | None => PosixPath.rfind c x
    end.
Proof.
  induction x as [|a r IH].
  - rewrite sapp_nil_l. destruct (PosixPath.rfind c y); reflexivity.
  - rewrite sapp_cons. cbn [PosixPath.rfind]. rewrite IH.
    destruct (PosixPath.rfind c y); [reflexivity|]. reflexivity.
Qed.

Lemma rfind_lt c x j : PosixPath.rfind c x = Some j -> j < String.length x.
Proof.
  revert j. induction x as [|a r IH]; intros j; cbn [PosixPath.rfind]; [discriminate|].
  destruct (PosixPath.rfind c r) as [j'|] eqn:E.
  - intros [= <-]. specialize (IH j' eq_refl). cbn. lia.
  - destruct (Ascii.eqb a c); intros H; inversion H; cbn; lia.
Qed.

Lemma substring_app_span m y st k :
  st <= String.length m ->
  substring st (String.length m - st + k) (String.append m y) =
    String.append (substring st (String.length m - st) m) (substring 0 k y).
Proof.
  revert st. induction m as [|a r IH]; intros st Hst.
  - cbn in Hst. replace st with 0 by lia. reflexivity.
  - destruct st as [|st].
    + cbn [String.length]. replace (S (String.length r) - 0 + k) with (S (String.length r + k)) by lia.
      replace (S (String.length r) - 0) with (S (String.length r)) by lia.
      rewrite sapp_cons. cbn [substring]. rewrite sapp_cons. f_equal.
      pose proof (IH 0 ltac:(lia)) as E. rewrite !Nat.sub_0_r in E. exact E.
    + cbn [String.length] in *. rewrite sapp_cons. cbn [substring]. apply IH. lia.
Qed.

Lemma list_ascii_app (a b : string) :
  list_ascii_of_string (String.append a b) = app (list_ascii_of_string a) (list_ascii_of_string b).
Proof. induction a as [|x r IH]; [reflexivity|]. rewrite sapp_cons. cbn. rewrite IH. reflexivity. Qed.

Lemma splitext_defaults_py m :
  PosixPath.splitext (String.append m "_defaults.py") = (String.append m "_defaults", ".py").
Proof.
  unfold PosixPath.splitext.
  rewrite !rfind_app. change (PosixPath.rfind "." "_defaults.py") with (Some 9).
  change (PosixPath.rfind PosixPath.sep "_defaults.py") with (@None nat). cbv iota.
  assert (Hsep : (match PosixPath.rfind PosixPath.sep m with Some j => Z.of_nat j | None => (-1)%Z end
                  <? Z.of_nat (String.length m + 9))%Z = true).
  { destruct (PosixPath.rfind PosixPath.sep m) as [j|] eqn:E; apply Z.ltb_lt; [|lia].
    apply rfind_lt in E. lia. }
  rewrite Hsep. cbv zeta.
  set (st := Z.to_nat _).
  assert (Hst : st <= String.length m).
  { subst st. destruct (PosixPath.rfind PosixPath.sep m) as [j|] eqn:E; [|cbn; lia].
    apply rfind_lt in E. lia. }
  rewrite Nat2Z.id.
  replace (String.length m + 9 - st) with (String.length m - st + 9) by lia.
  rewrite substring_app_span, list_ascii_app, existsb_app by exact Hst.
  change (existsb (fun c => negb (Ascii.eqb c "."))
            (list_ascii_of_string (substring 0 9 "_defaults.py"))) with true.
  rewrite orb_true_r. f_equal.
  - rewrite substring_app_prefix. reflexivity.
  - rewrite substring_app_skip, slen_app. cbn [String.length].
    replace (String.length m + 12 - (String.length m + 9)) with 3 by lia. reflexivity.
Qed.

Lemma prefix_before_underscore p r z :
  PyStr.contains "_" p = false ->
  String.prefix p (String.append r (String "_" z)) = true -> exists b, r = String.append p b.
Proof.
  revert r. induction p as [|x p' IH]; intros r Hp Hpre; [exists r; reflexivity|].
  cbn [PyStr.contains] in Hp. apply orb_false_iff in Hp as [Hx Hp'].
  destruct r as [|y r'].
  - rewrite sapp_nil_l in Hpre.
    change (String.prefix (String x p') (String "_" z)) with
      (if ascii_dec x "_" then String.prefix p' z else false) in Hpre.
    destruct (ascii_dec x "_") as [->|]; [rewrite Ascii.eqb_refl in Hx; discriminate Hx|discriminate Hpre].
  - rewrite sapp_cons in Hpre.
    change (String.prefix (String x p') (String y (String.append r' (String "_" z)))) with
      (if ascii_dec x y then String.prefix p' (String.append r' (String "_" z)) else false) in Hpre.
    destruct (ascii_dec x y) as [->|]; [|discriminate Hpre].
    destruct (IH r' Hp' Hpre) as [b ->]. exists b. reflexivity.
Qed.

Lemma replace_aux_S_cons f old new c r :
  replace_aux (S f) old new (String c r) =
    if String.prefix old (String c r)
    then String.append new
           (replace_aux f old new
              (substring (String.length old) (String.length (String c r) - String.length old) (String c r)))
    else String c (replace_aux f old new r).
Proof. reflexivity. Qed.

Lemma replace_defaults_suffix fuel m :
  (forall a b, m <> a ++ "_defaults" ++ b) -> String.length m < fuel ->
  replace_aux fuel "_defaults" "" (String.append m "_defaults") = m.
Proof.
  revert fuel. induction m as [|c r IH]; intros fuel Hm Hf; (destruct fuel as [|f]; [cbn in Hf; lia|]).
  - destruct f; reflexivity.
  - rewrite sapp_cons, replace_aux_S_cons.
    destruct (String.prefix "_defaults" (String c (String.append r "_defaults"))) eqn:Ep.
    + exfalso.
      change (String.prefix "_defaults" (String c (String.append r "_defaults"))) with
        (if ascii_dec "_" c then String.prefix "defaults" (String.append r (String "_" "defaults")) else false) in Ep.
      destruct (ascii_dec "_" c) as [<-|]; [|discriminate Ep].
      destruct (prefix_before_underscore "defaults" _ _ eq_refl Ep) as [b ->].
      exact (Hm "" b eq_refl).
    + f_equal. apply IH; [|cbn in Hf; lia].
      intros a b E. apply (Hm (String c a) b). rewrite E. reflexivity.
Qed.

Lemma defaults_section_name m :
  (forall a b, m <> a ++ "_defaults" ++ b) ->
  replace_str "_defaults" "" (fst (PosixPath.splitext (String.append m "_defaults.py"))) = m.
Proof.
  intros Hm. rewrite splitext_defaults_py. cbn [fst]. unfold replace_str.
  change (String.eqb "_defaults" "") with false. cbv iota.
  apply replace_defaults_suffix; [exact Hm|]. rewrite slen_app. cbn. lia.
Qed.

Lemma add_item_ok_shape d d' s t dt dflt i r mm ch g f grp :
  String.eqb t "helptext" = false ->
  add_item d (Some s) (Some t) dt dflt i r mm ch g f grp = Ok d' ->
  exists sec it, assoc_lookup s d = Some sec /\
    d' = assoc_set s {| sec_helptext := sec_helptext sec;
                        sec_items := assoc_set t it (sec_items sec) |} d.
Proof.
  intros Et H. unfold add_item in H. destruct i as [i|]; [|destruct dflt; discriminate H].
  cbv iota in H.
  destruct dflt; [discriminate H| | | | |];
  (destruct (assoc_lookup s d) as [sec|] eqn:Hs; [|discriminate H]);
  (destruct (match dt with TOther _ => true | _ => false end); [discriminate H|]);
  (destruct (_ && _); [discriminate H|]);
  cbn [isinstance_list andb] in H;
  (destruct (choices_or_list ch) as [|p|cb]; [discriminate H| |discriminate H]);
  (match type of H with
   | context [expand_helptext ?i0 ?cl0 ?d0 ?dt0 ?mm0 ?f0] =>
       destruct (expand_helptext i0 cl0 d0 dt0 mm0 f0) as [h|e] eqn:Eh; [|discriminate H]
   end);
  cbn [bind] in H; rewrite Et in H; injection H as <-; eexists sec, _; split; reflexivity.
Qed.
Lemma fold_add_items S L dd d' sec0 :
  fold_result (fun defaults '(key, val) =>
      add_item defaults (Some S) (Some key) (kw_datatype val) (kw_default val)
        (kw_info val) (kw_rounding val) (kw_min_max val) (kw_choices val)
        (kw_gui_radio val) (kw_fixed val) (kw_group val)) L dd = Ok d' ->
  ~ In "helptext" (map fst L) -> assoc_lookup S dd = Some sec0 ->
  exists sec', assoc_lookup S d' = Some sec' /\ sec_helptext sec' = sec_helptext sec0 /\
    map fst (sec_items sec') = keys_in_order (map fst L) (map fst (sec_items sec0)) /\
    (forall s', s' <> S -> assoc_lookup s' d' = assoc_lookup s' dd).
Proof.
  revert dd sec0. induction L as [|[k v] L IH]; intros dd sec0 H Hnh Hs.
  - injection H as <-. exists sec0. repeat split; auto.
  - cbn [fold_result] in H. red_bind H.
    match type of H with
    | context [add_item ?a1 ?a2 ?a3 ?a4 ?a5 ?a6 ?a7 ?a8 ?a9 ?a10 ?a11 ?a12] =>
        destruct (add_item a1 a2 a3 a4 a5 a6 a7 a8 a9 a10 a11 a12) as [d1|e] eqn:E1; [|discriminate H]
    end.
    assert (Ek : String.eqb k "helptext" = false).
    { apply String.eqb_neq. intros ->. apply Hnh. left. reflexivity. }
    destruct (add_item_ok_shape _ _ _ _ _ _ _ _ _ _ _ _ _ Ek E1) as (sec & it & Hs' & ->).
    rewrite Hs in Hs'. injection Hs' as <-.
    destruct (IH _ {| sec_helptext := sec_helptext sec0;
                      sec_items := assoc_set k it (sec_items sec0) |} H)
      as (sec' & Hl & Hh & Hk & Ho).
    { intros Hin. apply Hnh. right. exact Hin. }
    { rewrite assoc_lookup_set, String.eqb_refl. reflexivity. }
    exists sec'. split; [exact Hl|]. split; [exact Hh|]. split.
    + rewrite Hk. cbn [sec_items map fst]. unfold keys_in_order. cbn [fold_left].
      rewrite map_fst_assoc_set. reflexivity.
    + intros s' Hne. rewrite Ho by exact Hne. rewrite assoc_lookup_set.
      apply String.eqb_neq in Hne. rewrite Hne. reflexivity.
Qed.

Lemma keys_in_order_nodup l acc :
  NoDup l -> (forall k, In k l -> mem k acc = false) -> keys_in_order l acc = app acc l.
Proof.
  revert acc. induction l as [|k l IH]; intros acc Hnd Hm; [unfold keys_in_order; cbn; rewrite app_nil_r; reflexivity|].
  inversion Hnd as [|? ? Hn Hnd']; subst.
  unfold keys_in_order. cbn [fold_left]. rewrite (Hm k (or_introl eq_refl)).
  fold (keys_in_order l (app acc [k])). rewrite IH; [rewrite <- app_assoc; reflexivity|exact Hnd'|].
  intros k' Hin. unfold mem. rewrite existsb_app. cbn [existsb]. apply orb_false_iff. split.
  - apply (Hm k' (or_intror Hin)).
  - rewrite orb_false_r. apply String.eqb_neq. intros ->. apply Hn. apply list_elem_of_In. exact Hin.
Qed.

(** X8.  Loading the defaults module [<m>_defaults.py] for plugin type
    [pt] declares the section [pt.m] (the module name without
    "_defaults", when [m] itself has no "_defaults" in it): on success the
    section has the module's [_HELPTEXT] as its help text and exactly the
    options of its [_DEFAULTS], in order, when no key of [_DEFAULTS] is
    "helptext"; an earlier section of that name is replaced, and the other
    sections are unchanged. *)
Theorem load_defaults_from_module_section d m pt mod_ d' :
  (forall a b, m <> a ++ "_defaults" ++ b) ->
  NoDup (map fst (mod_defaults mod_)) -> ~ In "helptext" (map fst (mod_defaults mod_)) ->
  load_defaults_from_module d (m ++ "_defaults.py") pt mod_ = Ok d' ->
  exists sec, assoc_lookup (pt ++ "." ++ m) d' = Some sec /\
    (exists h, mod_helptext mod_ = Some h /\ sec_helptext sec = HText h) /\
    map fst (sec_items sec) = map fst (mod_defaults mod_) /\
    (forall s', s' <> pt ++ "." ++ m -> assoc_lookup s' d' = assoc_lookup s' d).
Proof.
  intros Hm Hnd Hnh H. unfold load_defaults_from_module in H. cbv zeta in H.
  rewrite (defaults_section_name m Hm) in H.
  change (String.append "." m) with (String "." m).
  set (S := String.append pt (String "." m)) in *.
  destruct (mod_helptext mod_) as [i|] eqn:Ei; [|discriminate H].
  unfold add_section in H. red_bind H.
  destruct (fold_add_items S _ _ _ {| sec_helptext := HText i; sec_items := [] |} H Hnh)
    as (sec' & Hl & Hh & Hk & Ho).
  { rewrite assoc_lookup_set, String.eqb_refl. reflexivity. }
  exists sec'. split; [exact Hl|]. split; [exists i; split; [reflexivity|exact Hh]|]. split.
  - rewrite Hk. cbn [sec_items map]. rewrite keys_in_order_nodup; [reflexivity|exact Hnd|].
    intros k _. reflexivity.
  - intros s' Hne. rewrite Ho by exact Hne. rewrite assoc_lookup_set.
    apply String.eqb_neq in Hne. rewrite Hne. reflexivity.
Qed.


Lemma load_defaults_from_module_section_witness :
  let mod_ := {| mod_helptext := Some "Original Faceswap Model.";
                 mod_defaults := [("lowmem", {| kw_datatype := TBool; kw_default := PBool false;
                                      kw_info := Some "Lower memory mode."; kw_rounding := None;
                                      kw_min_max := None; kw_choices := ChoicesNone;
                                      kw_gui_radio := false; kw_fixed := false; kw_group := None |})] |} in
  exists d', load_defaults_from_module [] ("original" ++ "_defaults.py") "train.model" mod_ = Ok d' /\
  exists sec, assoc_lookup ("train.model" ++ "." ++ "original") d' = Some sec /\
    (exists h, mod_helptext mod_ = Some h /\ sec_helptext sec = HText h) /\
    map fst (sec_items sec) = map fst (mod_defaults mod_) /\
    (forall s', s' <> "train.model" ++ "." ++ "original" -> assoc_lookup s' d' = assoc_lookup s' []).
Proof.
  intros mod_.
  assert (E : exists d', load_defaults_from_module [] ("original" ++ "_defaults.py") "train.model" mod_ = Ok d')
    by (eexists; vm_compute; reflexivity).
  destruct E as [d' E]. exists d'. split; [exact E|].
  apply (load_defaults_from_module_section [] "original" "train.model" mod_ d'); [| | |exact E].
  - intros a b Ex. apply (f_equal String.length) in Ex. rewrite !slen_app in Ex. cbn in Ex. lia.
  - cbn. apply NoDup_singleton.
  - cbn. intros [H|[]]. discriminate H.
Defined.

Section ChangeableItems.
Variables (d : schema) (c : configparser) (sect : string).

Let step (retval : gmap string value) (kv : string * entry) : result (gmap string value) :=
  let '(key, val) := kv in
  if o_fixed val then Ok retval
  else let* v := get d c sect key in Ok (<[key := v]> retval).

Lemma changeable_step_keeps L r m k v :
  fold_result step L r = Ok m -> r !! k = Some v -> get d c sect k = Ok v -> m !! k = Some v.
Proof.
  revert r. induction L as [|[k0 e0] L IH]; intros r H Hr Hg; cbn [fold_result] in H.
  - injection H as <-. exact Hr.
  - unfold step at 1 in H. destruct (o_fixed e0); cbn [bind] in H; [exact (IH _ H Hr Hg)|].
    destruct (get d c sect k0) as [v0|e] eqn:E0; cbn [bind] in H; [|discriminate H].
    apply (IH _ H); [|exact Hg].
    destruct (String.eq_dec k0 k) as [->|Hne].
    + rewrite lookup_insert. rewrite Hg in E0. injection E0 as ->. rewrite decide_True by reflexivity. reflexivity.
    + rewrite lookup_insert_ne by exact Hne. exact Hr.
Qed.

Lemma changeable_step_complete L r m :
  fold_result step L r = Ok m ->
  forall k val, In (k, val) L -> o_fixed val = false ->
    exists v, get d c sect k = Ok v /\ m !! k = Some v.
Proof.
  revert r. induction L as [|[k0 e0] L IH]; intros r H k val Hin Hf; [destruct Hin|].
  cbn [fold_result] in H. destruct Hin as [[= <- <-]|Hin].
  - unfold step at 1 in H. rewrite Hf in H. cbn [bind] in H.
    destruct (get d c sect k0) as [v0|e] eqn:E0; cbn [bind] in H; [|discriminate H].
    exists v0. split; [reflexivity|]. apply (changeable_step_keeps _ _ _ _ _ H); [|exact E0].
    rewrite lookup_insert. rewrite decide_True by reflexivity. reflexivity.
  - unfold bind in H. destruct (step r (k0, e0)) as [r1|e]; [|discriminate H].
    exact (IH _ H k val Hin Hf).
Qed.

Lemma changeable_step_sound L r m :
  fold_result step L r = Ok m ->
  forall k v, m !! k = Some v ->
    r !! k = Some v \/ exists val, In (k, val) L /\ o_fixed val = false /\ get d c sect k = Ok v.
Proof.
  revert r. induction L as [|[k0 e0] L IH]; intros r H k v Hm; cbn [fold_result] in H.
  - injection H as <-. left. exact Hm.
  - unfold step at 1 in H. destruct (o_fixed e0) eqn:Ef; cbn [bind] in H.
    + destruct (IH _ H k v Hm) as [Hr|(val & Hin & Hv)]; [left; exact Hr|right; exists val; split; [right; exact Hin|exact Hv]].
    + destruct (get d c sect k0) as [v0|e] eqn:E0; cbn [bind] in H; [|discriminate H].
      destruct (IH _ H k v Hm) as [Hr|(val & Hin & Hv)].
      * destruct (String.eq_dec k0 k) as [->|Hne].
        -- rewrite lookup_insert, decide_True in Hr by reflexivity. injection Hr as ->.
           right. exists e0. split; [left; reflexivity|]. split; [exact Ef|exact E0].
        -- rewrite lookup_insert_ne in Hr by exact Hne. left. exact Hr.
      * right. exists val. split; [right; exact Hin|exact Hv].
Qed.

End ChangeableItems.

(** X9.  [changeable_items] maps an option key only to the value [get]
    reads for a non-fixed option declared in the plugin's section or in a
    global section of the parser; and every non-fixed option of the
    plugin's own section is in the result, with the value [get] reads
    for it there. *)
Theorem changeable_items_spec st m :
  changeable_items st = Ok m ->
  (forall k v, m !! k = Some v ->
     exists sect items val,
       (sect = st_section st \/
        (PyStr.startswith "global" sect = true /\ In sect (cp_sections (st_config st)))) /\
       assoc_lookup sect (st_defaults st) = Some items /\ In (k, val) (sec_items items) /\
       o_fixed val = false /\ get (st_defaults st) (st_config st) sect k = Ok v) /\
  (forall items k val, assoc_lookup (st_section st) (st_defaults st) = Some items ->
     In (k, val) (sec_items items) -> o_fixed val = false ->
     exists v, get (st_defaults st) (st_config st) (st_section st) k = Ok v /\ m !! k = Some v).
Proof.
  intros H. unfold changeable_items in H. cbv zeta in H.
  set (d := st_defaults st) in *. set (c := st_config st) in *.
  set (sections := app (filter (PyStr.startswith "global") (cp_sections c)) [st_section st]) in *.
  split.
  - refine (fold_result_inv (fun r => forall k v, r !! k = Some v ->
       exists sect items val,
         (sect = st_section st \/ (PyStr.startswith "global" sect = true /\ In sect (cp_sections c))) /\
         assoc_lookup sect d = Some items /\ In (k, val) (sec_items items) /\
         o_fixed val = false /\ get d c sect k = Ok v) _ _ _ _ _ _ H).
    + intros sect r r' Hin Hr Hs k v Hk.
      assert (Hsect : sect = st_section st \/
                      (PyStr.startswith "global" sect = true /\ In sect (cp_sections c))).
      { subst sections. apply in_app_iff in Hin as [Hin|[<-|[]]]; [|left; reflexivity].
        apply list_elem_of_In, list_elem_of_filter in Hin as [Hg Hin].
        right. split; [apply Is_true_eq_true; exact Hg|apply list_elem_of_In; exact Hin]. }
      destruct (assoc_lookup sect d) as [items|] eqn:Ei; [|injection Hs as <-; exact (Hr k v Hk)].
      destruct (changeable_step_sound d c sect _ _ _ Hs k v Hk) as [Hr0|(val & Hin' & Hf & Hg)].
      * exact (Hr k v Hr0).
      * exists sect, items, val. auto.
    + intros k v Hk. rewrite lookup_empty in Hk. discriminate Hk.
  - intros items k val Hi Hin Hf. subst sections.
    rewrite fold_result_app in H. unfold bind at 1 in H.
    destruct (fold_result _ (filter _ _) ∅) as [r|e]; [|discriminate H].
    cbn [fold_result] in H. rewrite Hi in H. unfold bind in H.
    destruct (fold_result _ (sec_items items) r) as [m'|e] eqn:Em; [|discriminate H].
    injection H as <-. exact (changeable_step_complete d c (st_section st) _ _ _ Em k val Hin Hf).
Qed.

Lemma changeable_items_spec_witness :
  exists m, changeable_items Sample.loaded = Ok m /\
  (forall k v, m !! k = Some v ->
     exists sect items val,
       (sect = st_section Sample.loaded \/
        (PyStr.startswith "global" sect = true /\ In sect (cp_sections (st_config Sample.loaded)))) /\
       assoc_lookup sect (st_defaults Sample.loaded) = Some items /\ In (k, val) (sec_items items) /\
       o_fixed val = false /\ get (st_defaults Sample.loaded) (st_config Sample.loaded) sect k = Ok v) /\
  (forall items k val, assoc_lookup (st_section Sample.loaded) (st_defaults Sample.loaded) = Some items ->
     In (k, val) (sec_items items) -> o_fixed val = false ->
     exists v, get (st_defaults Sample.loaded) (st_config Sample.loaded) (st_section Sample.loaded) k = Ok v /\
               m !! k = Some v).
Proof.
  assert (E : exists m, changeable_items Sample.loaded = Ok m) by (eexists; vm_compute; reflexivity).
  destruct E as [m E]. exists m. split; [exact E|]. exact (changeable_items_spec Sample.loaded m E).
Defined.

Lemma plain_file_wf f : plain_file f = true -> wf_cp f.
Proof.
  unfold plain_file. intros H. apply andb_true_iff in H as [Hn Hi].
  split; [exact (proj1 (nodupb_NoDup _) Hn)|].
  intros s its Hin. rewrite forallb_forall in Hi. specialize (Hi _ Hin). cbv beta iota in Hi.
  apply andb_true_iff in Hi as [Hi _]. apply andb_true_iff in Hi as [_ Hi].
  exact (proj1 (nodupb_NoDup _) Hi).
Qed.

(** X10.  [load_config] merges a file written from a [plain_file] into the
    parser: a key of a file section (of the file's defaults, for
    "DEFAULT") takes the file's value (continuation lines rejoined),
    comment keys of the file are skipped, and everything the file does
    not set keeps its value in the parser. *)
Theorem load_config_merges st f s k :
  st_file st = Some f -> plain_file f = true ->
  cp_val s k (st_config (load_config st)) =
    match (if String.eqb s "DEFAULT" then Some (cp_defaults f) else assoc_lookup s f) with
    | Some its =>
        if is_comment_key k then cp_val s k (st_config st)
        else match assoc_lookup k its with
             | Some v => Some (option_map reread_value v)
             | None => cp_val s k (st_config st)
             end
    | None => cp_val s k (st_config st)
    end.
Proof.
  intros Hf Hp. unfold load_config. rewrite Hf. cbn [with_config st_config].
  rewrite (read_into_val _ _ _ _ (wf_read_view f (plain_file_wf f Hp))), read_view_lookup.
  destruct (String.eqb s "DEFAULT").
  - destruct (cp_defaults f) as [|p d].
    + cbn. destruct (is_comment_key k); reflexivity.
    + rewrite view_lookup. destruct (is_comment_key k); [reflexivity|].
      destruct (assoc_lookup k (p :: d)); reflexivity.
  - destruct (assoc_lookup s f) as [its|]; cbn [option_map]; [|reflexivity].
    rewrite view_lookup. destruct (is_comment_key k); [reflexivity|].
    destruct (assoc_lookup k its); reflexivity.
Qed.

Lemma load_config_merges_witness :
  cp_val "global" "size" (st_config (load_config (Sample.fresh "model.a" (Some Sample.user_file)))) =
    Some (Some "1000").
Proof.
  refine (eq_trans (load_config_merges (Sample.fresh "model.a" (Some Sample.user_file))
                      Sample.user_file "global" "size" eq_refl _) _).
  - vm_compute. reflexivity.
  - vm_compute. reflexivity.
Defined.

Lemma In_keys_in_order x l acc : In x (keys_in_order l acc) <-> In x acc \/ In x l.
Proof.
  revert acc. induction l as [|a l IH]; intros acc; unfold keys_in_order; cbn [fold_left].
  - cbn. tauto.
  - fold (keys_in_order l (if mem a acc then acc else app acc [a])). rewrite IH.
    destruct (mem a acc) eqn:E.
    + apply mem_In in E. cbn. intuition (subst; auto).
    + rewrite in_app_iff. cbn. intuition (subst; auto).
Qed.

Lemma cp_set_after_get s k v0 v c c' :
  String.eqb s "" = false -> cp_get s k c = Ok v0 -> cp_set s k v c = Ok c' ->
  (forall s' k', (s' <> s \/ k' <> k) -> cp_val s' k' c' = cp_val s' k' c) /\
  (forall s' x, In x (cp_keys s' c') <-> In x (cp_keys s' c)) /\ cp_sections c' = cp_sections c.
Proof.
  intros He Hg Hs. split.
  { intros s' k' Hne. rewrite (cp_set_val _ _ _ _ _ _ _ Hs). unfold set_target. rewrite He.
    destruct (String.eqb s' s) eqn:E1, (String.eqb k' k) eqn:E2; try reflexivity.
    apply String.eqb_eq in E1, E2. destruct Hne; contradiction. }
  unfold cp_get, cp_unify in Hg. unfold cp_set in Hs.
  destruct (match v with Some x => _ | None => _ end) as [[]|]; [|discriminate].
  rewrite He in Hs. cbn [orb] in Hs.
  destruct (String.eqb s "DEFAULT") eqn:Ed.
  - injection Hs as <-. red_bind Hg.
    destruct (assoc_lookup k (cp_defaults c)) eqn:Hk; [|discriminate].
    assert (Hd : cp_defaults (assoc_set "DEFAULT" (assoc_set k v (cp_defaults c)) c) =
                 assoc_set k v (cp_defaults c)).
    { unfold cp_defaults at 1. rewrite assoc_lookup_set, String.eqb_refl. reflexivity. }
    assert (Hf : map fst (assoc_set k v (cp_defaults c)) = map fst (cp_defaults c)).
    { rewrite map_fst_assoc_set, (lookup_some_mem _ _ _ Hk). reflexivity. }
    split.
    + intros s' x. unfold cp_keys. rewrite Hd, Hf.
      destruct (String.eqb s' "DEFAULT") eqn:E; [reflexivity|].
      rewrite assoc_lookup_set, E. reflexivity.
    + unfold cp_sections. rewrite map_fst_assoc_set.
      destruct (mem "DEFAULT" (map fst c)); [reflexivity|].
      unfold configparser in *. rewrite filter_app, filter_cons. case_decide as Hx; [destruct Hx|].
      rewrite filter_nil, app_nil_r. reflexivity.
  - destruct (assoc_lookup s c) as [its|] eqn:Hl; [|discriminate]. injection Hs as <-.
    red_bind Hg. destruct (assoc_lookup k (app its (cp_defaults c))) eqn:Hk; [|discriminate].
    assert (Hd : cp_defaults (assoc_set s (assoc_set k v its) c) = cp_defaults c).
    { unfold cp_defaults. rewrite assoc_lookup_set, String.eqb_sym, Ed. reflexivity. }
    split.
    + intros s' x. unfold cp_keys. rewrite Hd.
      destruct (String.eqb s' "DEFAULT"); [reflexivity|].
      rewrite assoc_lookup_set. destruct (String.eqb s' s) eqn:E; [|reflexivity].
      apply String.eqb_eq in E. subst s'. rewrite Hl, !In_keys_in_order, map_fst_assoc_set.
      pose proof (assoc_lookup_In _ _ _ Hk) as Hin. apply (in_map fst) in Hin.
      rewrite map_app, in_app_iff in Hin. cbn [fst] in Hin.
      destruct (mem k (map fst its)); [reflexivity|].
      rewrite in_app_iff. cbn. intuition (subst; auto).
    + unfold cp_sections. rewrite map_fst_assoc_set, (lookup_some_mem _ _ _ Hl). reflexivity.
Qed.

Lemma check_item_choice_effect section item opt acc acc' :
  String.eqb section "" = false ->
  check_item_choice section item opt acc = Ok acc' ->
  (o_choices opt = [] -> acc' = acc) /\
  (forall s k, (s <> section \/ k <> item) -> cp_val s k (fst acc') = cp_val s k (fst acc)) /\
  (exists w, snd acc' = app (snd acc) w) /\
  (forall s x, In x (cp_keys s (fst acc')) <-> In x (cp_keys s (fst acc))) /\
  cp_sections (fst acc') = cp_sections (fst acc).
Proof.
  destruct acc as [config warnings]. intros He H.
  assert (Triv : acc' = (config, warnings) ->
    (forall s k, (s <> section \/ k <> item) -> cp_val s k (fst acc') = cp_val s k (fst (config, warnings))) /\
    (exists w, snd acc' = app (snd (config, warnings)) w) /\
    (forall s x, In x (cp_keys s (fst acc')) <-> In x (cp_keys s (fst (config, warnings)))) /\
    cp_sections (fst acc') = cp_sections (fst (config, warnings))).
  { intros ->. split; [reflexivity|]. split; [exists []; rewrite app_nil_r; reflexivity|].
    split; reflexivity. }
  unfold check_item_choice in H. destruct (o_choices opt) as [|ch chs] eqn:Ec.
  { injection H as <-. split; [reflexivity|]. apply Triv. reflexivity. }
  split; [discriminate|].
  destruct (pytype_eqb (o_type opt) TList).
  - unfold parse_list in H. destruct (cp_get section item config) as [raw|e] eqn:Eg; red_bind H;
      [|discriminate H].
    destruct (parse_list_raw raw) as [|v0 vs]; [injection H as <-; apply Triv; reflexivity|].
    destruct (existsb _ _); [|injection H as <-; apply Triv; reflexivity].
    match type of H with
    | context [cp_set ?s0 ?k0 ?v0 ?c0] =>
        destruct (cp_set s0 k0 v0 c0) as [c1|e] eqn:Es; red_bind H; [|discriminate H]
    end.
    injection H as <-. cbn [fst snd].
    destruct (cp_set_after_get _ _ _ _ _ _ He Eg Es) as (H1 & H2 & H3).
    split; [exact H1|]. split; [eexists; reflexivity|]. split; [exact H2|exact H3].
  - destruct (cp_get section item config) as [v|e] eqn:Eg; red_bind H; [|discriminate H].
    destruct v as [ov|]; [|discriminate H].
    destruct (_ && _); [injection H as <-; apply Triv; reflexivity|].
    destruct (negb _); [|injection H as <-; apply Triv; reflexivity].
    match type of H with
    | context [cp_set ?s0 ?k0 ?v0 ?c0] =>
        destruct (cp_set s0 k0 v0 c0) as [c1|e] eqn:Es; red_bind H; [|discriminate H]
    end.
    injection H as <-. cbn [fst snd].
    destruct (cp_set_after_get _ _ _ _ _ _ He Eg Es) as (H1 & H2 & H3).
    split; [exact H1|]. split; [eexists; reflexivity|]. split; [exact H2|exact H3].
Qed.

(** X11.  For a schema with no section named "" (which [config.set]
    would take for the defaults), [check_config_choices] only ever
    rewrites the value of an option declared with choices: every other
    stored value and the sections are unchanged, every section keeps the
    same set of keys (a rewritten key inherited from the defaults moves
    into the section), and warnings are only appended. *)
Theorem check_config_choices_scope st st' :
  ~ In "" (map fst (st_defaults st)) ->
  check_config_choices st = Ok st' ->
  (forall s k,
     (forall items opt, In (s, items) (st_defaults st) -> In (k, opt) (sec_items items) ->
        o_choices opt = []) ->
     cp_val s k (st_config st') = cp_val s k (st_config st)) /\
  (exists w, st_warnings st' = app (st_warnings st) w) /\
  (forall s x, In x (cp_keys s (st_config st')) <-> In x (cp_keys s (st_config st))) /\
  cp_sections (st_config st') = cp_sections (st_config st) /\
  st_defaults st' = st_defaults st /\ st_file st' = st_file st.
Proof.
  intros Hne H. unfold check_config_choices in H. red_bind H.
  set (NC := fun s k => forall items opt, In (s, items) (st_defaults st) ->
                          In (k, opt) (sec_items items) -> o_choices opt = []).
  set (P := fun acc : configparser * list warning =>
    (forall s k, NC s k -> cp_val s k (fst acc) = cp_val s k (st_config st)) /\
    (exists w, snd acc = app (st_warnings st) w) /\
    (forall s x, In x (cp_keys s (fst acc)) <-> In x (cp_keys s (st_config st))) /\
    cp_sections (fst acc) = cp_sections (st_config st)).
  destruct (fold_result _ (st_defaults st) (st_config st, st_warnings st)) as [acc|e] eqn:Ef;
    [|discriminate H].
  injection H as <-.
  assert (HP : P acc).
  { refine (fold_result_inv P _ _ _ _ _ _ Ef).
    - intros [section items] a a' Hin Ha Hf. cbv beta iota in Hf.
      refine (fold_result_inv P _ _ _ _ _ Ha Hf).
      assert (Hse : String.eqb section "" = false).
      { apply String.eqb_neq. intros ->. apply Hne. apply in_map_iff.
        exists ("", items). split; [reflexivity|exact Hin]. }
      intros [item opt] b b' Hin' Hb Hc. cbv beta iota in Hc.
      destruct (check_item_choice_effect _ _ _ _ _ Hse Hc) as (E0 & E1 & E2 & E3 & E4).
      destruct Hb as (B1 & (w & B2) & B3 & B4).
      split; [|split; [|split]].
      + intros s k Hnc. destruct (String.eq_dec s section) as [->|Hs];
          [destruct (String.eq_dec k item) as [->|Hk]|].
        * rewrite (E0 (Hnc items opt Hin Hin')). exact (B1 _ _ Hnc).
        * rewrite E1 by (right; exact Hk). exact (B1 _ _ Hnc).
        * rewrite E1 by (left; exact Hs). exact (B1 _ _ Hnc).
      + destruct E2 as [w' ->]. rewrite B2, <- app_assoc. eexists; reflexivity.
      + intros s x. rewrite E3. apply B3.
      + rewrite E4. exact B4.
    - split; [reflexivity|]. split; [exists []; rewrite app_nil_r; reflexivity|].
      split; [reflexivity|reflexivity]. }
  destruct HP as (H1 & H2 & H3 & H4).
  split; [exact H1|]. split; [exact H2|]. split; [exact H3|]. split; [exact H4|].
  split; reflexivity.
Qed.

Lemma check_config_choices_scope_witness :
  ~ In "" (map fst (st_defaults Sample.loaded)) /\
  exists st', check_config_choices Sample.loaded = Ok st' /\
  (forall s k,
     (forall items opt, In (s, items) (st_defaults Sample.loaded) -> In (k, opt) (sec_items items) ->
        o_choices opt = []) ->
     cp_val s k (st_config st') = cp_val s k (st_config Sample.loaded)) /\
  (exists w, st_warnings st' = app (st_warnings Sample.loaded) w) /\
  (forall s x, In x (cp_keys s (st_config st')) <-> In x (cp_keys s (st_config Sample.loaded))) /\
  cp_sections (st_config st') = cp_sections (st_config Sample.loaded) /\
  st_defaults st' = st_defaults Sample.loaded /\ st_file st' = st_file Sample.loaded.
Proof.
  assert (E : exists st', check_config_choices Sample.loaded = Ok st') by (eexists; vm_compute; reflexivity).
  assert (Hne : ~ In "" (map fst (st_defaults Sample.loaded))) by (apply not_In_mem; vm_compute; reflexivity).
  split; [exact Hne|].
  destruct E as [st' E]. exists st'. split; [exact E|]. exact (check_config_choices_scope _ _ Hne E).
Defined.

Lemma prefix_inv p s : String.prefix p s = true -> exists r, s = String.append p r.
Proof.
  revert s. induction p as [|x p' IH]; intros s H; [exists s; reflexivity|].
  destruct s as [|y s']; [discriminate H|].
  change (String.prefix (String x p') (String y s')) with
    (if ascii_dec x y then String.prefix p' s' else false) in H.
  destruct (ascii_dec x y) as [<-|]; [|discriminate H].
  destruct (IH s' H) as [r ->]. exists r. reflexivity.
Qed.

Lemma help_prefixed_comment_like k :
  (PyStr.startswith "# " k || PyStr.startswith (String nl "# ") k) = true -> comment_like k = true.
Proof.
  intros [H|H]%orb_true_iff; apply prefix_inv in H as [r ->]; reflexivity.
Qed.

Lemma format_help_prefixed h b :
  (PyStr.startswith "# " (format_help h b) ||
   PyStr.startswith (String nl "# ") (format_help h b)) = true.
Proof.
  unfold format_help. cbv zeta.
  match goal with |- context [String.append "# " ?y] => generalize y as z end.
  intros y. destruct b.
  - change (PyStr.upper (String.append "# " y)) with (String.append "# " (PyStr.upper y)).
    rewrite startswith_hash_sp. reflexivity.
  - apply orb_true_iff. right. destruct y; reflexivity.
Qed.

Lemma cp_set_keys s k v c c' s' k' :
  cp_set s k v c = Ok c' -> In k' (cp_keys s' c') -> In k' (cp_keys s' c) \/ k' = k.
Proof.
  unfold cp_set. destruct (match v with Some x => _ | None => _ end) as [[]|]; [|discriminate].
  destruct (String.eqb s "" || String.eqb s "DEFAULT") eqn:Eb.
  - intros H. injection H as <-.
    assert (Hd : cp_defaults (assoc_set "DEFAULT" (assoc_set k v (cp_defaults c)) c)
                 = assoc_set k v (cp_defaults c)).
    { unfold cp_defaults at 1. rewrite assoc_lookup_set, String.eqb_refl. reflexivity. }
    unfold cp_keys. rewrite Hd. destruct (String.eqb s' "DEFAULT") eqn:E.
    + intros Hin. destruct (In_map_fst_assoc_set _ _ _ _ Hin) as [->|H]; [right; reflexivity|left; exact H].
    + rewrite assoc_lookup_set, E. destruct (assoc_lookup s' c) as [its|]; [|intros []].
      rewrite !In_keys_in_order. intros [H|H]; [left; left; exact H|].
      destruct (In_map_fst_assoc_set _ _ _ _ H) as [->|H']; [right; reflexivity|left; right; exact H'].
  - apply orb_false_iff in Eb as [Ee Ed].
    destruct (assoc_lookup s c) as [its|] eqn:Hl; [|discriminate]. intros H. injection H as <-.
    assert (Hd : cp_defaults (assoc_set s (assoc_set k v its) c) = cp_defaults c).
    { unfold cp_defaults. rewrite assoc_lookup_set, String.eqb_sym, Ed. reflexivity. }
    unfold cp_keys. rewrite Hd. destruct (String.eqb s' "DEFAULT"); [intros H; left; exact H|].
    rewrite assoc_lookup_set. destruct (String.eqb s' s) eqn:E; [|intros H; left; exact H].
    apply String.eqb_eq in E. subst s'. rewrite Hl, !In_keys_in_order.
    intros [H|H]; [|left; right; exact H].
    destruct (In_map_fst_assoc_set _ _ _ _ H) as [->|H']; [right; reflexivity|left; left; exact H'].
Qed.

Lemma cp_set_sections s k v c c' : cp_set s k v c = Ok c' -> cp_sections c' = cp_sections c.
Proof.
  unfold cp_set. destruct (match v with Some x => _ | None => _ end) as [[]|]; [|discriminate].
  destruct (String.eqb s "" || String.eqb s "DEFAULT").
  - intros H. injection H as <-. unfold cp_sections. rewrite map_fst_assoc_set.
    destruct (mem "DEFAULT" (map fst c)); [reflexivity|].
    rewrite filter_app, filter_cons. case_decide as Hx; [destruct Hx|].
    rewrite filter_nil, app_nil_r. reflexivity.
  - destruct (assoc_lookup s c) as [its|] eqn:Hl; [|discriminate].
    intros H. injection H as <-. unfold cp_sections.
    rewrite map_fst_assoc_set, (lookup_some_mem _ _ _ Hl). reflexivity.
Qed.

Lemma cp_add_section_defaults s c c' : cp_add_section s c = Ok c' -> cp_defaults c' = cp_defaults c.
Proof.
  intros H. unfold cp_defaults. rewrite (cp_add_section_lookup _ _ _ _ H).
  unfold cp_add_section in H. destruct (String.eqb s "DEFAULT") eqn:Ed; [discriminate|].
  rewrite String.eqb_sym, Ed. reflexivity.
Qed.

Lemma cp_set_defaults s k v c c' :
  String.eqb s "" = false -> String.eqb s "DEFAULT" = false ->
  cp_set s k v c = Ok c' -> cp_defaults c' = cp_defaults c.
Proof.
  intros He Ed. unfold cp_set. destruct (match v with Some x => _ | None => _ end) as [[]|]; [|discriminate].
  rewrite He, Ed. cbn [orb].
  destruct (assoc_lookup s c) as [its|]; [|discriminate]. intros H. injection H as <-.
  unfold cp_defaults. rewrite assoc_lookup_set, String.eqb_sym, Ed. reflexivity.
Qed.

Lemma insert_config_section_shape s h c c' :
  String.eqb s "" = false ->
  insert_config_section s h c = Ok c' ->
  String.eqb s "DEFAULT" = false /\
  cp_sections c' = app (cp_sections c) [s] /\ cp_defaults c' = cp_defaults c /\
  (forall s' k', In k' (cp_keys s' c') ->
     In k' (cp_keys s' c) \/ In k' (map fst (cp_defaults c)) \/ k' = format_help h true).
Proof.
  unfold insert_config_section. intros He H. red_bind H.
  destruct (cp_add_section s c) as [c1|] eqn:Ha; [|discriminate].
  assert (Ed : String.eqb s "DEFAULT" = false).
  { unfold cp_add_section in Ha. destruct (String.eqb s "DEFAULT"); [discriminate|reflexivity]. }
  split; [exact Ed|]. split; [|split].
  - rewrite (cp_set_sections _ _ _ _ _ H). unfold cp_add_section in Ha. rewrite Ed in Ha.
    destruct (mem s (cp_sections c)); [discriminate|]. injection Ha as <-.
    unfold cp_sections. rewrite map_app, filter_app. cbn [map fst].
    rewrite filter_cons. case_decide as Hx; [rewrite filter_nil; reflexivity|].
    exfalso. apply Hx. rewrite Ed. exact I.
  - rewrite (cp_set_defaults _ _ _ _ _ He Ed H). exact (cp_add_section_defaults _ _ _ Ha).
  - intros s' k' Hin. destruct (cp_set_keys _ _ _ _ _ _ _ H Hin) as [Hin1| ->]; [|right; right; reflexivity].
    unfold cp_keys in Hin1 |- *. rewrite (cp_add_section_defaults _ _ _ Ha) in Hin1.
    destruct (String.eqb s' "DEFAULT"); [left; exact Hin1|].
    rewrite (cp_add_section_lookup _ _ _ _ Ha) in Hin1.
    destruct (String.eqb s' s).
    + right; left. rewrite In_keys_in_order in Hin1. destruct Hin1 as [[]|H1]; exact H1.
    + left; exact Hin1.
Qed.

Lemma insert_config_item_shape s k v o c c' :
  String.eqb s "" = false -> String.eqb s "DEFAULT" = false ->
  insert_config_item s k v o c = Ok c' ->
  cp_sections c' = cp_sections c /\ cp_defaults c' = cp_defaults c /\
  (forall s' k', In k' (cp_keys s' c') ->
     In k' (cp_keys s' c) \/ k' = k \/ k' = format_help (o_helptext o) false).
Proof.
  unfold insert_config_item. intros He Ed H. red_bind H.
  destruct (cp_set s (format_help (o_helptext o) false) None c) as [c1|] eqn:H1; [|discriminate].
  split; [|split].
  - rewrite (cp_set_sections _ _ _ _ _ H). exact (cp_set_sections _ _ _ _ _ H1).
  - rewrite (cp_set_defaults _ _ _ _ _ He Ed H). exact (cp_set_defaults _ _ _ _ _ He Ed H1).
  - intros s' k' Hin. destruct (cp_set_keys _ _ _ _ _ _ _ H Hin) as [Hin1| ->]; [|right; left; reflexivity].
    destruct (cp_set_keys _ _ _ _ _ _ _ H1 Hin1) as [Hin2| ->]; [left; exact Hin2|right; right; reflexivity].
Qed.

Lemma gen_fold_shape val d c c' :
  ~ In "" (map fst d) ->
  gen_fold val d c = Ok c' ->
  cp_sections c' = app (cp_sections c) (map fst d) /\ cp_defaults c' = cp_defaults c /\
  (forall s k, In k (cp_keys s c') ->
     In k (cp_keys s c) \/ In k (map fst (cp_defaults c)) \/
     (PyStr.startswith "# " k || PyStr.startswith (String nl "# ") k) = true \/
     exists s0 sec0 e, In (s0, sec0) d /\ In (k, e) (sec_items sec0)).
Proof.
  revert c. induction d as [|[s0 sec0] r IH]; intros c Hne H.
  - injection H as <-. rewrite app_nil_r. split; [reflexivity|]. split; [reflexivity|].
    intros; left; assumption.
  - assert (He : String.eqb s0 "" = false).
    { apply String.eqb_neq. intros ->. apply Hne. left. reflexivity. }
    assert (Hne' : ~ In "" (map fst r)) by (intros Hx; apply Hne; right; exact Hx).
    unfold gen_fold in H. cbn [fold_result] in H. red_bind H.
    destruct (helptext_of (sec_helptext sec0)) as [h|]; [|discriminate].
    destruct (insert_config_section s0 h c) as [c1|] eqn:Hs; [|discriminate].
    match type of H with
    | context [fold_result ?F (sec_items sec0) c1] =>
        destruct (fold_result F (sec_items sec0) c1) as [c2|] eqn:Hi; [|discriminate]
    end.
    change (gen_fold val r c2 = Ok c') in H.
    destruct (IH c2 Hne' H) as (Hsec & Hdef & Hkeys).
    destruct (insert_config_section_shape _ _ _ _ He Hs) as (Ed & Hsec1 & Hdef1 & Hkeys1).
    set (Q := fun cfg => cp_sections cfg = cp_sections c1 /\ cp_defaults cfg = cp_defaults c1 /\
      forall s k, In k (cp_keys s cfg) ->
        In k (cp_keys s c1) \/
        (PyStr.startswith "# " k || PyStr.startswith (String nl "# ") k) = true \/
        exists e, In (k, e) (sec_items sec0)).
    assert (HQ : Q c2).
    { refine (fold_result_inv Q _ _ _ _ _ _ Hi).
      - intros [item opt] a a' Hin (Qa1 & Qa2 & Qa3) Ha. red_bind Ha.
        destruct (val s0 item opt) as [v|]; [|discriminate].
        destruct (insert_config_item_shape _ _ _ _ _ _ He Ed Ha) as (Hs2 & Hd2 & Hk2).
        split; [congruence|]. split; [congruence|].
        intros s k Hk. destruct (Hk2 s k Hk) as [Hk'|[->| ->]].
        + exact (Qa3 s k Hk').
        + right; right. exists opt. exact Hin.
        + right; left. apply format_help_prefixed.
      - split; [reflexivity|]. split; [reflexivity|]. intros; left; assumption. }
    destruct HQ as (Q1 & Q2 & Q3). split; [|split].
    + rewrite Hsec, Q1, Hsec1. cbn [map fst]. rewrite <- app_assoc. reflexivity.
    + rewrite Hdef, Q2, Hdef1. reflexivity.
    + intros s k Hk. destruct (Hkeys s k Hk) as [Hk2|[Hk2|[Hp|(s1 & sec1 & e & Hin1 & Hin2)]]].
      * destruct (Q3 s k Hk2) as [Hk1|[Hp|[e He']]].
        -- destruct (Hkeys1 s k Hk1) as [Hk0|[Hk0| ->]];
             [left; exact Hk0|right; left; exact Hk0|right; right; left; apply format_help_prefixed].
        -- right; right; left; exact Hp.
        -- right; right; right. exists s0, sec0, e. split; [left; reflexivity|exact He'].
      * right; left. rewrite Q2, Hdef1 in Hk2. exact Hk2.
      * right; right; left; exact Hp.
      * right; right; right. exists s1, sec1, e. split; [right; exact Hin1|exact Hin2].
Qed.

Lemma gen_fold_nodup val d c c' : gen_fold val d c = Ok c' -> NoDup (map fst d).
Proof.
  revert c. induction d as [|[s0 sec0] r IH]; intros c H; [constructor|].
  unfold gen_fold in H. cbn [fold_result] in H. red_bind H.
  destruct (helptext_of (sec_helptext sec0)) as [h|]; [|discriminate].
  destruct (insert_config_section s0 h c) as [c1|] eqn:Hs; [|discriminate].
  match type of H with
  | context [fold_result ?F (sec_items sec0) c1] =>
      destruct (fold_result F (sec_items sec0) c1) as [c2|] eqn:Hi; [|discriminate];
      pose proof (gen_items_some val s0 (sec_items sec0) c1 c2 s0 Hi) as Hmono
  end.
  change (gen_fold val r c2 = Ok c') in H.
  cbn [map fst]. constructor; [|exact (IH c2 H)].
  intros Hin%list_elem_of_In. destruct (insert_config_section_val _ _ _ _ s0 "" Hs) as (_ & Hs1 & _).
  exact (Hmono Hs1 (gen_fold_fresh _ _ _ _ H s0 Hin)).
Qed.

Lemma cp_keys_nil s : cp_keys s [] = [].
Proof. unfold cp_keys. destruct (String.eqb s "DEFAULT"); reflexivity. Qed.

(** Without [DEFAULT] entries, a section's keys are those with a value. *)
Lemma cp_keys_val s k c : cp_defaults c = [] -> In k (cp_keys s c) <-> cp_val s k c <> None.
Proof.
  intros Hd. unfold cp_keys, cp_val. rewrite Hd. cbn [map].
  destruct (String.eqb s "DEFAULT") eqn:E.
  - apply String.eqb_eq in E. subst s.
    assert (Hn : match assoc_lookup "DEFAULT" c with Some its => assoc_lookup k its | None => None end = None).
    { unfold cp_defaults in Hd. destruct (assoc_lookup "DEFAULT" c); [subst; reflexivity|reflexivity]. }
    rewrite Hn. split; [intros []|intros H; exfalso; exact (H eq_refl)].
  - destruct (assoc_lookup s c) as [its|]; [|split; [intros []|intros H; exfalso; exact (H eq_refl)]].
    change (keys_in_order [] (map fst its)) with (map fst its).
    split; [apply In_lookup_some|].
    intros H. destruct (assoc_lookup k its) as [v|] eqn:E'; [|exfalso; exact (H eq_refl)].
    exact (in_map fst _ _ (assoc_lookup_In _ _ _ E')).
Qed.

Lemma set_eqb_refl l : set_eqb l l = true.
Proof.
  unfold set_eqb. rewrite andb_diag. apply forallb_forall. intros x Hx. apply mem_In. exact Hx.
Qed.

Lemma gen_fold_defaults_unchanged d c' :
  ~ In "" (map fst d) ->
  (forall s sec k e, In (s, sec) d -> In (k, e) (sec_items sec) -> comment_like k = false) ->
  (forall s sec, In (s, sec) d -> NoDup (map fst (sec_items sec))) ->
  gen_fold (fun _ _ o => Ok (o_default o)) d [] = Ok c' ->
  check_config_change d c' = false.
Proof.
  intros Hne Hck Hnd Hg.
  destruct (gen_fold_shape _ _ _ _ Hne Hg) as (Hsec & Hdef & Hkeys).
  assert (Hdef0 : cp_defaults c' = []) by (rewrite Hdef; reflexivity).
  pose proof (gen_fold_nodup _ _ _ _ Hg) as Hndd.
  unfold check_config_change. rewrite Hsec. change (cp_sections []) with (@nil string).
  cbn [app]. rewrite set_eqb_refl.
  cbv iota beta. cbn [negb].
  destruct (existsb _ d) eqn:E; [|reflexivity]. exfalso.
  apply existsb_exists in E as ([s items] & Hin & Hne').
  assert (Hs : assoc_lookup s d = Some items) by exact (In_assoc_lookup _ _ _ Hndd Hin).
  assert (Hval : forall k, comment_like k = false ->
            cp_val s k c' = match assoc_lookup k (sec_items items) with
                            | Some e => Some (Some (py_str (o_default e)))
                            | None => None
                            end).
  { intros k Hk. rewrite (gen_fold_val _ _ _ _ s k Hg Hnd Hne Hk), Hs. reflexivity. }
  assert (Heq : set_eqb (option_keys s c') (map fst (sec_items items)) = true).
  { unfold set_eqb. apply andb_true_iff. split; apply forallb_forall.
    - intros k Hk. unfold option_keys in Hk.
      apply list_elem_of_In, list_elem_of_filter in Hk as [Hf Hk].
      apply list_elem_of_In in Hk. apply Is_true_eq_true, negb_true_iff in Hf.
      destruct (Hkeys s k Hk) as [Hk0|[Hk0|[Hp|(s0 & sec0 & e & Hin0 & Hin1)]]].
      + rewrite cp_keys_nil in Hk0. destruct Hk0.
      + destruct Hk0.
      + congruence.
      + pose proof (Hck _ _ _ _ Hin0 Hin1) as Hk'.
        apply (cp_keys_val _ _ _ Hdef0) in Hk. rewrite (Hval k Hk') in Hk.
        destruct (assoc_lookup k (sec_items items)) as [e'|] eqn:Ek; [|exfalso; exact (Hk eq_refl)].
        exact (lookup_some_mem _ _ _ Ek).
    - intros k Hk. apply mem_In. apply in_map_iff in Hk as ([k0 e] & <- & Hk). cbn [fst].
      pose proof (Hck _ _ _ _ Hin Hk) as Hk'.
      assert (Hin' : In k0 (cp_keys s c')).
      { apply (cp_keys_val _ _ _ Hdef0). rewrite (Hval k0 Hk').
        destruct (assoc_lookup k0 (sec_items items)) eqn:Ek; [discriminate|].
        exfalso. exact (In_lookup_some k0 (sec_items items) (in_map fst _ _ Hk) Ek). }
      unfold option_keys. apply list_elem_of_In, list_elem_of_filter. split; [|apply list_elem_of_In; exact Hin'].
      apply Is_true_eq_left, negb_true_iff.
      destruct (_ || _) eqn:Ep; [|reflexivity].
      rewrite (help_prefixed_comment_like k0 Ep) in Hk'. discriminate Hk'. }
  rewrite Heq in Hne'. discriminate Hne'.
Qed.

(** X12.  The parser [create_default] builds into an empty parser passes
    [check_config_change] as unchanged: its sections are the schema's and
    the keys of each section, help-text comments aside, are the section's
    options; so a freshly created config is not regenerated.  No section
    may be named "" (configparser stores its items in [DEFAULT]), and the
    option names must not start like a comment ("#" or a newline). *)
Theorem create_default_unchanged st st' :
  st_config st = [] ->
  ~ In "" (map fst (st_defaults st)) ->
  (forall s sec k e, In (s, sec) (st_defaults st) -> In (k, e) (sec_items sec) ->
     comment_like k = false) ->
  (forall s sec, In (s, sec) (st_defaults st) -> NoDup (map fst (sec_items sec))) ->
  create_default st = Ok st' ->
  check_config_change (st_defaults st') (st_config st') = false.
Proof.
  intros Hc Hne Hck Hnd H. rewrite create_default_gen in H. red_bind H.
  destruct (gen_fold _ (st_defaults st) (st_config st)) as [c'|e] eqn:Hg; [|discriminate H].
  injection H as <-. cbn [save_config with_file with_config st_defaults st_config].
  rewrite Hc in Hg. exact (gen_fold_defaults_unchanged _ _ Hne Hck Hnd Hg).
Qed.

Lemma create_default_unchanged_witness :
  exists st', create_default (Sample.fresh "model.b" None) = Ok st' /\
    check_config_change (st_defaults st') (st_config st') = false.
Proof.
  assert (E : exists st', create_default (Sample.fresh "model.b" None) = Ok st')
    by (eexists; vm_compute; reflexivity).
  destruct E as [st' E]. exists st'. split; [exact E|].
  apply (create_default_unchanged (Sample.fresh "model.b" None)); [reflexivity| | | |exact E].
  - apply not_In_mem. vm_compute. reflexivity.
  - assert (Hb : forallb (fun '(s, sec) => forallb (fun '(k, e) => negb (comment_like k)) (sec_items sec))
                   (st_defaults (Sample.fresh "model.b" None)) = true) by (vm_compute; reflexivity).
    intros s sec k e Hs Hk. rewrite forallb_forall in Hb. specialize (Hb _ Hs). cbv beta iota in Hb.
    rewrite forallb_forall in Hb. specialize (Hb _ Hk). cbv beta iota in Hb.
    apply negb_true_iff in Hb. exact Hb.
  - assert (Hb : forallb (fun '(s, sec) => bool_decide (NoDup (map fst (sec_items sec))))
                   (st_defaults (Sample.fresh "model.b" None)) = true) by (vm_compute; reflexivity).
    intros s sec Hs. rewrite forallb_forall in Hb. specialize (Hb _ Hs). cbv beta iota in Hb.
    apply bool_decide_eq_true in Hb. exact Hb.
Defined.

Lemma set_eqb_ext l1 l1' l2 :
  (forall x, In x l1 <-> In x l1') -> set_eqb l1 l2 = set_eqb l1' l2.
Proof.
  intros Hx. unfold set_eqb. f_equal.
  - apply Bool.eq_iff_eq_true. rewrite !forallb_forall. split; intros H x Hin; apply H, Hx; exact Hin.
  - apply Bool.eq_iff_eq_true. rewrite !forallb_forall. split; intros H x Hin;
      specialize (H x Hin); apply mem_In in H; apply mem_In, Hx; exact H.
Qed.

Lemma option_keys_In s k c :
  In k (option_keys s c) <->
  In k (cp_keys s c) /\ negb (PyStr.startswith "# " k || PyStr.startswith (String nl "# ") k) = true.
Proof.
  unfold option_keys. rewrite <- list_elem_of_In, list_elem_of_filter, list_elem_of_In.
  split; intros [H1 H2]; split.
  - exact H2.
  - apply Is_true_eq_true. exact H1.
  - apply Is_true_eq_left. exact H2.
  - exact H1.
Qed.

(** [check_config_change] only looks at which sections and keys exist. *)
Lemma check_config_change_ext d a b :
  (forall s, In s (cp_sections a) <-> In s (cp_sections b)) ->
  (forall s k, In k (cp_keys s a) <-> In k (cp_keys s b)) ->
  check_config_change d a = check_config_change d b.
Proof.
  intros Hs Hk. unfold check_config_change. rewrite (set_eqb_ext _ _ _ Hs).
  destruct (negb _); [reflexivity|].
  induction d as [|[s items] r IH]; [reflexivity|]. cbn [existsb]. rewrite IH.
  f_equal. f_equal. apply set_eqb_ext. intros x. rewrite !option_keys_In, Hk. reflexivity.
Qed.

Lemma In_cp_sections s c :
  In s (cp_sections c) <-> In s (map fst c) /\ String.eqb s "DEFAULT" = false.
Proof.
  unfold cp_sections. rewrite <- list_elem_of_In, list_elem_of_filter, list_elem_of_In.
  split; intros [H1 H2]; split.
  - exact H2.
  - apply negb_true_iff, Is_true_eq_true. exact H1.
  - apply Is_true_eq_left, negb_true_iff. exact H2.
  - exact H1.
Qed.

Lemma read_key_fst s0 cfg kv : map fst (read_key s0 cfg kv) = map fst cfg.
Proof.
  destruct kv as [k v]. unfold read_key.
  destruct (assoc_lookup s0 cfg) as [its|] eqn:E; [|reflexivity].
  rewrite map_fst_assoc_set, (lookup_some_mem _ _ _ E). reflexivity.
Qed.

Lemma read_section_fst cfg s0 its x :
  In x (map fst (read_section cfg (s0, its))) <-> x = s0 \/ In x (map fst cfg).
Proof.
  unfold read_section.
  set (cfgA := if mem s0 (map fst cfg) then cfg else app cfg [(s0, [])]).
  assert (HA : map fst (fold_left (read_key s0) its cfgA) = map fst cfgA).
  { apply (fold_left_inv (fun c => map fst c = map fst cfgA)); [|reflexivity].
    intros kv c _ Hc. rewrite read_key_fst. exact Hc. }
  rewrite HA. unfold cfgA. destruct (mem s0 (map fst cfg)) eqn:Hm.
  - apply mem_In in Hm. split; [intros H; right; exact H|intros [->|H]; [exact Hm|exact H]].
  - rewrite map_app, in_app_iff. cbn.
    split; intros [H|H]; try tauto; [destruct H as [H|[]]; left; symmetry; exact H|].
    right; left; symmetry; exact H.
Qed.

Lemma read_sections_fst l cfg x :
  In x (map fst (fold_left read_section l cfg)) <-> In x (map fst l) \/ In x (map fst cfg).
Proof.
  revert cfg. induction l as [|[s0 its] r IH]; intros cfg; cbn [fold_left map fst In].
  - tauto.
  - rewrite IH, read_section_fst. split; intros H; intuition (subst; auto).
Qed.

Lemma read_view_fst c x : cp_defaults c = [] -> In x (map fst (read_view c)) -> In x (map fst c).
Proof.
  intros Hd Hin. unfold read_view in Hin. rewrite Hd in Hin.
  rewrite map_app, in_app_iff in Hin. destruct Hin as [[]|Hin].
  apply in_map_iff in Hin as ([s its] & <- & Hin).
  apply in_map_iff in Hin as ([s' its'] & Heq & Hin).
  apply list_elem_of_In, list_elem_of_filter in Hin as [_ Hin]. apply list_elem_of_In in Hin.
  injection Heq as Hs _. subst s. exact (in_map fst _ _ Hin).
Qed.

Lemma cp_defaults_nil_val c k : cp_defaults c = [] -> cp_val "DEFAULT" k c = None.
Proof.
  unfold cp_defaults, cp_val. destruct (assoc_lookup "DEFAULT" c); [intros ->; reflexivity|reflexivity].
Qed.

Lemma cp_defaults_nil_iff c : cp_defaults c = [] <-> forall k, cp_val "DEFAULT" k c = None.
Proof.
  split; [intros H k; exact (cp_defaults_nil_val c k H)|].
  unfold cp_defaults, cp_val. destruct (assoc_lookup "DEFAULT" c) as [its|]; [|reflexivity].
  destruct its as [|[k v] r]; [reflexivity|]. intros H. specialize (H k).
  cbn [assoc_lookup] in H. rewrite String.eqb_refl in H. discriminate H.
Qed.

(** Reading a well-formed parser without [DEFAULT] entries back from its
    own file keeps its sections and keys. *)
Lemma read_into_self_shape c :
  wf_cp c -> cp_defaults c = [] ->
  (forall s, In s (cp_sections (read_into c c)) <-> In s (cp_sections c)) /\
  (forall s k, In k (cp_keys s (read_into c c)) <-> In k (cp_keys s c)).
Proof.
  intros Hw Hd.
  assert (Hn : forall s k, cp_val s k (read_into c c) = None <-> cp_val s k c = None).
  { intros s k. rewrite (read_into_val _ _ _ _ (wf_read_view _ Hw)), read_view_lookup.
    destruct (String.eqb s "DEFAULT").
    - rewrite Hd. reflexivity.
    - destruct (assoc_lookup s c) as [its|] eqn:Ec; cbn [option_map]; [|reflexivity].
      rewrite view_lookup. destruct (is_comment_key k); [reflexivity|].
      unfold cp_val. rewrite Ec.
      destruct (assoc_lookup k its); cbn [option_map]; split; intros H; congruence. }
  assert (Hd' : cp_defaults (read_into c c) = []).
  { apply cp_defaults_nil_iff. intros k. apply (proj2 (Hn _ _)). exact (cp_defaults_nil_val _ _ Hd). }
  split.
  - intros s. rewrite !In_cp_sections. unfold read_into. rewrite read_sections_fst.
    split.
    + intros [[H|H] Hs]; split; [exact (read_view_fst _ _ Hd H)|exact Hs|exact H|exact Hs].
    + intros [H Hs]. split; [right; exact H|exact Hs].
  - intros s k. rewrite (cp_keys_val _ _ _ Hd'), (cp_keys_val _ _ _ Hd).
    split; intros H H'; apply H.
    + apply (proj2 (Hn _ _)). exact H'.
    + apply (proj1 (Hn _ _)). exact H'.
Qed.

(** X13.  When no config file exists, [handle_config] writes the file
    exactly once, from the parser [create_default] builds: reading it back
    keeps every section and option, so [validate_config] does not
    regenerate it, and the corrections [check_config_choices] makes are not
    saved.  The schema is plain ([plain_schema]: section and option names
    that read back as written, distinct option names, defaults without a
    carriage return), so that the written file reads back as modelled. *)
Theorem handle_config_missing_file st st' :
  st_file st = None -> st_config st = [] ->
  plain_schema (st_defaults st) = true ->
  handle_config st = Ok st' ->
  exists st1, create_default st = Ok st1 /\ st_file st' = Some (st_config st1) /\
    st_defaults st' = st_defaults st.
Proof.
  intros Hf Hc Hp H. unfold handle_config, check_exists in H. rewrite Hf in H.
  red_bind H. destruct (create_default st) as [st1|e] eqn:Hcd; [|discriminate H].
  exists st1. split; [reflexivity|].
  pose proof Hcd as Hcd'. rewrite create_default_gen in Hcd'. red_bind Hcd'.
  destruct (gen_fold _ (st_defaults st) (st_config st)) as [c'|e] eqn:Hg; [|discriminate Hcd'].
  injection Hcd' as <-. rewrite Hc in Hg.
  pose proof (plain_schema_no_empty _ Hp) as Hne.
  assert (Hck : forall s sec k e, In (s, sec) (st_defaults st) -> In (k, e) (sec_items sec) ->
                  comment_like k = false).
  { intros s sec k e Hs Hk. destruct (plain_schema_In _ _ _ Hp Hs) as (_ & _ & Hke).
    exact (proj1 (plain_key_not_comment _ (proj1 (Hke k e Hk)))). }
  assert (Hnd : forall s sec, In (s, sec) (st_defaults st) -> NoDup (map fst (sec_items sec))).
  { intros s sec Hs. exact (proj1 (proj2 (plain_schema_In _ _ _ Hp Hs))). }
  assert (Hw : wf_cp c').
  { refine (wf_gen_fold _ _ _ _ _ Hg). split; [constructor|intros ? ? []]. }
  destruct (gen_fold_shape _ _ _ _ Hne Hg) as (_ & Hdef & _).
  destruct (read_into_self_shape c' Hw Hdef) as [Hs Hk].
  pose proof (gen_fold_defaults_unchanged _ _ Hne Hck Hnd Hg) as Hch.
  cbn [load_config save_config with_file with_config st_file st_config] in H.
  unfold validate_config in H.
  change (st_defaults (with_config (save_config (with_config st c')) (read_into c' c')))
    with (st_defaults st) in H.
  rewrite (check_config_change_ext _ _ _ Hs Hk), Hch in H. red_bind H.
  unfold check_config_choices in H. red_bind H.
  destruct (fold_result _ _ _) as [acc|e] eqn:Hacc; [|discriminate H].
  injection H as <-. split; reflexivity.
Qed.

Lemma handle_config_missing_file_witness :
  exists st', handle_config (Sample.fresh "model.b" None) = Ok st' /\
    exists st1, create_default (Sample.fresh "model.b" None) = Ok st1 /\
      st_file st' = Some (st_config st1) /\
      st_defaults st' = st_defaults (Sample.fresh "model.b" None).
Proof.
  assert (E : exists st', handle_config (Sample.fresh "model.b" None) = Ok st')
    by (eexists; vm_compute; reflexivity).
  destruct E as [st' E]. exists st'. split; [exact E|].
  apply (handle_config_missing_file (Sample.fresh "model.b" None));
    [reflexivity|reflexivity| |exact E].
  vm_compute. reflexivity.
Defined.
